(** * groceryai: the product matcher, the cart accessor and the voice tools

    A shallow embedding of the TypeScript sources

      - src/lib/fuzzySearch.ts            (class ProductFuzzySearch),
      - src/context/AppContext.tsx        (cart and order functions of the provider),
      - src/components/VoiceAssistant.tsx (fetchLatestCartState and the client tools),
      - the handlers of the cart dialog, the product card and the profile
        dialog, which call the provider,

    into Gallina, followed by the properties the specification states about
    them and by further properties of the same code.  AppContext.tsx and
    VoiceAssistant.tsx each hold two copies of their component; both are
    embedded, under names of their own.

    Conventions of the embedding.

    - A JavaScript string is a [string]: a list of code units, each below 256
      (the Latin-1 range).  [toLowerCase] and [trim] are closed on that range,
      so both are modelled exactly there.  The texts of messages are only
      put out; their literals stand as the source file spells them.
    - An amount of money is an integer number of hundredths of a rupee
      (the columns are [decimal(10,2)]); quantities and stock are integers.
      Rounding of IEEE doubles is outside the model.
    - Fuse.js and ECMAScript's conversions between strings and numbers are
      libraries of the platform, not code of the repository: they are Section
      variables.
    - The storage backend is an explicit state (tables of rows) together with a
      schedule of faults; every call to supabase consumes one entry of it.
    - The React state of the provider ([user], [products], [cartItems]) is
      part of the state: [setCartItems] writes the cart, and the render that
      follows sees what was written.  A function made in a render is a
      closure of that render: a component that renders again with every
      change calls the functions of the current render, while the tools of a
      voice session keep those of the render in which the session started,
      and with them the cart state of that render.
    - A tool is called with a parameter object, each of whose properties is a
      dynamically typed value, [undefined] when absent, or with no object at
      all.  Logging to the console has no place in the model. *)

From Stdlib Require Import List String Ascii ZArith QArith Qround Bool Arith Lia.
From Stdlib Require Import Numbers.DecimalString.
Import ListNotations.

Local Close Scope Q_scope.
Local Open Scope string_scope.
Local Open Scope list_scope.
Local Open Scope bool_scope.
Local Open Scope nat_scope.

Infix "+++" := String.append (right associativity, at level 60).

(* ------------------------------------------------------------------------- *)
(** ** JavaScript strings *)

Module JsString.

Definition code (c : ascii) : nat := nat_of_ascii c.

(** WhiteSpace and LineTerminator code units below 256: TAB, LF, VT, FF, CR,
    SP and NBSP.  [String.prototype.trim] and the regular expression class
    [\s] use the same set. *)
Definition is_space (c : ascii) : bool :=
  let n := code c in
  ((9 <=? n) && (n <=? 13)) || (n =? 32) || (n =? 160).

(** Lower-casing of one code unit: A-Z, and the Latin-1 capitals U+00C0 to
    U+00DE except the multiplication sign U+00D7. *)
Definition lower_char (c : ascii) : ascii :=
  let n := code c in
  if ((65 <=? n) && (n <=? 90))
     || ((192 <=? n) && (n <=? 222) && negb (n =? 215))
  then ascii_of_nat (n + 32) else c.

Fixpoint toLowerCase (s : string) : string :=
  match s with
  | EmptyString => EmptyString
  | String c r => String (lower_char c) (toLowerCase r)
  end.

Fixpoint trimStart (s : string) : string :=
  match s with
  | EmptyString => EmptyString
  | String c r => if is_space c then trimStart r else s
  end.

Fixpoint trimEnd (s : string) : string :=
  match s with
  | EmptyString => EmptyString
  | String c r =>
      match trimEnd r with
      | EmptyString => if is_space c then EmptyString else String c EmptyString
      | r' => String c r'
      end
  end.

Definition trim (s : string) : string := trimEnd (trimStart s).

Fixpoint rev_onto (s acc : string) : string :=
  match s with
  | EmptyString => acc
  | String c r => rev_onto r (String c acc)
  end.

Definition rev (s : string) : string := rev_onto s EmptyString.

Definition startsWith (s p : string) : bool := String.prefix p s.

Definition endsWith (s p : string) : bool := String.prefix (rev p) (rev s).

(** [s.includes(t)] *)
Fixpoint includes (s t : string) : bool :=
  String.prefix t s ||
  match s with
  | EmptyString => false
  | String _ r => includes r t
  end.

(** [s.slice(0, n)] for a non-negative [n]. *)
Definition slice_to (n : nat) (s : string) : string := String.substring 0 n s.

(** [s.slice(0, -1)]: the string without its last code unit. *)
Definition drop_last (s : string) : string :=
  String.substring 0 (String.length s - 1) s.

(** [s.split(c)] for a one-character separator: the fields between the
    separators, empty fields included. *)
Fixpoint split_on (sep : ascii) (s : string) : list string :=
  match s with
  | EmptyString => [EmptyString]
  | String c r =>
      if Ascii.eqb c sep then EmptyString :: split_on sep r
      else match split_on sep r with
           | [] => [String c EmptyString]
           | w :: ws => String c w :: ws
           end
  end.

(** Removes [p] from the front of [s], when [s] starts with it. *)
Fixpoint strip_prefix (p s : string) : option string :=
  match p, s with
  | EmptyString, _ => Some s
  | String a p', String b s' => if Ascii.eqb a b then strip_prefix p' s' else None
  | String _ _, EmptyString => None
  end.

(** [s.replace(/^(w1|...|wn)\s+/, '')]: the first alternative that is followed
    by at least one white-space unit is removed together with the whole run of
    white space after it. *)
Fixpoint replace_leading_word (words : list string) (s : string) : string :=
  match words with
  | [] => s
  | w :: ws =>
      match strip_prefix w s with
      | Some (String c r) =>
          if is_space c then trimStart r else replace_leading_word ws s
      | _ => replace_leading_word ws s
      end
  end.

(** [s.replace(/\s+(w1|...|wn)$/, '')]: the mirror image, on the end of the
    string; the match starts at the beginning of the white-space run. *)
Definition replace_trailing_word (words : list string) (s : string) : string :=
  rev (replace_leading_word (map rev words) (rev s)).

End JsString.

Import JsString.

(* ------------------------------------------------------------------------- *)
(** ** The data model (src/types/index.ts)

    Identifiers of products and users are uuid strings; the identifiers the
    database generates for cart rows, orders and order items are drawn from a
    counter of the store.  Time stamps, and the fields no function below
    reads (a user's name and avatar, the image of a category), are left out. *)

Record Category := mkCategory {
  cat_id : string;
  cat_name : string
}.

Record Product := mkProduct {
  id : string;
  name : string;
  description : option string;
  price : Z;                       (* hundredths of a rupee *)
  image_url : option string;
  category_id : string;
  stock_quantity : Z;
  unit_label : string;
  category : option Category
}.

Record User := mkUser {
  uid : string;
  email : string
}.

(* ------------------------------------------------------------------------- *)
(** ** src/lib/fuzzySearch.ts *)

Inductive Confidence := exact | high | medium | low | none.

(** The [matchType] tag of a result.  The source renders the score of a fuzzy
    match into the tag with [toFixed(3)]; the embedding keeps the score. *)
Inductive MatchType :=
| empty_query
| exact_match
| singular_plural_match
| cleaned_exact_match
| fuzzy_match_score (score : Q)
| partial_word_match
| no_match.

Record FuzzySearchResult := mkFuzzy {
  fz_product : Product;
  fz_score : Q
}.

Record MatchResult := mkMatch {
  product : option Product;
  confidence : Confidence;
  alternatives : list Product;
  matchType : MatchType
}.

Definition prefix_words : list string :=
  ["fresh"; "organic"; "premium"; "quality"; "best"; "top"; "local"; "farm"].

Definition suffix_words : list string :=
  ["fruit"; "vegetable"; "item"; "product"; "food"].

(** [array.findIndex(p)]. *)
Fixpoint findIndex {A} (p : A -> bool) (l : list A) : option nat :=
  match l with
  | [] => None
  | x :: r => if p x then Some 0 else option_map S (findIndex p r)
  end.

(** [array.filter((x, index, array) => p x index array)]. *)
Fixpoint filter_indexed_from {A} (p : A -> nat -> bool) (i : nat) (l : list A)
  : list A :=
  match l with
  | [] => []
  | x :: r =>
      if p x i then x :: filter_indexed_from p (S i) r
      else filter_indexed_from p (S i) r
  end.

(** [array.slice(1, 4)]. *)
Definition slice_1_4 {A} (l : list A) : list A := firstn 3 (skipn 1 l).

Section ProductFuzzySearch.

(** [this.fuse.search(q, { limit })] of Fuse.js, configured as in the
    constructor (keys name 0.8 and description 0.2, threshold 0.4,
    minMatchCharLength 2, includeScore): the items with their scores, best
    first, at most [limit] of them. *)
Variable fuse : list Product -> string -> nat -> list FuzzySearchResult.

(** [this.products] *)
Variable products : list Product.

Definition search (query : string) (limit : nat) : list FuzzySearchResult :=
  if (query =? "")%string || (String.length (trim query) <? 2) then []
  else map (fun r => mkFuzzy (fz_product r) (fz_score r))
           (fuse products (trim query) limit).

Definition findBestMatch (query : string) : option FuzzySearchResult :=
  hd_error (search query 1).

(** The predicate of strategy 5 on one product. *)
Definition partial_word_hit (normalizedSearch : string) (p : Product) : bool :=
  let productName := toLowerCase (name p) in
  let searchWords := split_on " " normalizedSearch in
  existsb (fun word =>
    (3 <=? String.length word) &&
    (includes productName word
     || includes word productName
     || existsb (fun productWord =>
          startsWith productWord (slice_to 3 word)
          || startsWith word (slice_to 3 productWord))
          (split_on " " productName)))
    searchWords.

Definition getSuggestions (searchName : string) (limit : nat) : list Product :=
  let firstWord := hd EmptyString (split_on " " searchName) in
  if String.length firstWord <? 2 then []
  else
    let suggestions := search firstWord (limit * 2) in
    let letterSuggestions :=
      filter (fun p =>
        let productName := toLowerCase (name p) in
        startsWith productName (slice_to 2 firstWord)
        || existsb (fun word => startsWith word (slice_to 2 firstWord))
             (split_on " " productName))
        products in
    let allSuggestions := map fz_product suggestions ++ letterSuggestions in
    let uniqueSuggestions :=
      filter_indexed_from
        (fun product index =>
           match findIndex (fun p => (id p =? id product)%string) allSuggestions with
           | Some i => i =? index
           | None => false
           end)
        0 allSuggestions in
    firstn limit uniqueSuggestions.

Definition findProduct (searchName : string) : MatchResult :=
  if (searchName =? "")%string || (trim searchName =? "")%string then
    mkMatch None none [] empty_query
  else
  let normalizedSearch := trim (toLowerCase searchName) in
  (* Strategy 1: exact match *)
  match find (fun p => (toLowerCase (name p) =? normalizedSearch)%string) products with
  | Some exactMatch => mkMatch (Some exactMatch) exact [] exact_match
  | None =>
  (* Strategy 2: singular / plural *)
  let singularSearch :=
    if endsWith normalizedSearch "s" then drop_last normalizedSearch
    else normalizedSearch in
  let pluralSearch :=
    if endsWith normalizedSearch "s" then normalizedSearch
    else normalizedSearch +++ "s" in
  match find (fun p =>
                let productName := toLowerCase (name p) in
                (productName =? singularSearch)%string
                || (productName =? pluralSearch)%string) products with
  | Some pluralMatch => mkMatch (Some pluralMatch) exact [] singular_plural_match
  | None =>
  (* Strategy 3: decorations removed *)
  let cleanedSearch :=
    trim (replace_trailing_word suffix_words
            (replace_leading_word prefix_words normalizedSearch)) in
  let cleanMatch :=
    if negb (cleanedSearch =? normalizedSearch)%string
       && (2 <=? String.length cleanedSearch)
    then find (fun p =>
                 (toLowerCase (name p) =? cleanedSearch)%string
                 || (toLowerCase (name p) =?
                       (if endsWith cleanedSearch "s" then drop_last cleanedSearch
                        else cleanedSearch +++ "s"))%string) products
    else None in
  match cleanMatch with
  | Some p => mkMatch (Some p) high [] cleaned_exact_match
  | None =>
  (* Strategy 4: Fuse.js *)
  match search normalizedSearch 5 with
  | (bestMatch :: _) as fuzzyResults =>
      let conf :=
        if Qle_bool (fz_score bestMatch) (1 # 10) then high
        else if Qle_bool (fz_score bestMatch) (3 # 10) then medium
        else low in
      let alts :=
        map fz_product
          (filter (fun r => Qle_bool (fz_score r) (1 # 2)) (slice_1_4 fuzzyResults)) in
      mkMatch (Some (fz_product bestMatch)) conf alts
              (fuzzy_match_score (fz_score bestMatch))
  | [] =>
  (* Strategy 5: partial words *)
  match filter (partial_word_hit normalizedSearch) products with
  | (first :: _) as partialMatches =>
      mkMatch (Some first) low (slice_1_4 partialMatches) partial_word_match
  | [] =>
      mkMatch None none (getSuggestions normalizedSearch 3) no_match
  end end end end end.

End ProductFuzzySearch.

(* ------------------------------------------------------------------------- *)
(** ** JavaScript values and numbers *)

(** A number: NaN, an infinity, or a finite value. *)
Inductive JsNum := NaN | Infinite (positive : bool) | Num (q : Q).

(** The result of [Math.floor]: a whole number, an infinity, or NaN. *)
Inductive JsInt := Fin (z : Z) | PosInf | NegInf | NotNum.

(** A dynamically typed argument of a tool call.  [VObj] is an object with
    no numeric or string conversion of its own. *)
Inductive JsVal :=
| VUndefined | VNull | VBool (b : bool) | VNum (n : JsNum) | VStr (s : string) | VObj.

Definition is_zero (q : Q) : bool := (Qnum q =? 0)%Z.

Definition truthy (v : JsVal) : bool :=
  match v with
  | VUndefined | VNull => false
  | VBool b => b
  | VNum NaN => false
  | VNum (Infinite _) => true
  | VNum (Num q) => negb (is_zero q)
  | VStr s => negb (s =? "")%string
  | VObj => true
  end.

Definition is_string (v : JsVal) : bool :=
  match v with VStr _ => true | _ => false end.

Definition is_undefined (v : JsVal) : bool :=
  match v with VUndefined => true | _ => false end.

(** A parameter with a default value: [{ x = d }]. *)
Definition default_to (d v : JsVal) : JsVal :=
  match v with VUndefined => d | _ => v end.

(** [n || d] on numbers. *)
Definition num_or (n : JsNum) (d : Z) : JsNum :=
  match n with
  | NaN => Num (inject_Z d)
  | Infinite _ => n
  | Num q => if is_zero q then Num (inject_Z d) else n
  end.

(** [Math.floor] *)
Definition floor (n : JsNum) : JsInt :=
  match n with
  | NaN => NotNum
  | Infinite true => PosInf
  | Infinite false => NegInf
  | Num q => Fin (Qfloor q)
  end.

(** [Math.max(a, n)] and [Math.min(n, b)]; both are NaN when [n] is. *)
Definition int_max (a : Z) (n : JsInt) : JsInt :=
  match n with
  | Fin z => Fin (Z.max a z)
  | PosInf => PosInf
  | NegInf => Fin a
  | NotNum => NotNum
  end.

Definition int_min (n : JsInt) (b : Z) : JsInt :=
  match n with
  | Fin z => Fin (Z.min z b)
  | PosInf => Fin b
  | NegInf => NegInf
  | NotNum => NotNum
  end.

(** [a < n], [n < 0], [n <= 0], [n === 0] and [a + n]; a comparison with NaN
    is false. *)
Definition lt_int (a : Z) (n : JsInt) : bool :=
  match n with Fin z => (a <? z)%Z | PosInf => true | NegInf | NotNum => false end.

Definition int_neg (n : JsInt) : bool :=
  match n with Fin z => (z <? 0)%Z | NegInf => true | PosInf | NotNum => false end.

Definition int_le0 (n : JsInt) : bool :=
  match n with Fin z => (z <=? 0)%Z | NegInf => true | PosInf | NotNum => false end.

Definition int_is0 (n : JsInt) : bool :=
  match n with Fin z => (z =? 0)%Z | _ => false end.

Definition int_add (a : Z) (n : JsInt) : JsInt :=
  match n with Fin z => Fin (a + z) | _ => n end.

(** [array.slice(0, n)]: a negative [n] counts from the end, NaN reads as 0. *)
Definition slice_0 {A} (l : list A) (n : JsInt) : list A :=
  match n with
  | Fin z => if (z <? 0)%Z then firstn (List.length l - Z.to_nat (- z)) l
             else firstn (Z.to_nat z) l
  | PosInf => l
  | NegInf | NotNum => []
  end.

(** The number a text of decimal digits writes. *)
Fixpoint digits_value (acc : Z) (s : string) : option Z :=
  match s with
  | EmptyString => Some acc
  | String c r =>
      let n := code c in
      if (48 <=? n) && (n <=? 57)
      then digits_value (acc * 10 + Z.of_nat (n - 48))%Z r
      else None
  end.

(** Decimal rendering of integers, and [toFixed(2)] of an amount held in
    hundredths. *)
Definition show_Z (z : Z) : string := NilZero.string_of_int (Z.to_int z).

Definition show_nat (n : nat) : string := show_Z (Z.of_nat n).

Definition show_int (n : JsInt) : string :=
  match n with
  | Fin z => show_Z z
  | PosInf => "Infinity"
  | NegInf => "-Infinity"
  | NotNum => "NaN"
  end.

Definition two_digits (z : Z) : string :=
  (if (z <? 10)%Z then "0" else "") +++ show_Z z.

Definition toFixed2 (amount : Z) : string :=
  let a := Z.abs amount in
  (if (amount <? 0)%Z then "-" else "")
  +++ show_Z (a / 100) +++ "." +++ two_digits (a mod 100).

(* ------------------------------------------------------------------------- *)
(** ** The storage backend

    The tables the functions read and write, as lists of rows in insertion
    order.  Of the constraints of the schema the model keeps the ones the
    functions can run into: UNIQUE(user_id, product_id) and NOT NULL quantity
    on cart_items, and ON DELETE CASCADE from orders to order_items.  Any
    other refusal of the backend is an entry of the fault schedule.

    A request changes the table it addresses and nothing else.  What the
    backend may do of its own accord when a row is written (lowering the
    stock of a product when an order is placed, say) is not in the
    repository and is not modelled: no function below writes to the
    products table, and nothing is proved about what orders do to it. *)

Record CartRow := mkCartRow {
  cr_id : nat;
  cr_user_id : string;
  cr_product_id : string;
  cr_quantity : Z
}.

Record OrderRow := mkOrderRow {
  or_id : nat;
  or_user_id : string;
  or_total_amount : Z;
  or_status : string;
  or_delivery_address : string;
  or_customer_name : string;
  or_customer_phone : string
}.

Record OrderItemRow := mkOrderItemRow {
  oi_id : nat;
  oi_order_id : nat;
  oi_product_id : string;
  oi_quantity : Z;
  oi_price : Z
}.

Record Store := mkStore {
  tbl_products : list Product;
  tbl_cart_items : list CartRow;
  tbl_orders : list OrderRow;
  tbl_order_items : list OrderItemRow;
  next_id : nat
}.

(** A cart row as a query returns it, with the embedded [product] of the
    select ([product:products(...)]); [None] when the join finds no row. *)
Record CartItem := mkCartItem {
  ci_id : nat;
  ci_user_id : string;
  ci_product_id : string;
  ci_quantity : Z;
  ci_product : option Product
}.

(** An order item as [placeOrder] builds it before the insert. *)
Record NewOrderItem := mkNewOrderItem {
  noi_order_id : nat;
  noi_product_id : string;
  noi_quantity : Z;
  noi_price : Z
}.

(** An order as getPurchaseHistory selects it: the row with the names of the
    products of its items ([order_items ( product:products ( name ) )]). *)
Record OrderWithItems := mkOrderWithItems {
  owi_order : OrderRow;
  owi_item_products : list (option string)
}.

Module Db.

Definition product_by_id (s : Store) (pid : string) : option Product :=
  find (fun p => (id p =? pid)%string) (tbl_products s).

Definition join_product (s : Store) (r : CartRow) : CartItem :=
  mkCartItem (cr_id r) (cr_user_id r) (cr_product_id r) (cr_quantity r)
             (product_by_id s (cr_product_id r)).

Definition is_row (u pid : string) (r : CartRow) : bool :=
  (cr_user_id r =? u)%string && (cr_product_id r =? pid)%string.

(** [from('cart_items').select(...).eq('user_id', u)] *)
Definition select_cart (u : string) (s : Store) : option (list CartItem) * Store :=
  (Some (map (join_product s)
             (filter (fun r => (cr_user_id r =? u)%string) (tbl_cart_items s))), s).

(** [from('cart_items').insert([{ user_id, product_id, quantity }])] *)
Definition insert_cart (u pid : string) (q : JsInt) (s : Store) : option unit * Store :=
  match q with
  | Fin z =>
      if existsb (is_row u pid) (tbl_cart_items s) then (None, s)
      else (Some tt,
            mkStore (tbl_products s)
                    (tbl_cart_items s ++ [mkCartRow (next_id s) u pid z])
                    (tbl_orders s) (tbl_order_items s) (S (next_id s)))
  | _ => (None, s)
  end.

(** [from('cart_items').delete().eq('user_id', u).eq('product_id', pid)] *)
Definition delete_cart (u pid : string) (s : Store) : option unit * Store :=
  (Some tt,
   mkStore (tbl_products s)
           (filter (fun r => negb (is_row u pid r)) (tbl_cart_items s))
           (tbl_orders s) (tbl_order_items s) (next_id s)).

(** [from('cart_items').update({ quantity }).eq('user_id', u).eq('product_id', pid)] *)
Definition update_cart (u pid : string) (q : JsInt) (s : Store) : option unit * Store :=
  match q with
  | Fin z =>
      (Some tt,
       mkStore (tbl_products s)
               (map (fun r => if is_row u pid r
                              then mkCartRow (cr_id r) (cr_user_id r) (cr_product_id r) z
                              else r) (tbl_cart_items s))
               (tbl_orders s) (tbl_order_items s) (next_id s))
  | _ => (None, s)
  end.

(** [from('cart_items').delete().eq('user_id', u)] *)
Definition clear_cart (u : string) (s : Store) : option unit * Store :=
  (Some tt,
   mkStore (tbl_products s)
           (filter (fun r => negb (cr_user_id r =? u)%string) (tbl_cart_items s))
           (tbl_orders s) (tbl_order_items s) (next_id s)).

(** [from('orders').insert({...}).select().single()]: the inserted row. *)
Definition insert_order (u : string) (total : Z) (status address cname phone : string)
  (s : Store) : option OrderRow * Store :=
  let row := mkOrderRow (next_id s) u total status address cname phone in
  (Some row,
   mkStore (tbl_products s) (tbl_cart_items s) (tbl_orders s ++ [row])
           (tbl_order_items s) (S (next_id s))).

Fixpoint number_items (n : nat) (items : list NewOrderItem) : list OrderItemRow :=
  match items with
  | [] => []
  | i :: r =>
      mkOrderItemRow n (noi_order_id i) (noi_product_id i) (noi_quantity i) (noi_price i)
      :: number_items (S n) r
  end.

(** [from('order_items').insert(orderItems)] *)
Definition insert_order_items (items : list NewOrderItem) (s : Store)
  : option unit * Store :=
  (Some tt,
   mkStore (tbl_products s) (tbl_cart_items s) (tbl_orders s)
           (tbl_order_items s ++ number_items (next_id s) items)
           (next_id s + List.length items)).

(** [from('orders').delete().eq('id', oid)], with the cascade to order_items. *)
Definition delete_order (oid : nat) (s : Store) : option unit * Store :=
  (Some tt,
   mkStore (tbl_products s) (tbl_cart_items s)
           (filter (fun o => negb (or_id o =? oid)) (tbl_orders s))
           (filter (fun i => negb (oi_order_id i =? oid)) (tbl_order_items s))
           (next_id s)).

Definition with_items (s : Store) (o : OrderRow) : OrderWithItems :=
  mkOrderWithItems o
    (map (fun i => option_map name (product_by_id s (oi_product_id i)))
         (filter (fun i => oi_order_id i =? or_id o) (tbl_order_items s))).

(** The selects of getPurchaseHistory.  One order by id: [.single()] fails
    unless exactly one row matches. *)
Definition select_order (u : string) (oid : nat) (s : Store)
  : option (list OrderWithItems) * Store :=
  let mine := filter (fun o => (or_user_id o =? u)%string) (tbl_orders s) in
  match filter (fun o => or_id o =? oid) mine with
  | [o] => (Some [with_items s o], s)
  | _ => (None, s)
  end.

(** The newest [limit] orders of the user: [created_at] descending is the
    reverse of insertion order. *)
Definition select_newest_orders (u : string) (limit : nat) (s : Store)
  : option (list OrderWithItems) * Store :=
  let mine := filter (fun o => (or_user_id o =? u)%string) (tbl_orders s) in
  (Some (map (with_items s) (firstn limit (List.rev mine))), s).

(** A request the backend cannot read: it answers with an error. *)
Definition refused {A} (s : Store) : option A * Store := (None, s).

(** The value of an [eq] filter on an id, or of a [limit], as the backend
    reads it.  The value goes into the request as text.  The backend is not
    part of the repository: it is taken to read a row id or a count in the
    text of a whole number that is not negative, and to answer a request
    with any other text with an error. *)
Definition whole_number (v : JsVal) : option nat :=
  match v with
  | VNum (Num q) =>
      if Qeq_bool q (inject_Z (Qfloor q)) && (0 <=? Qfloor q)%Z
      then Some (Z.to_nat (Qfloor q)) else None
  | VStr EmptyString => None
  | VStr s => option_map Z.to_nat (digits_value 0 s)
  | _ => None
  end.

End Db.

(* ------------------------------------------------------------------------- *)
(** ** The world and the monad of the asynchronous functions *)

(** What one call to the backend does: it is carried out, it answers with
    [{ error }], or the awaited promise rejects. *)
Inductive Outcome := carried_out | answers_error | rejects.

Record Profile := mkProfile {
  full_name : string;
  phone : string;
  address : string
}.

Record World := mkWorld {
  db : Store;
  faults : list Outcome;        (* consumed call by call; empty means no fault *)
  user : option User;           (* React state of the provider *)
  products : list Product;      (* React state: the catalog snapshot *)
  cartItems : list CartItem;    (* React state: the cart as last fetched *)
  user_metadata : Profile;      (* what supabase.auth.getUser() reports *)
  toasts : list string          (* the toasts shown, oldest first *)
}.

Inductive Exn :=
| SupabaseError               (* the [error] object of a reply, rethrown *)
| NetworkError                (* a rejected request *)
| TypeError                   (* a property read on null or undefined *)
| JsError (msg : string).     (* [new Error(msg)] *)

Inductive Result (A : Type) :=
| Ret (a : A)
| Throw (e : Exn).
Arguments Ret {A} a.
Arguments Throw {A} e.

Definition M (A : Type) : Type := World -> Result A * World.

Definition ret {A} (a : A) : M A := fun w => (Ret a, w).

Definition throw {A} (e : Exn) : M A := fun w => (Throw e, w).

Definition bind {A B} (m : M A) (k : A -> M B) : M B :=
  fun w => match m w with
           | (Ret a, w') => k a w'
           | (Throw e, w') => (Throw e, w')
           end.

Notation "x <- m ;; k" := (bind m (fun x => k))
  (at level 61, m at next level, right associativity).
Notation "m ;;; k" := (bind m (fun _ => k))
  (at level 61, right associativity).

(** [try { m } catch (e) { h e }] *)
Definition try_catch {A} (m : M A) (h : Exn -> M A) : M A :=
  fun w => match m w with
           | (Ret a, w') => (Ret a, w')
           | (Throw e, w') => h e w'
           end.

(** A call whose promise is not awaited: it runs, and what it throws is lost
    to the caller. *)
Definition background (m : M unit) : M unit :=
  fun w => match m w with (_, w') => (Ret tt, w') end.

Definition get {A} (f : World -> A) : M A := fun w => (Ret (f w), w).

Definition toast (msg : string) : M unit :=
  fun w => (Ret tt, mkWorld (db w) (faults w) (user w) (products w) (cartItems w)
                            (user_metadata w) (toasts w ++ [msg])).

Definition setCartItems (items : list CartItem) : M unit :=
  fun w => (Ret tt, mkWorld (db w) (faults w) (user w) (products w) items
                            (user_metadata w) (toasts w)).

(** The reply of the backend: [{ data, error }]. *)
Record Reply (A : Type) := mkReply { data : option A; error : bool }.
Arguments mkReply {A} data error.
Arguments data {A} r.
Arguments error {A} r.

Definition next_fault (w : World) : Outcome * list Outcome :=
  match faults w with
  | [] => (carried_out, [])
  | o :: r => (o, r)
  end.

(** One awaited call to the backend. *)
Definition supabase {A} (q : Store -> option A * Store) : M (Reply A) :=
  fun w =>
    let (o, rest) := next_fault w in
    let w_rest s := mkWorld s rest (user w) (products w) (cartItems w)
                            (user_metadata w) (toasts w) in
    match o with
    | carried_out =>
        match q (db w) with
        | (Some a, s') => (Ret (mkReply (Some a) false), w_rest s')
        | (None, s') => (Ret (mkReply None true), w_rest s')
        end
    | answers_error => (Ret (mkReply None true), w_rest (db w))
    | rejects => (Throw NetworkError, w_rest (db w))
    end.

(** [supabase.auth.getUser()] *)
Definition auth_getUser : M (Reply Profile) :=
  fun w => supabase (fun s => (Some (user_metadata w), s)) w.

(* ------------------------------------------------------------------------- *)
(** ** src/context/AppContext.tsx *)

Module AppContext.

(** [item.product?.price || 0] *)
Definition price_of (item : CartItem) : Z :=
  match ci_product item with
  | Some p => price p
  | None => 0%Z
  end.

Definition refreshCart : M unit :=
  u <- get user ;;
  match u with
  | None => ret tt
  | Some usr =>
      r <- supabase (Db.select_cart (uid usr)) ;;
      if error r then toast "Failed to fetch cart"
      else setCartItems (match data r with Some d => d | None => [] end)
  end.

Definition removeFromCart (productId : string) : M unit :=
  u <- get user ;;
  match u with
  | None => ret tt
  | Some usr =>
      r <- supabase (Db.delete_cart (uid usr) productId) ;;
      if error r then toast "Failed to remove item from cart"
      else toast "Item removed from cart!" ;;; refreshCart
  end.

Definition updateCartQuantity (productId : string) (quantity : JsInt) : M unit :=
  u <- get user ;;
  match u with
  | None => ret tt
  | Some usr =>
      if int_le0 quantity then removeFromCart productId
      else
        r <- supabase (Db.update_cart (uid usr) productId quantity) ;;
        if error r then toast "Failed to update cart"
        else refreshCart
  end.

(** The functions of the provider are closures of a render: where one reads
    the state [cartItems], it reads the value that state had in the render
    that made it.  [addToCart_in cartItems] is the [addToCart] of a render
    whose cart state is [cartItems]. *)
Definition addToCart_in (cartItems : list CartItem) (productId : string) (quantity : JsInt)
  : M unit :=
  u <- get user ;;
  match u with
  | None => toast "Please sign in to add items to cart"
  | Some usr =>
      match find (fun item => (ci_product_id item =? productId)%string) cartItems with
      | Some existingItem =>
          updateCartQuantity productId (int_add (ci_quantity existingItem) quantity)
      | None =>
          r <- supabase (Db.insert_cart (uid usr) productId quantity) ;;
          if error r then toast "Failed to add item to cart"
          else toast "Item added to cart!" ;;; refreshCart
      end
  end.

(** The [addToCart] of the current render, which a component that renders
    again with every change of the state calls. *)
Definition addToCart (productId : string) (quantity : JsInt) : M unit :=
  items <- get cartItems ;;
  addToCart_in items productId quantity.

(** [getCartTotal()] and [getCartItemCount()] of a render whose cart state is
    [items]. *)
Definition cart_total (items : list CartItem) : Z :=
  fold_left (fun total item => (total + price_of item * ci_quantity item)%Z) items 0%Z.

Definition cart_count (items : list CartItem) : Z :=
  fold_left (fun count item => (count + ci_quantity item)%Z) items 0%Z.

(** [itemsForOrder.map(item => ({ order_id, product_id: item.product.id, ... }))]:
    reading [id] of a missing product is a TypeError. *)
Fixpoint order_items_of (order_id : nat) (items : list CartItem)
  : option (list NewOrderItem) :=
  match items with
  | [] => Some []
  | item :: r =>
      match ci_product item with
      | None => None
      | Some p =>
          option_map
            (cons (mkNewOrderItem order_id (id p) (ci_quantity item) (price_of item)))
            (order_items_of order_id r)
      end
  end.

(** [placeOrder(deliveryAddress, customerName, customerPhone, itemsForOrder)],
    lines 241-303.  [itemsForOrder] is [None] when the caller passes no fourth
    argument. *)
Definition placeOrder (deliveryAddress customerName customerPhone : string)
  (itemsForOrder : option (list CartItem)) : M unit :=
  u <- get user ;;
  match u, itemsForOrder with
  | None, _ | _, None | _, Some [] => ret tt
  | Some usr, Some items =>
      let totalAmount :=
        fold_left (fun sum item => (sum + price_of item * ci_quantity item)%Z) items 0%Z in
      r <- supabase (Db.insert_order (uid usr) totalAmount "Pending"
                       deliveryAddress customerName customerPhone) ;;
      match error r, data r with
      | true, _ =>
          toast "Could not create your order." ;;; throw SupabaseError
      | false, None => throw TypeError
      | false, Some orderData =>
          match order_items_of (or_id orderData) items with
          | None => throw TypeError
          | Some orderItems =>
              ri <- supabase (Db.insert_order_items orderItems) ;;
              if error ri then
                supabase (Db.delete_order (or_id orderData)) ;;;
                toast "Could not save items for your order." ;;;
                throw SupabaseError
              else
                supabase (Db.clear_cart (uid usr)) ;;;
                refreshCart ;;;
                toast ("Order #" +++ show_nat (or_id orderData) +++ " placed successfully!")
          end
      end
  end.

(** The other copy of the provider in the file (lines 325-644) has the same
    cart functions and this [placeOrder], which reads the cart from the
    React state. *)
Module FromState.

(** The [placeOrder] of a render whose cart state is [cartItems]; the
    [getCartTotal] it calls is a closure of the same render. *)
Definition placeOrder_in (cartItems : list CartItem)
  (deliveryAddress customerName customerPhone : string) : M unit :=
  u <- get user ;;
  match u, cartItems with
  | None, _ | _, [] => toast "Your cart is empty"
  | Some usr, _ =>
      let totalAmount := cart_total cartItems in
      r <- supabase (Db.insert_order (uid usr) totalAmount "Pending"
                       deliveryAddress customerName customerPhone) ;;
      match error r, data r with
      | true, _ => toast "Failed to place order"
      | false, None => throw TypeError
      | false, Some order =>
          let orderItems :=
            map (fun item => mkNewOrderItem (or_id order) (ci_product_id item)
                               (ci_quantity item) (price_of item)) cartItems in
          ri <- supabase (Db.insert_order_items orderItems) ;;
          if error ri then toast "Failed to create order items"
          else
            rc <- supabase (Db.clear_cart (uid usr)) ;;
            if error rc then toast "Failed to clear cart"
            else toast "Order placed successfully!" ;;; refreshCart
      end
  end.

(** The [placeOrder] of the current render. *)
Definition placeOrder (deliveryAddress customerName customerPhone : string) : M unit :=
  items <- get cartItems ;;
  placeOrder_in items deliveryAddress customerName customerPhone.

End FromState.

End AppContext.

(* ------------------------------------------------------------------------- *)
(** ** src/components/VoiceAssistant.tsx *)

(** The file holds two copies of the component.  The tools of the first copy
    (lines 1-1050) refresh the provider's cart state and read [cartItems],
    [getCartTotal()] and [getCartItemCount()]; those of the second (lines
    1051-1656) fetch the cart with [fetchLatestCartState].  Module [VoiceAssistant] below is the second
    copy, module [StatefulTools] the first.  [printHelloWorld], a connection
    test that reads the clock, is left out of both.

    The tools are made once, when [startConversation] hands them to the
    session, and are closures of the render in which that happens: for as
    long as the session lasts they, and the functions of the provider they
    hold, read the state of that render.  Of that state the user and the
    catalog do not change in a run; the cart state does, and [session_cart]
    below is its value in the render in which the session started. *)

(** The response envelope of the client tools.  [message] is [None] where the
    response object has no such field.  [details] holds the fields that are
    particular to an operation: the ones that tell its outcomes apart or that
    a property below reads; constant fields (the currency tag, flags computed
    from other fields) are not repeated. *)

Record CartSummary := mkCartSummary {
  sum_itemCount : Z;
  sum_totalAmount : Z
}.

Record ProcessedItem := mkProcessedItem {
  pi_id : nat;
  pi_name : string;
  pi_price : Z;
  pi_quantity : Z;
  pi_unit : string;
  pi_total : Z;
  pi_image_url : option string;
  pi_stock_quantity : Z
}.

Record ProductBrief := mkProductBrief {
  pb_name : string;
  pb_price : Z;
  pb_unit : string
}.

Record ProductInfo := mkProductInfo {
  info_name : string;
  info_price : Z;
  info_unit : string;
  info_category : string;
  info_description : string;
  info_inStock : bool;
  info_stockQuantity : Z
}.

Record FormattedOrder := mkFormattedOrder {
  fo_orderId : nat;
  fo_totalAmount : Z;
  fo_status : string;
  fo_itemCount : nat;
  fo_itemSample : list string
}.

Inductive Details :=
| NoDetails
| ErrorTag (err : string)
| CartDetails (items : list ProcessedItem) (itemCount totalAmount : Z)
              (isEmpty : bool) (cartSummary : string)
| Added (product_name : string) (matchConfidence : Confidence) (summary : CartSummary)
| Summary (summary : CartSummary)
| ProductsBrief (prods : list ProductBrief) (count : nat)
| ProductsFull (prods : list ProductInfo) (count totalAvailableProducts : nat)
| ProductsError
| Orders (orders : list FormattedOrder) (count : nat)
| OrderPlaced (orderTotal itemCount : Z) (customerName : string)
| SignedIn (mail : string) (cartItemCount cartTotal : Z) (profileComplete : bool)
| SignedOut
| Suggestions (names : list string) (searchConfidence : Confidence)
| CartNames (names : list string).

Record Response := mkResponse {
  success : bool;
  message : option string;
  details : Details
}.

(** What [fetchLatestCartState] returns. *)
Record CartState := mkCartState {
  cs_success : bool;
  cs_items : list CartItem;
  cs_totalAmount : Z;
  cs_itemCount : Z;
  cs_error : option string
}.

Definition failure (msg : string) : Response := mkResponse false (Some msg) NoDetails.

Definition rupees (amount : Z) : string := "₹" +++ toFixed2 amount.

(** A text between double quotes, as the templates of the messages have it. *)
Definition quoted (s : string) : string :=
  String (ascii_of_nat 34) s +++ String (ascii_of_nat 34) EmptyString.

(** [array.join(', ')] *)
Fixpoint join_comma (l : list string) : string :=
  match l with
  | [] => ""
  | [x] => x
  | x :: r => x +++ ", " +++ join_comma r
  end.

(** [p.category?.name] *)
Definition category_name (p : Product) : option string :=
  option_map cat_name (category p).

(** [s || d] on strings. *)
Definition str_or (s d : string) : string := if (s =? "")%string then d else s.

Module VoiceAssistant.

Import AppContext.

Section Tools.

(** The platform: Fuse.js, and the conversions [Number(s)] of a string and
    [String(n)] of a number. *)
Variable fuse : list Product -> string -> nat -> list FuzzySearchResult.
Variable StringToNumber : string -> JsNum.
Variable NumberToString : JsNum -> string.

(** The provider's [cartItems] in the render in which the session started. *)
Variable session_cart : list CartItem.

(** [Number(v)] *)
Definition Number (v : JsVal) : JsNum :=
  match v with
  | VUndefined => NaN
  | VNull => Num 0
  | VBool b => if b then Num 1 else Num 0
  | VNum n => n
  | VStr s => StringToNumber s
  | VObj => NaN
  end.

(** [`${v}`] *)
Definition to_string (v : JsVal) : string :=
  match v with
  | VUndefined => "undefined"
  | VNull => "null"
  | VBool b => if b then "true" else "false"
  | VNum n => NumberToString n
  | VStr s => s
  | VObj => "[object Object]"
  end.

(** [v.trim()]: a TypeError unless [v] is a string. *)
Definition trim_of (v : JsVal) : M string :=
  match v with
  | VStr s => ret (trim s)
  | _ => throw TypeError
  end.

Definition sum_total (items : list CartItem) : Z :=
  fold_left (fun total item => (total + price_of item * ci_quantity item)%Z) items 0%Z.

Definition sum_count (items : list CartItem) : Z :=
  fold_left (fun total item => (total + ci_quantity item)%Z) items 0%Z.

Definition fetch_failed (msg : string) : CartState :=
  mkCartState false [] 0 0 (Some msg).

Definition fetchLatestCartState (userId : string) : M CartState :=
  if (userId =? "")%string then ret (fetch_failed "User not authenticated")
  else
    try_catch
      (r <- supabase (Db.select_cart userId) ;;
       if error r then throw SupabaseError
       else match data r with
            | None => ret (mkCartState true [] 0 0 None)
            | Some d => ret (mkCartState true d (sum_total d) (sum_count d) None)
            end)
      (fun _ => ret (fetch_failed "Failed to fetch cart state")).

(** [findProductByName]: [null] for an empty name, else the result of the
    matcher over the catalog snapshot. *)
Definition findProductByName (searchName : string) : M (option MatchResult) :=
  ps <- get products ;;
  if (searchName =? "")%string then ret None
  else ret (Some (findProduct fuse ps searchName)).

(** Reading [matchResult.product] when [matchResult] is null is a TypeError. *)
Definition product_of (r : option MatchResult) : M (MatchResult * option Product) :=
  match r with
  | None => throw TypeError
  | Some mr => ret (mr, product mr)
  end.

Definition getUserProfile : M (option Profile) :=
  u <- get user ;;
  match u with
  | None => ret None
  | Some _ =>
      try_catch
        (r <- auth_getUser ;;
         if error r then ret None
         else match data r with
              | None => throw TypeError
              | Some meta => ret (Some (mkProfile (full_name meta) (phone meta) (address meta)))
              end)
        (fun _ => ret None)
  end.

Definition processed (item : CartItem) : ProcessedItem :=
  mkProcessedItem
    (ci_id item)
    (match ci_product item with Some p => str_or (name p) "Unknown Product"
                              | None => "Unknown Product" end)
    (price_of item)
    (ci_quantity item)
    (match ci_product item with Some p => str_or (unit_label p) "piece"
                              | None => "piece" end)
    (price_of item * ci_quantity item)%Z
    (match ci_product item with Some p => image_url p | None => None end)
    (match ci_product item with Some p => stock_quantity p | None => 0%Z end).

Definition cart_line (totals : CartState) : string :=
  "Your cart now has " +++ show_Z (cs_itemCount totals) +++ " items totaling "
  +++ rupees (cs_totalAmount totals) +++ ".".

Definition summary_of (totals : CartState) : CartSummary :=
  mkCartSummary (cs_itemCount totals) (cs_totalAmount totals).

Definition getCartDetails : M Response :=
  u <- get user ;;
  match u with
  | None => ret (failure "Please sign in to view your cart.")
  | Some usr =>
      try_catch
        (st <- fetchLatestCartState (uid usr) ;;
         if negb (cs_success st)
         then throw (JsError "Failed to fetch latest cart state.")
         else
           let items := cs_items st in
           let processedItems := map processed items in
           let isEmpty := List.length items =? 0 in
           ret (mkResponse true
                  (Some (if isEmpty
                         then "Your cart is empty. You can add items by saying "
                              +++ quoted "Add [product name] to cart" +++ "."
                         else "You have " +++ show_Z (cs_itemCount st)
                              +++ " items in your cart totaling "
                              +++ rupees (cs_totalAmount st) +++ "."))
                  (CartDetails processedItems (cs_itemCount st) (cs_totalAmount st) isEmpty
                     (join_comma
                        (map (fun item => show_Z (pi_quantity item) +++ " " +++ pi_name item
                                          +++ " (" +++ rupees (pi_total item) +++ ")")
                             processedItems)))))
        (fun _ => ret (mkResponse false
                         (Some "Failed to get cart details. Please try again.")
                         (ErrorTag "Failed to get cart details")))
  end.

Definition addItemToCart (productName quantity : JsVal) : M Response :=
  u <- get user ;;
  match productName, u with
  | VStr pn, Some usr =>
    if (pn =? "")%string then ret (failure "Product name is required.")
    else
    try_catch
      (let validQuantity :=
         int_max 1 (floor (num_or (Number (default_to (VNum (Num 1)) quantity)) 1)) in
       found <- findProductByName (trim pn) ;;
       mp <- product_of found ;;
       match mp with
       | (_, None) =>
           ret (failure ("I couldn't find " +++ quoted pn +++ "."))
       | (matchResult, Some product) =>
           if lt_int (stock_quantity product) validQuantity
           then ret (failure ("Sorry, only " +++ show_Z (stock_quantity product) +++ " "
                              +++ name product +++ " available."))
           else
             addToCart_in session_cart (id product) validQuantity ;;;
             background refreshCart ;;;
             latestCart <- fetchLatestCartState (uid usr) ;;
             if negb (cs_success latestCart)
             then ret (failure "Item added, but failed to get updated cart totals.")
             else
               let confidenceNote :=
                 match confidence matchResult with
                 | high => ""
                 | _ => " (I matched " +++ quoted pn +++ " to "
                        +++ quoted (name product) +++ ")"
                 end in
               ret (mkResponse true
                      (Some ("Added " +++ show_int validQuantity +++ " " +++ name product
                             +++ " to your cart" +++ confidenceNote +++ ". "
                             +++ cart_line latestCart))
                      (Added (name product) (confidence matchResult)
                             (summary_of latestCart)))
       end)
      (fun _ => ret (failure "Failed to add item to cart."))
  | _, None => ret (failure "Please sign in to add items.")
  | _, Some _ => ret (failure "Product name is required.")
  end.

(** [items.find(item => item.product?.id === pid)] *)
Definition find_in_cart (pid : string) (items : list CartItem) : option CartItem :=
  find (fun item => match ci_product item with
                    | Some p => (id p =? pid)%string
                    | None => false
                    end) items.

(** [cartItem.product!.id] *)
Definition product_id_of (item : CartItem) : M string :=
  match ci_product item with
  | Some p => ret (id p)
  | None => throw TypeError
  end.

(** [`${cartItem.product?.name}`] *)
Definition product_name_of (item : CartItem) : string :=
  match ci_product item with
  | Some p => name p
  | None => "undefined"
  end.

Definition removeItemFromCart (productName : JsVal) : M Response :=
  u <- get user ;;
  match productName, u with
  | VStr pn, Some usr =>
    if (pn =? "")%string then ret (failure "Product name is required.")
    else
    try_catch
      (initialCart <- fetchLatestCartState (uid usr) ;;
       if negb (cs_success initialCart)
       then ret (failure "Could not check your cart to remove the item.")
       else
         found <- findProductByName (trim pn) ;;
         mp <- product_of found ;;
         match mp with
         | (_, None) =>
             ret (failure ("I couldn't find a product named " +++ quoted pn +++ "."))
         | (_, Some matched) =>
             match find_in_cart (id matched) (cs_items initialCart) with
             | None => ret (failure (quoted (name matched) +++ " is not in your cart."))
             | Some cartItem =>
                 pid <- product_id_of cartItem ;;
                 removeFromCart pid ;;;
                 background refreshCart ;;;
                 latestCart <- fetchLatestCartState (uid usr) ;;
                 if negb (cs_success latestCart)
                 then ret (failure "Item removed, but failed to get updated cart totals.")
                 else
                   ret (mkResponse true
                          (Some ("Removed " +++ product_name_of cartItem
                                 +++ " from your cart. " +++ cart_line latestCart))
                          (Summary (summary_of latestCart)))
             end
         end)
      (fun _ => ret (failure "Failed to remove item from cart."))
  | _, None => ret (failure "Please sign in to manage your cart.")
  | _, Some _ => ret (failure "Product name is required.")
  end.

Definition updateCartItemQuantity (productName quantity : JsVal) : M Response :=
  u <- get user ;;
  match u with
  | None => ret (failure "Please sign in to manage your cart.")
  | Some usr =>
    if negb (truthy productName) || is_undefined quantity
    then ret (failure "Product name and quantity are required.")
    else
    try_catch
      (let validQuantity := floor (num_or (Number quantity) 0) in
       if int_neg validQuantity then ret (failure "Quantity cannot be negative.")
       else
         initialCart <- fetchLatestCartState (uid usr) ;;
         if negb (cs_success initialCart)
         then ret (failure "Could not check your cart to update the item.")
         else
           trimmed <- trim_of productName ;;
           found <- findProductByName trimmed ;;
           mp <- product_of found ;;
           match mp with
           | (_, None) =>
               ret (failure ("I couldn't find a product named "
                             +++ quoted (to_string productName) +++ "."))
           | (_, Some matched) =>
               match find_in_cart (id matched) (cs_items initialCart) with
               | None => ret (failure (quoted (name matched) +++ " is not in your cart."))
               | Some cartItem =>
                   ps <- get products ;;
                   let productInDB :=
                     find (fun p => match ci_product cartItem with
                                    | Some cp => (id p =? id cp)%string
                                    | None => false
                                    end) ps in
                   let refusal :=
                     match productInDB with
                     | Some pdb =>
                         if lt_int (stock_quantity pdb) validQuantity
                         then Some (failure ("Sorry, only " +++ show_Z (stock_quantity pdb)
                                             +++ " " +++ name pdb +++ " available."))
                         else None
                     | None => None
                     end in
                   match refusal with
                   | Some r => ret r
                   | None =>
                       pid <- product_id_of cartItem ;;
                       (if int_is0 validQuantity then removeFromCart pid
                        else updateCartQuantity pid validQuantity) ;;;
                       background refreshCart ;;;
                       latestCart <- fetchLatestCartState (uid usr) ;;
                       if negb (cs_success latestCart)
                       then ret (failure "Quantity updated, but failed to get updated cart totals.")
                       else
                         let msg :=
                           if int_is0 validQuantity
                           then "Removed " +++ product_name_of cartItem +++ " from the cart."
                           else "Updated " +++ product_name_of cartItem +++ " quantity to "
                                +++ show_int validQuantity +++ "." in
                         ret (mkResponse true
                                (Some (msg +++ " " +++ cart_line latestCart))
                                (Summary (summary_of latestCart)))
                   end
               end
           end)
      (fun _ => ret (failure "Failed to update cart quantity."))
  end.

(** [getAvailableProducts] (lines 1485-1500): the filtering is elided in this
    copy, the whole catalog is listed. *)
Definition getAvailableProducts (category searchTerm limit : JsVal) : M Response :=
  ps <- get products ;;
  let filteredProducts := ps in
  ret (mkResponse true
         (Some ("Found " +++ show_nat (List.length filteredProducts) +++ " products."))
         (ProductsBrief
            (map (fun p => mkProductBrief (name p) (price p) (unit_label p)) filteredProducts)
            (List.length filteredProducts))).

(** [filter(Boolean)] on a list of names, some of them missing. *)
Fixpoint present_names (l : list (option string)) : list string :=
  match l with
  | [] => []
  | Some n :: r => if (n =? "")%string then present_names r else n :: present_names r
  | None :: r => present_names r
  end.

(** [getPurchaseHistory] (lines 1502-1510): the query is elided in this copy
    and the response has no message. *)
Definition getPurchaseHistory (limit orderId : JsVal) : M Response :=
  u <- get user ;;
  match u with
  | None => ret (failure "Please sign in.")
  | Some _ => ret (mkResponse true None NoDetails)
  end.

Definition incomplete_profile (profile : option Profile) : bool :=
  match profile with
  | None => true
  | Some p =>
      (phone p =? "")%string || (String.length (trim (phone p)) <? 10)
      || (address p =? "")%string || (String.length (trim (address p)) <? 10)
  end.

Definition placeOrder : M Response :=
  try_catch
    (u <- get user ;;
     match u with
     | None =>
         ret (failure "Please sign in to place an order. You can sign in through the website by clicking the user icon in the top right.")
     | Some usr =>
         cartBeforeOrder <- fetchLatestCartState (uid usr) ;;
         if negb (cs_success cartBeforeOrder) || (List.length (cs_items cartBeforeOrder) =? 0)
         then ret (failure "Your cart is empty. Please add some items before placing an order.")
         else
           userProfile <- getUserProfile ;;
           match userProfile with
           | Some profile =>
               if incomplete_profile userProfile
               then ret (failure "Please complete your profile with a valid phone number and delivery address to place an order.")
               else
                 let customerName :=
                   str_or (trim (full_name profile))
                          (str_or (hd EmptyString (split_on "@" (email usr))) "Customer") in
                 let customerPhone := trim (phone profile) in
                 let deliveryAddress := trim (address profile) in
                 let orderTotal := cs_totalAmount cartBeforeOrder in
                 let itemCount := cs_itemCount cartBeforeOrder in
                 AppContext.placeOrder deliveryAddress customerName customerPhone
                                       (Some (cs_items cartBeforeOrder)) ;;;
                 ret (mkResponse true
                        (Some ("Order placed successfully! Your order of " +++ show_Z itemCount
                               +++ " items totaling " +++ rupees orderTotal
                               +++ " will be delivered to your saved address. You'll receive a confirmation shortly. Your cart is now empty."))
                        (OrderPlaced orderTotal itemCount customerName))
           | None =>
               ret (failure "Please complete your profile with a valid phone number and delivery address to place an order.")
           end
     end)
    (fun _ => ret (failure "An error occurred while placing your order. Please try again.")).

Definition getUserStatus : M Response :=
  try_catch
    (u <- get user ;;
     match u with
     | Some usr =>
         latestCart <- fetchLatestCartState (uid usr) ;;
         userProfile <- getUserProfile ;;
         let isProfileComplete :=
           match userProfile with
           | Some p =>
               negb (phone p =? "")%string && (10 <=? String.length (phone p))
               && negb (address p =? "")%string && (10 <=? String.length (address p))
           | None => false
           end in
         ret (mkResponse true
                (Some ("You are signed in as " +++ email usr +++ ". Your cart has "
                       +++ show_Z (cs_itemCount latestCart) +++ " items totaling "
                       +++ rupees (cs_totalAmount latestCart) +++ ". "
                       +++ (if isProfileComplete then "Your profile is complete."
                            else "Please complete your profile to place orders.")))
                (SignedIn (email usr) (cs_itemCount latestCart) (cs_totalAmount latestCart)
                          isProfileComplete))
     | None =>
         ret (mkResponse true
                (Some "You are not signed in. Please sign in to add items to cart and place orders.")
                SignedOut)
     end)
    (fun _ => ret (failure "Failed to get user status.")).

End Tools.

End VoiceAssistant.

(* ------------------------------------------------------------------------- *)
(** ** src/components/VoiceAssistant.tsx, the first copy *)

Module StatefulTools.

Import AppContext.

Section Tools.

Variable fuse : list Product -> string -> nat -> list FuzzySearchResult.
Variable StringToNumber : string -> JsNum.
Variable NumberToString : JsNum -> string.

(** The provider's [cartItems] in the render in which the session started:
    what [cartItems], [getCartTotal()] and [getCartItemCount()] give in a
    tool, also after an awaited [refreshCart()]. *)
Variable session_cart : list CartItem.

(** [findProductByName] and [getUserProfile] read the same in both copies. *)
Definition findProductByName := VoiceAssistant.findProductByName fuse.
Definition getUserProfile := VoiceAssistant.getUserProfile.
Definition Number := VoiceAssistant.Number StringToNumber.
Definition to_string := VoiceAssistant.to_string NumberToString.

(** [getCartItemCount()] and [getCartTotal()], read together. *)
Definition cart_totals : CartSummary :=
  mkCartSummary (cart_count session_cart) (cart_total session_cart).

Definition totals_line (t : CartSummary) : string :=
  "Your cart now has " +++ show_Z (sum_itemCount t) +++ " items totaling "
  +++ rupees (sum_totalAmount t) +++ ".".

(** [cartItems.map(item => item.product?.name).filter(Boolean)] *)
Definition cart_product_names (items : list CartItem) : list string :=
  VoiceAssistant.present_names (map (fun item => option_map name (ci_product item)) items).

(** The end of the two messages that list the cart. *)
Definition cart_names_note (names : list string) : string :=
  if 0 <? List.length names then " Items in your cart: " +++ join_comma names
  else " Your cart is empty.".

(** [(a * n).toFixed(2)] *)
Definition times_toFixed2 (a : Z) (n : JsInt) : string :=
  match n with
  | Fin z => toFixed2 (a * z)
  | PosInf => if (0 <? a)%Z then "Infinity" else if (a <? 0)%Z then "-Infinity" else "NaN"
  | NegInf => if (0 <? a)%Z then "-Infinity" else if (a <? 0)%Z then "Infinity" else "NaN"
  | NotNum => "NaN"
  end.

(** Lines 161-221. *)
Definition getCartDetails : M Response :=
  try_catch
    (refreshCart ;;;
     let cart := session_cart in
     let t := cart_totals in
     let items := map VoiceAssistant.processed cart in
     let isEmpty := List.length cart =? 0 in
     ret (mkResponse true
            (Some (if isEmpty
                   then "Your cart is empty. You can add items by saying "
                        +++ quoted "Add [product name] to cart" +++ "."
                   else "You have " +++ show_Z (sum_itemCount t)
                        +++ " items in your cart totaling "
                        +++ rupees (sum_totalAmount t) +++ "."))
            (CartDetails items (sum_itemCount t) (sum_totalAmount t) isEmpty
               (join_comma
                  (map (fun item => show_Z (pi_quantity item) +++ " " +++ pi_name item
                                    +++ " (" +++ rupees (pi_total item) +++ ")")
                       items)))))
    (fun _ => ret (mkResponse false
                     (Some "Failed to get cart details. Please try again.")
                     (ErrorTag "Failed to get cart details"))).

(** Lines 224-347. *)
Definition addItemToCart (productName quantity : JsVal) : M Response :=
  try_catch
    (match productName with
     | VStr pn =>
       if (pn =? "")%string
       then ret (failure "Product name is required. Please specify which product you want to add.")
       else
       u <- get user ;;
       match u with
       | None =>
           ret (failure "Please sign in to add items to your cart. You can sign in through the website.")
       | Some _ =>
         let validQuantity :=
           int_max 1 (floor (num_or (Number (default_to (VNum (Num 1)) quantity)) 1)) in
         found <- findProductByName (trim pn) ;;
         mp <- VoiceAssistant.product_of found ;;
         match mp with
         | (matchResult, None) =>
             let suggestions := map name (firstn 3 (alternatives matchResult)) in
             ret (mkResponse false
                    (Some ("I couldn't find " +++ quoted pn +++ " in our inventory."
                           +++ (if 0 <? List.length suggestions
                                then " Did you mean: " +++ join_comma suggestions +++ "?"
                                else " Please check the product name and try again.")))
                    (Suggestions suggestions (confidence matchResult)))
         | (matchResult, Some product) =>
             if lt_int (stock_quantity product) validQuantity
             then ret (failure ("Sorry, only " +++ show_Z (stock_quantity product) +++ " "
                                +++ name product +++ " available in stock. You requested "
                                +++ show_int validQuantity +++ "."))
             else
               addToCart_in session_cart (id product) validQuantity ;;;
               refreshCart ;;;
               let t := cart_totals in
               let confidenceNote :=
                 match confidence matchResult with
                 | medium => " (I matched " +++ quoted pn +++ " to "
                             +++ quoted (name product) +++ ")"
                 | low => " (I matched " +++ quoted pn +++ " to "
                          +++ quoted (name product) +++ " - please verify this is correct)"
                 | _ => ""
                 end in
               ret (mkResponse true
                      (Some ("Added " +++ show_int validQuantity +++ " " +++ name product
                             +++ " to your cart for "
                             +++ "₹" +++ times_toFixed2 (price product) validQuantity
                             +++ confidenceNote +++ ". " +++ totals_line t))
                      (Added (name product) (confidence matchResult) t))
         end
       end
     | _ =>
       ret (failure "Product name is required. Please specify which product you want to add.")
     end)
    (fun _ => ret (failure "Failed to add item to cart. Please try again.")).

(** The note of the remove and update tools on a match of lower confidence. *)
Definition match_note (pn : string) (matchResult : MatchResult) (matched : Product) : string :=
  match confidence matchResult with
  | medium | low => " (I matched " +++ quoted pn +++ " to " +++ quoted (name matched) +++ ")"
  | _ => ""
  end.

(** Lines 350-461. *)
Definition removeItemFromCart (productName : JsVal) : M Response :=
  try_catch
    (match productName with
     | VStr pn =>
       if (pn =? "")%string
       then ret (failure "Product name is required. Please specify which product you want to remove.")
       else
       u <- get user ;;
       match u with
       | None => ret (failure "Please sign in to manage your cart.")
       | Some _ =>
         refreshCart ;;;
         found <- findProductByName (trim pn) ;;
         mp <- VoiceAssistant.product_of found ;;
         let cart := session_cart in
         match mp with
         | (matchResult, None) =>
             ret (mkResponse false
                    (Some ("I couldn't find " +++ quoted pn +++ " in available products."
                           +++ cart_names_note (cart_product_names cart)))
                    (Suggestions (map name (firstn 3 (alternatives matchResult)))
                                 (confidence matchResult)))
         | (matchResult, Some matched) =>
             match find (fun item => (ci_product_id item =? id matched)%string) cart with
             | None =>
                 ret (mkResponse false
                        (Some (quoted (name matched) +++ " is not in your cart."
                               +++ cart_names_note (cart_product_names cart)))
                        (CartNames (cart_product_names cart)))
             | Some cartItem =>
                 removeFromCart (ci_product_id cartItem) ;;;
                 refreshCart ;;;
                 let t := cart_totals in
                 ret (mkResponse true
                        (Some ("Removed " +++ VoiceAssistant.product_name_of cartItem
                               +++ " from your cart" +++ match_note pn matchResult matched
                               +++ ". " +++ totals_line t))
                        (Summary t))
             end
         end
       end
     | _ =>
       ret (failure "Product name is required. Please specify which product you want to remove.")
     end)
    (fun _ => ret (failure "Failed to remove item from cart. Please try again.")).

(** Lines 464-633. *)
Definition updateCartItemQuantity (productName quantity : JsVal) : M Response :=
  try_catch
    (match productName with
     | VStr pn =>
       if (pn =? "")%string
       then ret (failure "Product name is required. Please specify which product quantity you want to update.")
       else
       u <- get user ;;
       match u with
       | None => ret (failure "Please sign in to manage your cart.")
       | Some _ =>
         let validQuantity := floor (num_or (Number quantity) 0) in
         if int_neg validQuantity
         then ret (failure ("Quantity cannot be negative. Use " +++ quoted "remove"
                            +++ " to delete items from cart."))
         else
         refreshCart ;;;
         found <- findProductByName (trim pn) ;;
         mp <- VoiceAssistant.product_of found ;;
         let cart := session_cart in
         match mp with
         | (matchResult, None) =>
             ret (mkResponse false
                    (Some ("I couldn't find " +++ quoted pn +++ " in available products."
                           +++ cart_names_note (cart_product_names cart)))
                    (Suggestions (map name (firstn 3 (alternatives matchResult)))
                                 (confidence matchResult)))
         | (matchResult, Some matched) =>
             match find (fun item => (ci_product_id item =? id matched)%string) cart with
             | None =>
                 ret (mkResponse false
                        (Some (quoted (name matched) +++ " is not in your cart."
                               +++ cart_names_note (cart_product_names cart)))
                        (CartNames (cart_product_names cart)))
             | Some cartItem =>
                 if int_is0 validQuantity
                 then
                   removeFromCart (ci_product_id cartItem) ;;;
                   refreshCart ;;;
                   let t := cart_totals in
                   ret (mkResponse true
                          (Some ("Removed " +++ VoiceAssistant.product_name_of cartItem
                                 +++ " from your cart (quantity set to 0). "
                                 +++ totals_line t))
                          (Summary t))
                 else
                   ps <- get products ;;
                   let refusal :=
                     match find (fun p => (id p =? ci_product_id cartItem)%string) ps with
                     | Some product =>
                         if lt_int (stock_quantity product) validQuantity
                         then Some (failure ("Sorry, only " +++ show_Z (stock_quantity product)
                                             +++ " " +++ name product
                                             +++ " available in stock. You requested "
                                             +++ show_int validQuantity +++ "."))
                         else None
                     | None => None
                     end in
                   match refusal with
                   | Some resp => ret resp
                   | None =>
                       updateCartQuantity (ci_product_id cartItem) validQuantity ;;;
                       refreshCart ;;;
                       let t := cart_totals in
                       ret (mkResponse true
                              (Some ("Updated " +++ VoiceAssistant.product_name_of cartItem
                                     +++ " quantity to " +++ show_int validQuantity
                                     +++ match_note pn matchResult matched
                                     +++ ". " +++ totals_line t))
                              (Summary t))
                   end
             end
         end
       end
     | _ =>
       ret (failure "Product name is required. Please specify which product quantity you want to update.")
     end)
    (fun _ => ret (failure "Failed to update cart quantity. Please try again.")).

(** Lines 636-706. *)
Definition getAvailableProducts (category searchTerm limit : JsVal) : M Response :=
  let category := default_to (VStr "") category in
  let searchTerm := default_to (VStr "") searchTerm in
  let limit := default_to (VNum (Num 10)) limit in
  ps <- get products ;;
  try_catch
    (let by_category :=
       match category with
       | VStr c =>
           if (c =? "")%string then ps
           else filter (fun p =>
                          match category_name p with
                          | Some n => includes (toLowerCase n) (toLowerCase c)
                          | None => false
                          end) ps
       | _ => ps
       end in
     let by_term :=
       match searchTerm with
       | VStr t =>
           if (t =? "")%string then by_category
           else
             let fuzzyResults := search fuse ps (trim t) 50 in
             filter (fun p =>
                       includes (toLowerCase (name p)) (toLowerCase t)
                       || match description p with
                          | Some d => includes (toLowerCase d) (toLowerCase t)
                          | None => false
                          end
                       || existsb (fun r => (id (fz_product r) =? id p)%string) fuzzyResults)
                    by_category
       | _ => by_category
       end in
     let in_stock := filter (fun p => (0 <? stock_quantity p)%Z) by_term in
     let validLimit := int_min (int_max 1 (floor (num_or (Number limit) 10))) 50 in
     let filteredProducts := slice_0 in_stock validLimit in
     let term_note (lead : string) :=
       if truthy searchTerm then lead +++ quoted (to_string searchTerm) else "" in
     let category_note :=
       if truthy category then " in category " +++ quoted (to_string category) else "" in
     ret (mkResponse true
            (Some (if List.length filteredProducts =? 0
                   then "No products found" +++ term_note " for " +++ category_note +++ "."
                   else "Found " +++ show_nat (List.length filteredProducts) +++ " products"
                        +++ term_note " matching " +++ category_note +++ "."))
            (ProductsFull
               (map (fun p => mkProductInfo (name p) (price p) (unit_label p)
                                (match category_name p with
                                 | Some n => str_or n "Uncategorized"
                                 | None => "Uncategorized"
                                 end)
                                (match description p with
                                 | Some d => str_or d "No description available"
                                 | None => "No description available"
                                 end)
                                (0 <? stock_quantity p)%Z
                                (stock_quantity p))
                    filteredProducts)
               (List.length filteredProducts)
               (List.length (filter (fun p => (0 <? stock_quantity p)%Z) ps)))))
    (fun _ => ret (mkResponse false (Some "Failed to get products. Please try again.")
                              ProductsError)).

(** Lines 709-788.  The formatted date is left out. *)
Definition getPurchaseHistory (limit orderId : JsVal) : M Response :=
  let limit := default_to (VNum (Num 3)) limit in
  let orderId := default_to VNull orderId in
  u <- get user ;;
  match u with
  | None => ret (failure "You must be signed in to view your order history.")
  | Some usr =>
      try_catch
        (let query :=
           if truthy orderId
           then match Db.whole_number orderId with
                | Some oid => Db.select_order (uid usr) oid
                | None => Db.refused
                end
           else match Db.whole_number limit with
                | Some n => Db.select_newest_orders (uid usr) n
                | None => Db.refused
                end in
         r <- supabase query ;;
         if error r then throw SupabaseError
         else match data r with
              | None =>
                  ret (failure (if truthy orderId
                                then "Could not find an order with ID #"
                                     +++ to_string orderId +++ "."
                                else "You have no past orders."))
              | Some orders =>
                  let formattedOrders :=
                    map (fun o => mkFormattedOrder
                                    (or_id (owi_order o))
                                    (or_total_amount (owi_order o))
                                    (or_status (owi_order o))
                                    (List.length (owi_item_products o))
                                    (VoiceAssistant.present_names (firstn 3 (owi_item_products o))))
                        orders in
                  ret (mkResponse true
                         (Some ("Found " +++ show_nat (List.length formattedOrders)
                                +++ " order(s)."))
                         (Orders formattedOrders (List.length formattedOrders)))
              end)
        (fun _ => ret (failure "There was an error trying to fetch your order history."))
  end.

(** Lines 791-930.  The provider this copy goes with has the [placeOrder] of
    three arguments. *)
Definition placeOrder : M Response :=
  try_catch
    (u <- get user ;;
     match u with
     | None =>
         ret (failure "Please sign in to place an order. You can sign in through the website by clicking the user icon in the top right.")
     | Some usr =>
         refreshCart ;;;
         let cart := session_cart in
         if List.length cart =? 0
         then ret (failure "Your cart is empty. Please add some items before placing an order.")
         else
           userProfile <- getUserProfile ;;
           match userProfile with
           | None => ret (failure "Failed to fetch your profile information. Please try again.")
           | Some profile =>
               if (phone profile =? "")%string || (String.length (trim (phone profile)) <? 10)
               then ret (failure "Please complete your profile with a valid phone number (at least 10 digits). You can update your profile by clicking the user icon and selecting your profile.")
               else if (address profile =? "")%string
                       || (String.length (trim (address profile)) <? 10)
               then ret (failure "Please complete your profile with a complete delivery address (at least 10 characters). You can update your profile by clicking the user icon and selecting your profile.")
               else
                 let customerName :=
                   str_or (trim (full_name profile))
                          (str_or (hd EmptyString (split_on "@" (email usr))) "Customer") in
                 let customerPhone := trim (phone profile) in
                 let deliveryAddress := trim (address profile) in
                 let before := cart_totals in
                 AppContext.FromState.placeOrder_in session_cart
                   deliveryAddress customerName customerPhone ;;;
                 refreshCart ;;;
                 ret (mkResponse true
                        (Some ("Order placed successfully! Your order of "
                               +++ show_Z (sum_itemCount before) +++ " items totaling "
                               +++ rupees (sum_totalAmount before)
                               +++ " will be delivered to your saved address. You'll receive a confirmation shortly. Your cart is now empty and ready for your next order."))
                        (OrderPlaced (sum_totalAmount before) (sum_itemCount before)
                                     customerName))
           end
     end)
    (fun _ => ret (failure "Failed to place order. Please try again or contact support if the problem persists.")).

(** Lines 933-1030. *)
Definition getUserStatus : M Response :=
  try_catch
    (u <- get user ;;
     match u with
     | Some usr =>
         refreshCart ;;;
         userProfile <- getUserProfile ;;
         let isProfileComplete :=
           match userProfile with
           | Some p =>
               negb (phone p =? "")%string && negb (address p =? "")%string
               && (10 <=? String.length (phone p)) && (10 <=? String.length (address p))
           | None => false
           end in
         let t := cart_totals in
         ret (mkResponse true
                (Some ("You are signed in as " +++ email usr +++ ". Your cart has "
                       +++ show_Z (sum_itemCount t) +++ " items totaling "
                       +++ rupees (sum_totalAmount t) +++ ". "
                       +++ (if isProfileComplete
                            then "Your profile is complete and ready for orders."
                            else "Please complete your profile (phone and address) to place orders.")))
                (SignedIn (email usr) (sum_itemCount t) (sum_totalAmount t) isProfileComplete))
     | None =>
         ret (mkResponse true
                (Some "You are not signed in. Please sign in through the website to add items to cart and place orders.")
                SignedOut)
     end)
    (fun _ => ret (mkResponse false (Some "Failed to get user status. Please try again.")
                              (ErrorTag "Failed to get user status"))).

End Tools.

End StatefulTools.
(* ------------------------------------------------------------------------- *)
(** ** The tool operations

    A call of a tool with a parameter object: the operation, the copy of the
    component it is taken from, and the arguments the signature of the tool
    reads in the object ([VUndefined] for a property the object lacks). *)

Inductive ToolCall :=
| getCartDetails_1
| addItemToCart_1 (productName quantity : JsVal)
| removeItemFromCart_1 (productName : JsVal)
| updateCartItemQuantity_1 (productName quantity : JsVal)
| getAvailableProducts_1 (category searchTerm limit : JsVal)
| getPurchaseHistory_1 (limit orderId : JsVal)
| placeOrder_1
| getUserStatus_1
| getCartDetails_2
| addItemToCart_2 (productName quantity : JsVal)
| removeItemFromCart_2 (productName : JsVal)
| updateCartItemQuantity_2 (productName quantity : JsVal)
| getAvailableProducts_2 (category searchTerm limit : JsVal)
| getPurchaseHistory_2 (limit orderId : JsVal)
| placeOrder_2
| getUserStatus_2.

(** The tools as the session holds them: a name in one of the two copies. *)
Inductive Copy := first_copy | second_copy.

Inductive Tool :=
| tool_getCartDetails
| tool_addItemToCart
| tool_removeItemFromCart
| tool_updateCartItemQuantity
| tool_getAvailableProducts
| tool_getPurchaseHistory
| tool_placeOrder
| tool_getUserStatus.

(** The properties a tool reads in its parameter object. *)
Record Parameters := mkParameters {
  par_productName : JsVal;
  par_quantity : JsVal;
  par_category : JsVal;
  par_searchTerm : JsVal;
  par_limit : JsVal;
  par_orderId : JsVal
}.

(** The tools whose signature destructures the parameter,
    [async ({ productName, ... }) => ...]; the others are [async () => ...]. *)
Definition destructures (t : Tool) : bool :=
  match t with
  | tool_getCartDetails | tool_placeOrder | tool_getUserStatus => false
  | _ => true
  end.

Definition call_of (copy : Copy) (t : Tool) (p : Parameters) : ToolCall :=
  match copy, t with
  | first_copy, tool_getCartDetails => getCartDetails_1
  | first_copy, tool_addItemToCart => addItemToCart_1 (par_productName p) (par_quantity p)
  | first_copy, tool_removeItemFromCart => removeItemFromCart_1 (par_productName p)
  | first_copy, tool_updateCartItemQuantity =>
      updateCartItemQuantity_1 (par_productName p) (par_quantity p)
  | first_copy, tool_getAvailableProducts =>
      getAvailableProducts_1 (par_category p) (par_searchTerm p) (par_limit p)
  | first_copy, tool_getPurchaseHistory => getPurchaseHistory_1 (par_limit p) (par_orderId p)
  | first_copy, tool_placeOrder => placeOrder_1
  | first_copy, tool_getUserStatus => getUserStatus_1
  | second_copy, tool_getCartDetails => getCartDetails_2
  | second_copy, tool_addItemToCart => addItemToCart_2 (par_productName p) (par_quantity p)
  | second_copy, tool_removeItemFromCart => removeItemFromCart_2 (par_productName p)
  | second_copy, tool_updateCartItemQuantity =>
      updateCartItemQuantity_2 (par_productName p) (par_quantity p)
  | second_copy, tool_getAvailableProducts =>
      getAvailableProducts_2 (par_category p) (par_searchTerm p) (par_limit p)
  | second_copy, tool_getPurchaseHistory => getPurchaseHistory_2 (par_limit p) (par_orderId p)
  | second_copy, tool_placeOrder => placeOrder_2
  | second_copy, tool_getUserStatus => getUserStatus_2
  end.

(** An object without properties. *)
Definition no_properties : Parameters :=
  mkParameters VUndefined VUndefined VUndefined VUndefined VUndefined VUndefined.

Section RunTool.

Variable fuse : list Product -> string -> nat -> list FuzzySearchResult.
Variable StringToNumber : string -> JsNum.
Variable NumberToString : JsNum -> string.
Variable session_cart : list CartItem.

Definition run_tool (c : ToolCall) : M Response :=
  match c with
  | getCartDetails_1 => StatefulTools.getCartDetails session_cart
  | addItemToCart_1 n q => StatefulTools.addItemToCart fuse StringToNumber session_cart n q
  | removeItemFromCart_1 n => StatefulTools.removeItemFromCart fuse session_cart n
  | updateCartItemQuantity_1 n q =>
      StatefulTools.updateCartItemQuantity fuse StringToNumber session_cart n q
  | getAvailableProducts_1 c s l =>
      StatefulTools.getAvailableProducts fuse StringToNumber NumberToString c s l
  | getPurchaseHistory_1 l o => StatefulTools.getPurchaseHistory NumberToString l o
  | placeOrder_1 => StatefulTools.placeOrder session_cart
  | getUserStatus_1 => StatefulTools.getUserStatus session_cart
  | getCartDetails_2 => VoiceAssistant.getCartDetails
  | addItemToCart_2 n q => VoiceAssistant.addItemToCart fuse StringToNumber session_cart n q
  | removeItemFromCart_2 n => VoiceAssistant.removeItemFromCart fuse n
  | updateCartItemQuantity_2 n q =>
      VoiceAssistant.updateCartItemQuantity fuse StringToNumber NumberToString n q
  | getAvailableProducts_2 c s l => VoiceAssistant.getAvailableProducts c s l
  | getPurchaseHistory_2 l o => VoiceAssistant.getPurchaseHistory l o
  | placeOrder_2 => VoiceAssistant.placeOrder
  | getUserStatus_2 => VoiceAssistant.getUserStatus
  end.

(** [clientTools[name](parameters)], where [parameters] is [None] when the
    call carries no object ([undefined] or [null]).  Destructuring a missing
    parameter is a TypeError, raised before the body of the tool and its
    [try] are entered; a tool without parameters does not look at it. *)
Definition invoke (copy : Copy) (t : Tool) (parameters : option Parameters) : M Response :=
  match parameters with
  | Some p => run_tool (call_of copy t p)
  | None =>
      if destructures t then throw TypeError
      else run_tool (call_of copy t no_properties)
  end.

End RunTool.
(* ------------------------------------------------------------------------- *)
(** ** The components that call the provider

    The cart dialog (component Cart, the file unnamed/part_005), the product
    card (src/components/ProductCard.tsx) and the profile dialog (component
    Profile, the second one held in src/components/OrderHistory.tsx, whose
    line numbers are used).  A handler reads the state of its
    component and the provider's functions; the state of a component is
    passed to the handler and, where the handler sets it, returned.  The
    flags a handler raises while it runs and lowers in its [finally] block
    ([isPlacingOrder], [loading], [saving]) are the same before and after
    a call and are not part of the returned state. *)

(** [supabase.auth.updateUser({ data })]: the three fields of the metadata
    are replaced. *)
Definition auth_updateUser (meta : Profile) : M (Reply unit) :=
  fun w =>
    let (o, rest) := next_fault w in
    match o with
    | carried_out =>
        (Ret (mkReply (Some tt) false),
         mkWorld (db w) rest (user w) (products w) (cartItems w) meta (toasts w))
    | answers_error =>
        (Ret (mkReply None true),
         mkWorld (db w) rest (user w) (products w) (cartItems w) (user_metadata w) (toasts w))
    | rejects =>
        (Throw NetworkError,
         mkWorld (db w) rest (user w) (products w) (cartItems w) (user_metadata w) (toasts w))
    end.

(** [user?.email?.split('@')[0]], the empty string standing for undefined. *)
Definition mailbox_of (u : option User) : string :=
  match u with
  | Some usr => hd EmptyString (split_on "@" (email usr))
  | None => EmptyString
  end.

Module Cart.

(** [isProfileComplete] (lines 31-34). *)
Definition isProfileComplete (userProfile : option Profile) : bool :=
  match userProfile with
  | Some p =>
      negb (phone p =? "")%string && (10 <=? String.length (phone p))
      && negb (address p =? "")%string && (10 <=? String.length (address p))
  | None => false
  end.

(** The handlers of the quantity buttons do not await the provider. *)
Definition handleQuantityChange (productId : string) (newQuantity : Z) : M unit :=
  background (AppContext.updateCartQuantity productId (Fin newQuantity)).

Definition handleRemoveItem (productId : string) : M unit :=
  background (AppContext.updateCartQuantity productId (Fin 0)).

(** [handlePlaceOrder] (lines 87-101).  [placeOrder] is the function the
    provider hands out, called with three arguments; the result tells
    whether [onClose] was called. *)
Definition handlePlaceOrder (placeOrder : string -> string -> string -> M unit)
  (userProfile : option Profile) (isPlacingOrder : bool) : M bool :=
  match userProfile with
  | None => ret false
  | Some profile =>
      if negb (isProfileComplete userProfile) || isPlacingOrder then ret false
      else
        try_catch
          (u <- get user ;;
           let customerName :=
             str_or (full_name profile) (str_or (mailbox_of u) "Customer") in
           placeOrder (address profile) customerName (phone profile) ;;;
           ret true)
          (fun _ => ret false)
  end.

(** The [placeOrder] of lines 241-303 of AppContext.tsx as this component
    calls it: it gets no fourth argument. *)
Definition placeOrder_with_items : string -> string -> string -> M unit :=
  fun deliveryAddress customerName customerPhone =>
    AppContext.placeOrder deliveryAddress customerName customerPhone None.

End Cart.

Module ProductCard.

(** [cartItem?.quantity || 0] (lines 14-15). *)
Definition quantity (product : Product) (items : list CartItem) : Z :=
  match find (fun item => (ci_product_id item =? id product)%string) items with
  | Some cartItem => ci_quantity cartItem
  | None => 0%Z
  end.

Definition handleAdd (product : Product) : M unit :=
  background (AppContext.addToCart (id product) (Fin 1)).

Definition handleIncrease (product : Product) : M unit :=
  items <- get cartItems ;;
  background (AppContext.updateCartQuantity (id product) (Fin (quantity product items + 1))).

Definition handleDecrease (product : Product) : M unit :=
  items <- get cartItems ;;
  if (1 <? quantity product items)%Z
  then background (AppContext.updateCartQuantity (id product)
                     (Fin (quantity product items - 1)))
  else background (AppContext.updateCartQuantity (id product) (Fin 0)).

End ProductCard.

Module ProfileDialog.

(** The profile as the dialog shows it; the avatar and the date of the
    account are left out. *)
Record UserProfile := mkUserProfile {
  up_id : string;
  up_email : string;
  up_full_name : string;
  up_phone : string;
  up_address : string
}.

Record State := mkState {
  profile : option UserProfile;
  isEditing : bool;
  formData : Profile
}.

(** [fetchProfile] (lines 291-326). *)
Definition fetchProfile (st : State) : M State :=
  u <- get user ;;
  match u with
  | None => ret st
  | Some usr =>
      try_catch
        (r <- auth_getUser ;;
         if error r then toast "Failed to fetch profile" ;;; ret st
         else match data r with
              | None => throw TypeError
              | Some meta =>
                  let userProfile :=
                    mkUserProfile (uid usr) (email usr)
                                  (full_name meta) (phone meta) (address meta) in
                  ret (mkState (Some userProfile) (isEditing st)
                               (mkProfile (up_full_name userProfile) (up_phone userProfile)
                                          (up_address userProfile)))
              end)
        (fun _ => toast "Failed to fetch profile" ;;; ret st)
  end.

(** [handleSave] (lines 328-366).  Nothing is set before the call to the
    backend, so the handler of a rejected call finds the state as it was. *)
Definition handleSave (st : State) : M State :=
  u <- get user ;;
  match u with
  | None => ret st
  | Some _ =>
      let f := formData st in
      if (trim (phone f) =? "")%string || (String.length (trim (phone f)) <? 10)
      then toast "Please enter a valid phone number (at least 10 digits)" ;;; ret st
      else if (trim (address f) =? "")%string || (String.length (trim (address f)) <? 10)
      then toast "Please enter a complete delivery address (at least 10 characters)" ;;; ret st
      else
        try_catch
          (r <- auth_updateUser (mkProfile (trim (full_name f)) (trim (phone f))
                                           (trim (address f))) ;;
           if error r then toast "Failed to update profile" ;;; ret st
           else
             toast "Profile updated successfully!" ;;;
             fetchProfile (mkState (profile st) false (formData st)))
          (fun _ => toast "Failed to update profile" ;;; ret st)
  end.

(** [isProfileComplete] (lines 381-382). *)
Definition isProfileComplete (profile : option UserProfile) : bool :=
  match profile with
  | Some p =>
      negb (up_phone p =? "")%string && negb (up_address p =? "")%string
      && (10 <=? String.length (up_phone p)) && (10 <=? String.length (up_address p))
  | None => false
  end.

End ProfileDialog.
(* ------------------------------------------------------------------------- *)
(** * Vocabulary and sample data *)

(** ** Sample data used by the examples and witnesses *)

Module Sample.

Definition no_fuse : list Product -> string -> nat -> list FuzzySearchResult :=
  fun _ _ _ => [].

(** A conversion that reads unsigned decimal integers and gives NaN on
    anything else; enough for the inputs of the examples. *)
Definition decimal_to_number (s : string) : JsNum :=
  match trim s with
  | EmptyString => Num 0
  | t => match digits_value 0 t with
         | Some z => Num (inject_Z z)
         | None => NaN
         end
  end.

Definition number_to_decimal (n : JsNum) : string :=
  match n with
  | NaN => "NaN"
  | Infinite true => "Infinity"
  | Infinite false => "-Infinity"
  | Num q => show_Z (Qfloor q)
  end.

Definition item (i n : string) (cost stock : Z) : Product :=
  mkProduct i n None cost None "c1" stock "piece" None.

Definition apples := item "p1" "Apples" 12000 30.
Definition milk := item "p2" "Milk" 6000 5.
Definition milk_small := item "p3" "milk" 3500 8.
Definition glass := item "p4" "Glass" 9900 4.
Definition apples_caps := item "p5" "APPLES" 11000 2.
Definition rice_padded := item "p6" " Rice" 8000 10.

Definition catalog : list Product := [apples; milk].

Definition ann : User := mkUser "u1" "ann@example.org".

Definition ann_profile : Profile := mkProfile "Ann" "9876543210" "12 Long Street, Pune".

Definition store0 : Store := mkStore catalog [] [] [] 1.

(** Ann is signed in, her cart is empty and the backend has no fault. *)
Definition world0 : World := mkWorld store0 [] (Some ann) catalog [] ann_profile [].

Definition two_items : list CartItem :=
  [mkCartItem 1 "u1" "p1" 2 (Some apples); mkCartItem 2 "u1" "p2" 1 (Some milk)].

(** Ann's cart holds 2 Apples and 1 Milk, and the provider's state agrees
    with the table. *)
Definition world_cart : World :=
  mkWorld (mkStore catalog [mkCartRow 1 "u1" "p1" 2; mkCartRow 2 "u1" "p2" 1] [] [] 3)
          [] (Some ann) catalog two_items ann_profile [].

Definition with_faults (fs : list Outcome) (w : World) : World :=
  mkWorld (db w) fs (user w) (products w) (cartItems w) (user_metadata w) (toasts w).

Definition world_after {A} (m : M A) (w : World) : World := snd (m w).

End Sample.

(* ------------------------------------------------------------------------- *)
(** ** The vocabulary of the statements *)

(** The query as the strategies of the matcher see it. *)
Definition normalized (q : string) : string := trim (toLowerCase q).

(** The sums of the specification, written without an accumulator. *)
Definition line_total (item : CartItem) : Z :=
  (match ci_product item with Some p => price p | None => 0 end * ci_quantity item)%Z.

Definition sumZ (l : list Z) : Z := fold_right Z.add 0%Z l.

Definition total_of (items : list CartItem) : Z := sumZ (map line_total items).

Definition count_of (items : list CartItem) : Z := sumZ (map ci_quantity items).

(** The rows of a user's cart, each with its product, as the select of the
    cart returns them. *)
Definition cart_view (s : Store) (u : string) : list CartItem :=
  map (Db.join_product s) (filter (fun r => (cr_user_id r =? u)%string) (tbl_cart_items s)).

(** A row of the cart with its quantity set to [q], when it is the row of
    user [u] and product [pid]. *)
Definition set_quantity (u pid : string) (q : Z) (r : CartRow) : CartRow :=
  if Db.is_row u pid r then mkCartRow (cr_id r) (cr_user_id r) (cr_product_id r) q else r.

(** What a row of order_items records of the cart item it was made from. *)
Definition records (order_id : nat) (item : CartItem) (row : OrderItemRow) : Prop :=
  oi_order_id row = order_id
  /\ oi_quantity row = ci_quantity item
  /\ exists p, ci_product item = Some p /\ oi_product_id row = id p /\ oi_price row = price p.

(** The identifiers of the rows that exist are below the counter of the
    store, so a generated identifier is new. *)
Definition fresh_ids (s : Store) : Prop :=
  Forall (fun o => or_id o < next_id s) (tbl_orders s)
  /\ Forall (fun i => oi_order_id i < next_id s) (tbl_order_items s).

(** The world after one call to the backend that left the store [s]. *)
Definition advance (s : Store) (w : World) : World :=
  mkWorld s (snd (next_fault w)) (user w) (products w) (cartItems w)
          (user_metadata w) (toasts w).

(** A world in which [usr] is signed in and the backend has no fault. *)
Definition quiet (usr : User) (ps : list Product) (meta : Profile)
  (s : Store) (ci : list CartItem) (ts : list string) : World :=
  mkWorld s [] (Some usr) ps ci meta ts.

(** What [fetchLatestCartState] answers for [usr] over the store [s]. *)
Definition fetched (usr : User) (s : Store) : CartState :=
  mkCartState true (cart_view s (uid usr))
    (VoiceAssistant.sum_total (cart_view s (uid usr)))
    (VoiceAssistant.sum_count (cart_view s (uid usr))) None.





(** The backend cannot be reached: the user of the provider is [U] and the
    calls still to come fail as [F] tells. *)
Definition awaiting (F : list Outcome) (U : option User) (w : World) : Prop :=
  faults w = F /\ user w = U.







(* ------------------------------------------------------------------------- *)
(** ** More vocabulary: invariants of the store *)

(** [m] keeps [P]: when [P] holds of the world before a run of [m], it holds
    of the world after it, whether the run returns or throws. *)
Definition keeps {A} (P : World -> Prop) (m : M A) : Prop :=
  forall w, P w -> P (snd (m w)).

(** The provider's user is [U] and the store satisfies [Q]. *)
Definition holding (U : option User) (Q : Store -> Prop) : World -> Prop :=
  fun w => user w = U /\ Q (db w).

(** A quantity the backend accepts into a cart row is at least 1; an
    infinity or NaN is no whole number and the backend refuses it. *)
Definition positive_if_finite (q : JsInt) : Prop :=
  match q with
  | Fin z => (1 <= z)%Z
  | PosInf | NegInf | NotNum => True
  end.

(** [Q] survives what the provider does to the cart of user [U]: inserts and
    updates with a quantity of at least 1, and deletes. *)
Definition cart_ops_keep (U : option User) (Q : Store -> Prop) : Prop :=
  (forall usr pid z s, U = Some usr -> (1 <= z)%Z -> Q s ->
     Q (snd (Db.insert_cart (uid usr) pid (Fin z) s)))
  /\ (forall usr pid z s, U = Some usr -> (1 <= z)%Z -> Q s ->
        Q (snd (Db.update_cart (uid usr) pid (Fin z) s)))
  /\ (forall usr pid s, U = Some usr -> Q s -> Q (snd (Db.delete_cart (uid usr) pid s))).

(** [Q] survives what the provider does when it places an order for [U]. *)
Definition order_ops_keep (U : option User) (Q : Store -> Prop) : Prop :=
  (forall usr total status addr cname tel s, U = Some usr -> Q s ->
     Q (snd (Db.insert_order (uid usr) total status addr cname tel s)))
  /\ (forall items s, Q s -> Q (snd (Db.insert_order_items items s)))
  /\ (forall oid s, Q s -> Q (snd (Db.delete_order oid s)))
  /\ (forall usr s, U = Some usr -> Q s -> Q (snd (Db.clear_cart (uid usr) s))).

(** The rows of the cart table that belong to somebody else than [U]. *)
Definition rows_of_others (U : option User) (s : Store) : list CartRow :=
  match U with
  | Some usr => filter (fun r => negb (cr_user_id r =? uid usr)%string) (tbl_cart_items s)
  | None => tbl_cart_items s
  end.

(** Every row of the cart table has a quantity of at least 1. *)
Definition quantities_positive (s : Store) : Prop :=
  Forall (fun r => (1 <= cr_quantity r)%Z) (tbl_cart_items s).

(** The tool calls that only read. *)
Definition reads_only (c : ToolCall) : bool :=
  match c with
  | getCartDetails_1 | getCartDetails_2
  | getAvailableProducts_1 _ _ _ | getAvailableProducts_2 _ _ _
  | getPurchaseHistory_1 _ _ | getPurchaseHistory_2 _ _
  | getUserStatus_1 | getUserStatus_2 => true
  | _ => false
  end.

Definition places_order (c : ToolCall) : bool :=
  match c with
  | placeOrder_1 | placeOrder_2 => true
  | _ => false
  end.

(** The world with one more toast. *)
Definition toasted (msg : string) (w : World) : World :=
  mkWorld (db w) (faults w) (user w) (products w) (cartItems w) (user_metadata w)
          (toasts w ++ [msg]).

(** [array.findIndex(p => key(p) === key(x)) === i]: [x], at index [i] of
    [l], is the first element of [l] with its key. *)
Definition first_of_key {A} (key : A -> string) (l : list A) (x : A) (i : nat) : bool :=
  match findIndex (fun p => (key p =? key x)%string) l with
  | Some j => j =? i
  | None => false
  end.

(** Fuse.js answers with items of the collection it was given. *)
Definition answers_from_collection
  (fuse : list Product -> string -> nat -> list FuzzySearchResult) : Prop :=
  forall collection query limit r,
    In r (fuse collection query limit) -> In (fz_product r) collection.
(* ------------------------------------------------------------------------- *)
(** * Properties *)

(** ** Strings *)

Section StringFacts.

Lemma is_space_lower_char (c : ascii) : is_space (lower_char c) = is_space c.
Proof.
  destruct c as [b0 b1 b2 b3 b4 b5 b6 b7].
  destruct b0, b1, b2, b3, b4, b5, b6, b7; reflexivity.
Qed.

Lemma toLowerCase_empty (s : string) : toLowerCase s = "" -> s = "".
Proof. destruct s; simpl; [reflexivity | discriminate]. Qed.

Lemma toLowerCase_app (a b : string) :
  toLowerCase (a +++ b) = toLowerCase a +++ toLowerCase b.
Proof. induction a as [|c a IH]; simpl; [reflexivity | now rewrite IH]. Qed.

Lemma trimStart_toLowerCase (s : string) :
  trimStart (toLowerCase s) = toLowerCase (trimStart s).
Proof.
  induction s as [|c s IH]; simpl; [reflexivity|].
  rewrite is_space_lower_char. destruct (is_space c); [exact IH | reflexivity].
Qed.

Lemma trimEnd_toLowerCase (s : string) :
  trimEnd (toLowerCase s) = toLowerCase (trimEnd s).
Proof.
  induction s as [|c s IH]; simpl; [reflexivity|].
  rewrite IH, is_space_lower_char.
  destruct (trimEnd s) as [|d r]; simpl.
  - destruct (is_space c); reflexivity.
  - reflexivity.
Qed.

Lemma trim_toLowerCase (s : string) : trim (toLowerCase s) = toLowerCase (trim s).
Proof. unfold trim. now rewrite trimStart_toLowerCase, trimEnd_toLowerCase. Qed.

Lemma app_s_nonempty (s : string) : s +++ "s" <> "".
Proof. destruct s; discriminate. Qed.

Lemma trimEnd_app_s (s : string) : trimEnd (s +++ "s") = s +++ "s".
Proof.
  induction s as [|c s IH]; [reflexivity|].
  simpl. rewrite IH.
  destruct (s +++ "s") eqn:E; [now apply app_s_nonempty in E | reflexivity].
Qed.

Lemma trimStart_app (s t : string) :
  s <> "" -> trimStart s = s -> trimStart (s +++ t) = s +++ t.
Proof.
  destruct s as [|c s]; [congruence|]. intros _. simpl.
  destruct (is_space c); [|reflexivity].
  intros H. exfalso.
  assert (L : forall u, String.length (trimStart u) <= String.length u).
  { induction u as [|d u IHu]; simpl; [lia|]. destruct (is_space d); simpl; lia. }
  specialize (L s). rewrite H in L. simpl in L. lia.
Qed.

Lemma trimStart_idem_of_trim (s : string) : trim s = s -> trimStart s = s.
Proof.
  unfold trim. intros H.
  destruct s as [|c s]; [reflexivity|].
  simpl in *. destruct (is_space c) eqn:E; [|reflexivity].
  exfalso.
  assert (L1 : forall u, String.length (trimStart u) <= String.length u).
  { induction u as [|d u IHu]; simpl; [lia|]. destruct (is_space d); simpl; lia. }
  assert (L2 : forall u, String.length (trimEnd u) <= String.length u).
  { induction u as [|d u IHu]; simpl; [lia|].
    destruct (trimEnd u); simpl in *; [destruct (is_space d); simpl; lia | lia]. }
  pose proof (L1 s). pose proof (L2 (trimStart s)).
  rewrite H in *. simpl in *. lia.
Qed.

Lemma rev_onto_app (a b acc : string) :
  rev_onto (a +++ b) acc = rev_onto b (rev_onto a acc).
Proof. revert acc. induction a as [|c a IH]; intros acc; simpl; [reflexivity | apply IH]. Qed.

Lemma endsWith_app_s (s : string) : endsWith (s +++ "s") "s" = true.
Proof.
  unfold endsWith, rev. rewrite rev_onto_app. simpl.
  destruct (rev_onto s ""); reflexivity.
Qed.

Lemma length_app_s (s : string) : String.length (s +++ "s") = S (String.length s).
Proof. induction s as [|c s IH]; simpl; [reflexivity | now rewrite IH]. Qed.

Lemma substring_app_left (s t : string) :
  String.substring 0 (String.length s) (s +++ t) = s.
Proof.
  induction s as [|c s IH]; simpl.
  - destruct t; reflexivity.
  - now rewrite IH.
Qed.

Lemma drop_last_app_s (s : string) : drop_last (s +++ "s") = s.
Proof.
  unfold drop_last. rewrite length_app_s. simpl. rewrite Nat.sub_0_r.
  apply substring_app_left.
Qed.

Lemma app_s_neq (s : string) : s +++ "s" <> s.
Proof.
  intros H. apply (f_equal String.length) in H. rewrite length_app_s in H. lia.
Qed.

End StringFacts.

(** [find] on a list in which the predicate singles out one element. *)
Lemma find_the_one {A} (f : A -> bool) (l : list A) (x : A) :
  In x l -> f x = true -> (forall y, In y l -> f y = true -> y = x) ->
  find f l = Some x.
Proof.
  intros Hin Hx Huniq.
  destruct (find f l) as [y|] eqn:E.
  - apply find_some in E. destruct E as [Hy Hfy]. now rewrite (Huniq y Hy Hfy).
  - now rewrite (find_none _ _ E x Hin) in Hx.
Qed.

Lemma find_nothing {A} (f : A -> bool) (l : list A) :
  (forall y, In y l -> f y = false) -> find f l = None.
Proof.
  intros H. destruct (find f l) as [y|] eqn:E; [|reflexivity].
  apply find_some in E. destruct E as [Hy Hfy]. now rewrite (H y Hy) in Hfy.
Qed.

(* ------------------------------------------------------------------------- *)
(** ** The matcher *)

Section Matcher.

Variable fuse : list Product -> string -> nat -> list FuzzySearchResult.
Variable catalog : list Product.

Lemma findProduct_exact_step (q : string) (p : Product) :
  trim q <> "" ->
  find (fun x => (toLowerCase (name x) =? normalized q)%string) catalog = Some p ->
  findProduct fuse catalog q = mkMatch (Some p) exact [] exact_match.
Proof.
  intros Hq Hfind. unfold findProduct.
  assert (Hq' : q <> "") by (intros ->; apply Hq; reflexivity).
  apply String.eqb_neq in Hq, Hq'. rewrite Hq, Hq'.
  change (false || false) with false. cbv beta iota zeta.
  unfold normalized in Hfind. rewrite Hfind. reflexivity.
Qed.

Lemma findProduct_plural_step (q : string) (p : Product) :
  trim q <> "" ->
  find (fun x => (toLowerCase (name x) =? normalized q)%string) catalog = None ->
  find (fun x =>
          (toLowerCase (name x) =?
             (if endsWith (normalized q) "s" then drop_last (normalized q)
              else normalized q))%string
          || (toLowerCase (name x) =?
                (if endsWith (normalized q) "s" then normalized q
                 else normalized q +++ "s"))%string) catalog = Some p ->
  findProduct fuse catalog q = mkMatch (Some p) exact [] singular_plural_match.
Proof.
  intros Hq Hnone Hfind. unfold findProduct.
  assert (Hq' : q <> "") by (intros ->; apply Hq; reflexivity).
  apply String.eqb_neq in Hq, Hq'. rewrite Hq, Hq'.
  change (false || false) with false. cbv beta iota zeta.
  unfold normalized in *. rewrite Hnone, Hfind. reflexivity.
Qed.

(** The confidence [exact] is given by strategies 1 and 2 only. *)
Lemma exact_only_by_name (q : string) :
  confidence (findProduct fuse catalog q) = exact ->
  matchType (findProduct fuse catalog q) = exact_match
  \/ matchType (findProduct fuse catalog q) = singular_plural_match.
Proof.
  unfold findProduct.
  destruct ((q =? "")%string || (trim q =? "")%string); [discriminate|].
  cbv zeta.
  destruct (find _ catalog); [intros _; left; reflexivity|].
  destruct (find _ catalog); [intros _; right; reflexivity|].
  match goal with |- context [if ?c then find ?f catalog else None] =>
    destruct (if c then find f catalog else None) end; [discriminate|].
  destruct (search fuse catalog _ 5) as [|b rest].
  - destruct (filter _ catalog); discriminate.
  - cbn [confidence].
    destruct (Qle_bool (fz_score b) (1 # 10)); [discriminate|].
    destruct (Qle_bool (fz_score b) (3 # 10)); discriminate.
Qed.

End Matcher.

(** C4.  For every catalog (and whatever Fuse.js would answer), a query that
    is empty or holds white space only gives the result with no product,
    confidence [none] and no alternatives.  [findProduct] is a total function:
    there is no input on which it raises an error. *)
Theorem findProduct_blank_query
  (fuse : list Product -> string -> nat -> list FuzzySearchResult)
  (catalog : list Product) (q : string) :
  trim q = "" ->
  findProduct fuse catalog q = mkMatch None none [] empty_query.
Proof.
  intros H. unfold findProduct. rewrite H.
  rewrite orb_true_r. reflexivity.
Qed.

(** The queries of three spaces and of no character, over the sample catalog. *)
Lemma findProduct_blank_query_witness :
  trim "   " = ""
  /\ findProduct Sample.no_fuse Sample.catalog "   " = mkMatch None none [] empty_query
  /\ findProduct Sample.no_fuse Sample.catalog "" = mkMatch None none [] empty_query.
Proof.
  split; [reflexivity|]. split.
  - apply (findProduct_blank_query Sample.no_fuse Sample.catalog "   "). reflexivity.
  - apply (findProduct_blank_query Sample.no_fuse Sample.catalog ""). reflexivity.
Defined.

(** C3, as stated, fails: the name column is not unique, and of two products
    with the same name the query finds the first.  Here the second "Milk"
    ([id] p3, spelled "milk") is in the catalog and its own name resolves to
    the first one ([id] p2). *)
Lemma findProduct_own_name_counterexample :
  In Sample.milk_small [Sample.milk; Sample.milk_small]
  /\ findProduct Sample.no_fuse [Sample.milk; Sample.milk_small] (name Sample.milk_small)
     = mkMatch (Some Sample.milk) exact [] exact_match
  /\ Sample.milk <> Sample.milk_small.
Proof.
  split; [right; left; reflexivity|]. split; [reflexivity | discriminate].
Qed.

(** Two more ways in which a product's own name does not find it: the query
    is trimmed and the names are not, and an empty name is an empty query. *)
Lemma findProduct_padded_name_not_exact :
  findProduct Sample.no_fuse [Sample.rice_padded] (name Sample.rice_padded)
  = mkMatch (Some Sample.rice_padded) low [] partial_word_match.
Proof. reflexivity. Qed.

Lemma findProduct_empty_name_not_found :
  findProduct Sample.no_fuse [Sample.item "p7" "" 100 1] "" = mkMatch None none [] empty_query.
Proof. reflexivity. Qed.

(** C3, amended.  For every catalog and every product P in it whose name is
    not blank, has no white space at either end, and is not shared with
    another product up to case, [findProduct(P.name)] is P with confidence
    [exact]; strategy 1 decides it (the tag is [exact_match]) whatever the
    later strategies, Fuse.js included, would say. *)
Theorem findProduct_own_name
  (fuse : list Product -> string -> nat -> list FuzzySearchResult)
  (catalog : list Product) (P : Product) :
  In P catalog ->
  name P <> "" ->
  trim (name P) = name P ->
  (forall Q, In Q catalog -> toLowerCase (name Q) = toLowerCase (name P) -> Q = P) ->
  findProduct fuse catalog (name P) = mkMatch (Some P) exact [] exact_match.
Proof.
  intros Hin Hne Htrim Huniq.
  apply findProduct_exact_step.
  - now rewrite Htrim.
  - unfold normalized. rewrite trim_toLowerCase, Htrim.
    apply find_the_one; [exact Hin | apply String.eqb_refl |].
    intros Q HQ E. apply String.eqb_eq in E. now apply Huniq.
Qed.

(** The name of Milk finds Milk in the sample catalog. *)
Lemma findProduct_own_name_witness :
  findProduct Sample.no_fuse Sample.catalog "Milk"
  = mkMatch (Some Sample.milk) exact [] exact_match.
Proof.
  apply (findProduct_own_name Sample.no_fuse Sample.catalog Sample.milk).
  - right; left; reflexivity.
  - discriminate.
  - reflexivity.
  - intros Q [<-|[<-|[]]]; [discriminate | reflexivity].
Defined.

(** C5, as stated, fails.  "Glass" is the only product; the query "Glas" is
    its name without the trailing "s" and no product is called "Glas".  The
    query itself ends in "s", so strategy 2 tries "gla" and "glas", never
    "glass": whatever Fuse.js answers, the confidence is not [exact]. *)
Lemma findProduct_plural_forms_counterexample :
  In Sample.glass [Sample.glass]
  /\ name Sample.glass = "Glas" +++ "s"
  /\ (forall Q, In Q [Sample.glass] -> name Q <> "Glas")
  /\ (forall fuse, confidence (findProduct fuse [Sample.glass] "Glas") <> exact).
Proof.
  split; [left; reflexivity|]. split; [reflexivity|]. split.
  - intros Q [<-|[]]. discriminate.
  - intros fuse H. apply exact_only_by_name in H. revert H.
    vm_compute.
    match goal with |- context [fuse ?l ?q ?n] => destruct (fuse l q n) as [|b rest] end;
      intros [H|H]; discriminate H.
Qed.

(** The plural side fails as well when the other product differs by case
    only: "APPLES" is not the text "Apples", and it is what the query finds. *)
Lemma findProduct_plural_case_variant :
  let apple := Sample.item "p8" "Apple" 1000 3 in
  findProduct Sample.no_fuse [apple; Sample.apples_caps] (name apple +++ "s")
  = mkMatch (Some Sample.apples_caps) exact [] exact_match.
Proof. reflexivity. Qed.

(** C5, amended.  Let P be a product of the catalog.
    (1) If P.name does not start with white space and no other product is
        called P.name or P.name + "s" up to case, then [findProduct(P.name + "s")]
        is P with confidence [exact].
    (2) If P.name is b + "s", where b is not blank, has no white space at
        either end and does not itself end in "s" or "S", and no other product
        is called b or P.name up to case, then [findProduct(b)] is P with
        confidence [exact].
    Both are decided by strategy 2 (the tag is [singular_plural_match]). *)
Theorem findProduct_plural_forms
  (fuse : list Product -> string -> nat -> list FuzzySearchResult)
  (catalog : list Product) (P : Product) :
  In P catalog ->
  (trimStart (name P) = name P ->
   (forall Q, In Q catalog ->
      toLowerCase (name Q) = toLowerCase (name P)
      \/ toLowerCase (name Q) = toLowerCase (name P) +++ "s" -> Q = P) ->
   findProduct fuse catalog (name P +++ "s")
   = mkMatch (Some P) exact [] singular_plural_match)
  /\
  (forall b, name P = b +++ "s" ->
   b <> "" -> trim b = b -> endsWith (toLowerCase b) "s" = false ->
   (forall Q, In Q catalog ->
      toLowerCase (name Q) = toLowerCase b
      \/ toLowerCase (name Q) = toLowerCase b +++ "s" -> Q = P) ->
   findProduct fuse catalog b = mkMatch (Some P) exact [] singular_plural_match).
Proof.
  intros Hin. split.
  - intros Hlead Huniq.
    assert (Htrim : trim (name P +++ "s") = name P +++ "s").
    { unfold trim. destruct (name P) as [|c r] eqn:E.
      - reflexivity.
      - rewrite trimStart_app; [apply trimEnd_app_s | discriminate | exact Hlead]. }
    assert (Hnorm : normalized (name P +++ "s") = toLowerCase (name P) +++ "s").
    { unfold normalized. now rewrite trim_toLowerCase, Htrim, toLowerCase_app. }
    apply findProduct_plural_step.
    + rewrite Htrim. apply app_s_nonempty.
    + rewrite Hnorm. apply find_nothing. intros Q HQ.
      apply String.eqb_neq. intros E.
      assert (Q = P) by (apply Huniq; auto). subst Q.
      symmetry in E. now apply app_s_neq in E.
    + rewrite Hnorm, endsWith_app_s, drop_last_app_s.
      apply find_the_one.
      * exact Hin.
      * now rewrite String.eqb_refl.
      * intros Q HQ E. apply orb_true_iff in E.
        apply Huniq; [exact HQ|].
        destruct E as [E|E]; apply String.eqb_eq in E; auto.
  - intros b Hname Hb Htrim Hends Huniq.
    assert (Hnorm : normalized b = toLowerCase b).
    { unfold normalized. now rewrite trim_toLowerCase, Htrim. }
    assert (HP : toLowerCase (name P) = toLowerCase b +++ "s").
    { now rewrite Hname, toLowerCase_app. }
    apply findProduct_plural_step.
    + now rewrite Htrim.
    + rewrite Hnorm. apply find_nothing. intros Q HQ.
      apply String.eqb_neq. intros E.
      assert (Q = P) by (apply Huniq; auto). subst Q.
      rewrite HP in E. now apply app_s_neq in E.
    + rewrite Hnorm, Hends.
      apply find_the_one.
      * exact Hin.
      * rewrite HP, String.eqb_refl. apply orb_true_r.
      * intros Q HQ E. apply orb_true_iff in E.
        apply Huniq; [exact HQ|].
        destruct E as [E|E]; apply String.eqb_eq in E; auto.
Qed.

(** In the sample catalog the query Milks finds Milk and the query Apple
    finds Apples. *)
Lemma findProduct_plural_forms_witness :
  findProduct Sample.no_fuse Sample.catalog "Milks"
  = mkMatch (Some Sample.milk) exact [] singular_plural_match
  /\ findProduct Sample.no_fuse Sample.catalog "Apple"
     = mkMatch (Some Sample.apples) exact [] singular_plural_match.
Proof.
  split.
  - refine (proj1 (findProduct_plural_forms Sample.no_fuse Sample.catalog Sample.milk _) _ _).
    + right; left; reflexivity.
    + reflexivity.
    + intros Q [<-|[<-|[]]] [E|E]; try reflexivity; discriminate E.
  - refine (proj2 (findProduct_plural_forms Sample.no_fuse Sample.catalog Sample.apples _)
              "Apple" _ _ _ _ _).
    + left; reflexivity.
    + reflexivity.
    + discriminate.
    + reflexivity.
    + reflexivity.
    + intros Q [<-|[<-|[]]] [E|E]; try reflexivity; discriminate E.
Defined.

(* ------------------------------------------------------------------------- *)
(** ** The cart state accessor *)

Lemma fold_left_add_from {A} (f : A -> Z) (l : list A) (a : Z) :
  fold_left (fun acc x => (acc + f x)%Z) l a = (a + sumZ (map f l))%Z.
Proof.
  revert a. induction l as [|x l IH]; intros a; simpl.
  - lia.
  - rewrite IH. lia.
Qed.

Lemma sum_total_is_total_of (items : list CartItem) :
  VoiceAssistant.sum_total items = total_of items.
Proof.
  unfold VoiceAssistant.sum_total, total_of.
  rewrite (fold_left_add_from line_total). lia.
Qed.

Lemma sum_count_is_count_of (items : list CartItem) :
  VoiceAssistant.sum_count items = count_of items.
Proof.
  unfold VoiceAssistant.sum_count, count_of.
  rewrite (fold_left_add_from ci_quantity). lia.
Qed.

Lemma cart_total_is_total_of (items : list CartItem) :
  AppContext.cart_total items = total_of items.
Proof.
  unfold AppContext.cart_total, total_of.
  rewrite (fold_left_add_from line_total). lia.
Qed.

(** C6.  [fetchLatestCartState] always returns a state object: it never
    throws.  Without a user id the object is the failure indicator
    (success false, no items, totals 0).  With one, when the fetch answers
    with an error or its promise rejects, it is again the failure indicator;
    when the fetch is carried out, the object holds the fetched rows with
    totalAmount the sum of price times quantity over them and itemCount the
    sum of their quantities. *)
Theorem fetchLatestCartState_totals (userId : string) (w : World) :
  exists st w',
    VoiceAssistant.fetchLatestCartState userId w = (Ret st, w')
    /\ if (userId =? "")%string
       then st = mkCartState false [] 0 0 (Some "User not authenticated")
       else match fst (next_fault w) with
            | carried_out =>
                cs_success st = true
                /\ cs_items st = cart_view (db w) userId
                /\ cs_totalAmount st = total_of (cs_items st)
                /\ cs_itemCount st = count_of (cs_items st)
            | answers_error | rejects =>
                st = mkCartState false [] 0 0 (Some "Failed to fetch cart state")
            end.
Proof.
  unfold VoiceAssistant.fetchLatestCartState.
  destruct (userId =? "")%string.
  - eexists _, _. split; reflexivity.
  - unfold try_catch, bind, supabase.
    destruct (next_fault w) as [o rest]. destruct o; simpl.
    + eexists _, _. split; [reflexivity|]. simpl.
      rewrite sum_total_is_total_of, sum_count_is_count_of. auto.
    + eexists _, _. split; reflexivity.
    + eexists _, _. split; reflexivity.
Qed.

(** The quantities are summed, the rows are not counted: two rows of 2 and 3
    units give an item count of 5. *)
Example fetchLatestCartState_counts_units :
  let s := mkStore Sample.catalog
             [mkCartRow 1 "u1" "p1" 2; mkCartRow 2 "u1" "p2" 3; mkCartRow 3 "u2" "p2" 7]
             [] [] 4 in
  let w := mkWorld s [] (Some Sample.ann) Sample.catalog [] Sample.ann_profile [] in
  exists items,
    VoiceAssistant.fetchLatestCartState "u1" w
    = (Ret (mkCartState true items 42000 5 None), w)
    /\ List.length items = 2.
Proof. eexists. split; reflexivity. Qed.

(* ------------------------------------------------------------------------- *)
(** ** Running the monad *)

Section Running.

Context {A B : Type}.

Lemma bind_get (f : World -> A) (k : A -> M B) (w : World) :
  bind (get f) k w = k (f w) w.
Proof. reflexivity. Qed.

Lemma bind_returned (m : M A) (k : A -> M B) (w w1 : World) (a : A) :
  m w = (Ret a, w1) -> bind m k w = k a w1.
Proof. intros E. unfold bind. now rewrite E. Qed.

Lemma bind_thrown (m : M A) (k : A -> M B) (w w1 : World) (e : Exn) :
  m w = (Throw e, w1) -> bind m k w = (Throw e, w1).
Proof. intros E. unfold bind. now rewrite E. Qed.

Lemma supabase_carried_out (q : Store -> option A * Store) (w : World) (a : A) (s' : Store) :
  fst (next_fault w) = carried_out ->
  q (db w) = (Some a, s') ->
  supabase q w = (Ret (mkReply (Some a) false), advance s' w).
Proof.
  intros Ho Eq. unfold supabase, advance.
  destruct (next_fault w) as [o rest]. simpl in Ho. subst o. now rewrite Eq.
Qed.

Lemma supabase_refused (q : Store -> option A * Store) (w : World) (s' : Store) :
  fst (next_fault w) = carried_out ->
  q (db w) = (None, s') ->
  supabase q w = (Ret (mkReply None true), advance s' w).
Proof.
  intros Ho Eq. unfold supabase, advance.
  destruct (next_fault w) as [o rest]. simpl in Ho. subst o. now rewrite Eq.
Qed.

Lemma supabase_answers_error (q : Store -> option A * Store) (w : World) :
  fst (next_fault w) = answers_error ->
  supabase q w = (Ret (mkReply None true), advance (db w) w).
Proof.
  intros Ho. unfold supabase, advance.
  destruct (next_fault w) as [o rest]. simpl in Ho. now subst o.
Qed.

Lemma supabase_rejects (q : Store -> option A * Store) (w : World) :
  fst (next_fault w) = rejects ->
  supabase q w = (Throw NetworkError, advance (db w) w).
Proof.
  intros Ho. unfold supabase, advance.
  destruct (next_fault w) as [o rest]. simpl in Ho. now subst o.
Qed.

End Running.

Lemma first_two_carried_out (w : World) (s : Store) :
  Forall (eq carried_out) (firstn 2 (faults w)) ->
  fst (next_fault w) = carried_out /\ fst (next_fault (advance s w)) = carried_out.
Proof.
  unfold advance, next_fault. simpl.
  destruct (faults w) as [|o1 [|o2 fs]]; simpl; intros H; auto.
  - inversion H; subst. auto.
  - inversion H as [|? ? E1 H2]; subst. inversion H2; subst. auto.
Qed.

(* ------------------------------------------------------------------------- *)
(** ** The order placement workflow *)

Lemma order_items_of_present (oid : nat) (items : list CartItem) :
  Forall (fun i => ci_product i <> None) items ->
  exists l,
    AppContext.order_items_of oid items = Some l
    /\ forall n, Forall2 (records oid) items (Db.number_items n l).
Proof.
  induction 1 as [|item items Hp _ IH]; simpl.
  - exists []. split; [reflexivity | constructor].
  - destruct IH as [l [E HF]].
    destruct (ci_product item) as [p|] eqn:Ep; [|congruence].
    rewrite E. simpl. eexists. split; [reflexivity|].
    intros n. simpl. constructor; [|apply HF].
    unfold records, AppContext.price_of. simpl. rewrite Ep.
    repeat split. exists p. repeat split.
Qed.

Lemma filter_keeps_all {A} (f : A -> bool) (l : list A) :
  Forall (fun x => f x = true) l -> filter f l = l.
Proof.
  induction 1 as [|x l Hx _ IH]; simpl; [reflexivity|]. now rewrite Hx, IH.
Qed.

(** What follows the two inserts (the cart is emptied, the provider's state
    is refreshed, a toast is shown) leaves the order tables alone, whatever
    the backend does. *)
Lemma after_inserts_orders_kept (usr : User) (msg : string) (w : World) :
  user w = Some usr ->
  let w' := snd ((supabase (Db.clear_cart (uid usr)) ;;;
                  AppContext.refreshCart ;;; toast msg) w) in
  tbl_orders (db w') = tbl_orders (db w)
  /\ tbl_order_items (db w') = tbl_order_items (db w).
Proof.
  destruct w as [s fs u ps ci meta ts]. simpl. intros ->.
  destruct fs as [|o1 [|o2 fs]]; [|destruct o1|destruct o1, o2]; split; reflexivity.
Qed.

Lemma after_inserts_returns (usr : User) (msg : string) (w : World) :
  user w = Some usr ->
  faults w = [] ->
  exists w', (supabase (Db.clear_cart (uid usr)) ;;;
              AppContext.refreshCart ;;; toast msg) w = (Ret tt, w').
Proof.
  destruct w as [s fs u ps ci meta ts]. simpl. intros -> ->.
  eexists. reflexivity.
Qed.

(** C2.  Let a user be signed in and let [placeOrder] be given a non-empty
    list of cart items, each with its product, with the backend carrying out
    the two inserts.  Then the orders table gains exactly one row, whose
    total_amount is the sum over the given items of price times quantity
    (whatever the cart of the provider's state holds), and the order_items
    table gains one row per given item, in order, each recording the new
    order's id, the item's product id, its quantity and the price of its
    product.  With no fault at all the call returns normally. *)
Theorem placeOrder_total_and_items
  (w : World) (usr : User) (addr cname tel : string) (items : list CartItem) :
  user w = Some usr ->
  items <> [] ->
  Forall (fun i => ci_product i <> None) items ->
  Forall (eq carried_out) (firstn 2 (faults w)) ->
  exists r w' new_rows,
    AppContext.placeOrder addr cname tel (Some items) w = (r, w')
    /\ tbl_orders (db w')
       = tbl_orders (db w)
         ++ [mkOrderRow (next_id (db w)) (uid usr) (total_of items) "Pending" addr cname tel]
    /\ tbl_order_items (db w') = tbl_order_items (db w) ++ new_rows
    /\ Forall2 (records (next_id (db w))) items new_rows
    /\ (faults w = [] -> r = Ret tt).
Proof.
  intros Hu Hne Hall Hok.
  destruct (order_items_of_present (next_id (db w)) items Hall) as [l [El HF]].
  set (row := mkOrderRow (next_id (db w)) (uid usr) (total_of items) "Pending" addr cname tel).
  set (s1 := snd (Db.insert_order (uid usr) (total_of items) "Pending" addr cname tel (db w))).
  set (s2 := snd (Db.insert_order_items l s1)).
  destruct (first_two_carried_out w s1 Hok) as [Ho1 Ho2].
  set (w2 := advance s2 (advance s1 w)).
  set (tail := supabase (Db.clear_cart (uid usr)) ;;;
               AppContext.refreshCart ;;;
               toast ("Order #" +++ show_nat (next_id (db w)) +++ " placed successfully!")).
  assert (Erun : AppContext.placeOrder addr cname tel (Some items) w = tail w2).
  { unfold AppContext.placeOrder. rewrite bind_get, Hu.
    destruct items as [|i0 rest]; [congruence|].
    change (fold_left _ (i0 :: rest) 0%Z) with (AppContext.cart_total (i0 :: rest)).
    rewrite cart_total_is_total_of.
    erewrite bind_returned by (apply supabase_carried_out; [exact Ho1 | reflexivity]).
    cbn [error data or_id]. rewrite El.
    erewrite bind_returned by (apply supabase_carried_out; [exact Ho2 | reflexivity]).
    reflexivity. }
  destruct (after_inserts_orders_kept usr
              ("Order #" +++ show_nat (next_id (db w)) +++ " placed successfully!") w2 Hu)
    as [Horders Hitems].
  fold tail in Horders, Hitems.
  exists (fst (tail w2)), (snd (tail w2)), (Db.number_items (S (next_id (db w))) l).
  split; [rewrite Erun; apply surjective_pairing|].
  split; [exact Horders|]. split; [exact Hitems|]. split; [apply HF|].
  intros Hfs.
  destruct (after_inserts_returns usr
              ("Order #" +++ show_nat (next_id (db w)) +++ " placed successfully!") w2 Hu)
    as [w' E].
  - unfold w2, advance, next_fault. simpl. now rewrite Hfs.
  - fold tail in E. now rewrite E.
Qed.

(** The scenario of the specification: 2 Apples at 120.00 and 1 Milk at 60.00
    make an order of 300.00 with two items. *)
Lemma placeOrder_total_and_items_witness :
  exists r w' new_rows,
    AppContext.placeOrder "12 Long Street, Pune" "Ann" "9876543210"
      (Some Sample.two_items) Sample.world0 = (r, w')
    /\ tbl_orders (db w')
       = [] ++ [mkOrderRow 1 "u1" 30000 "Pending" "12 Long Street, Pune" "Ann" "9876543210"]
    /\ tbl_order_items (db w') = [] ++ new_rows
    /\ Forall2 (records 1) Sample.two_items new_rows
    /\ (faults Sample.world0 = [] -> r = Ret tt).
Proof.
  apply (placeOrder_total_and_items Sample.world0 Sample.ann
           "12 Long Street, Pune" "Ann" "9876543210" Sample.two_items).
  - reflexivity.
  - discriminate.
  - repeat constructor; discriminate.
  - constructor.
Defined.

(** The copy of [placeOrder] that takes the items as an argument undoes the
    order when the insert of its items is refused and the delete is carried
    out: the call throws, and both order tables are as they were. *)
Lemma placeOrder_rolls_back
  (w : World) (usr : User) (addr cname tel : string) (items : list CartItem)
  (fs : list Outcome) :
  user w = Some usr ->
  items <> [] ->
  Forall (fun i => ci_product i <> None) items ->
  fresh_ids (db w) ->
  faults w = carried_out :: answers_error :: carried_out :: fs ->
  exists w',
    AppContext.placeOrder addr cname tel (Some items) w = (Throw SupabaseError, w')
    /\ tbl_orders (db w') = tbl_orders (db w)
    /\ tbl_order_items (db w') = tbl_order_items (db w)
    /\ toasts w' = toasts w ++ ["Could not save items for your order."].
Proof.
  intros Hu Hne Hall [Hfo Hfi] Hfs.
  destruct (order_items_of_present (next_id (db w)) items Hall) as [l [El _]].
  unfold AppContext.placeOrder. rewrite bind_get, Hu.
  destruct items as [|i0 rest]; [congruence|].
  erewrite bind_returned
    by (apply supabase_carried_out; [unfold next_fault; now rewrite Hfs | reflexivity]).
  cbn [error data or_id]. rewrite El.
  erewrite bind_returned
    by (apply supabase_answers_error; unfold advance, next_fault; simpl; now rewrite Hfs).
  cbn [error].
  erewrite bind_returned
    by (apply supabase_carried_out;
        [unfold advance, next_fault; simpl; now rewrite Hfs | reflexivity]).
  eexists. split; [reflexivity|]. simpl. repeat split.
  - rewrite filter_app. simpl. rewrite Nat.eqb_refl. simpl. rewrite app_nil_r.
    apply filter_keeps_all. eapply Forall_impl; [|exact Hfo].
    intros o Ho. simpl in Ho. apply negb_true_iff, Nat.eqb_neq. lia.
  - apply filter_keeps_all. eapply Forall_impl; [|exact Hfi].
    intros i Hi. simpl in Hi. apply negb_true_iff, Nat.eqb_neq. lia.
Qed.

(** The delete of the rollback is awaited and its reply is not read: when it
    is refused too, the order stays, without items. *)
Example placeOrder_rollback_refused :
  let w := Sample.with_faults [carried_out; answers_error; answers_error] Sample.world0 in
  let out := AppContext.placeOrder "12 Long Street, Pune" "Ann" "9876543210"
               (Some Sample.two_items) w in
  fst out = Throw SupabaseError
  /\ tbl_orders (db (snd out))
     = [mkOrderRow 1 "u1" 30000 "Pending" "12 Long Street, Pune" "Ann" "9876543210"]
  /\ tbl_order_items (db (snd out)) = [].
Proof. vm_compute. repeat split. Qed.

(** C1 on the copy of [placeOrder] that reads the provider's state
    (lines 564-624): Ann's cart holds 2 Apples and 1 Milk, the insert of the
    order is carried out and the insert of its items is refused.  The call
    returns normally after a toast; the order stays in the table with no
    item, and her purchase history lists it with an item count of 0. *)
Example placeOrder_from_state_leaves_order :
  let w := Sample.with_faults [carried_out; answers_error] Sample.world_cart in
  let out := AppContext.FromState.placeOrder "12 Long Street, Pune" "Ann" "9876543210" w in
  fst out = Ret tt
  /\ tbl_orders (db (snd out))
     = [mkOrderRow 3 "u1" 30000 "Pending" "12 Long Street, Pune" "Ann" "9876543210"]
  /\ tbl_order_items (db (snd out)) = []
  /\ toasts (snd out) = ["Failed to create order items"]
  /\ fst (StatefulTools.getPurchaseHistory Sample.number_to_decimal VUndefined VUndefined
          (snd out))
     = Ret (mkResponse true (Some "Found 1 order(s).")
              (Orders [mkFormattedOrder 3 30000 "Pending" 0 []] 1)).
Proof. vm_compute. repeat split. Qed.

(** The same input on the copy that takes the items (lines 241-303): the
    order is deleted again and the call throws. *)
Example placeOrder_same_input_rolled_back :
  let w := Sample.with_faults [carried_out; answers_error] Sample.world_cart in
  let out := AppContext.placeOrder "12 Long Street, Pune" "Ann" "9876543210"
               (Some (cartItems w)) w in
  fst out = Throw SupabaseError
  /\ tbl_orders (db (snd out)) = []
  /\ tbl_order_items (db (snd out)) = []
  /\ toasts (snd out) = ["Could not save items for your order."]
  /\ fst (StatefulTools.getPurchaseHistory Sample.number_to_decimal VUndefined VUndefined
          (snd out))
     = Ret (mkResponse true (Some "Found 0 order(s).") (Orders [] 0)).
Proof. vm_compute. repeat split. Qed.

(* ------------------------------------------------------------------------- *)
(** ** The tool boundary *)

Section Boundary.

Context {A : Type} (Q : A -> Prop).








End Boundary.




(** *** When the backend cannot be reached *)

Section Unreachable.

Variable rest : list Outcome.
Variable U : option User.

Let P := awaiting (rejects :: rest) U.





















End Unreachable.





Section ProviderUnreachable.

Variable rest : list Outcome.
Variable usr : User.

Let P := awaiting (rejects :: rest) (Some usr).





End ProviderUnreachable.

Section ToolBoundary.

Variable fuse : list Product -> string -> nat -> list FuzzySearchResult.
Variable StringToNumber : string -> JsNum.
Variable NumberToString : JsNum -> string.
Variable session_cart : list CartItem.

Let run := run_tool fuse StringToNumber NumberToString session_cart.







End ToolBoundary.




(** The fetch of Ann's cart is rejected: getCartDetails answers with its
    failure. *)
Example getCartDetails_unreachable :
  let w := Sample.with_faults [rejects] Sample.world_cart in
  fst (invoke Sample.no_fuse Sample.decimal_to_number Sample.number_to_decimal
         (cartItems w) second_copy tool_getCartDetails (Some no_properties) w)
  = Ret (mkResponse false (Some "Failed to get cart details. Please try again.")
           (ErrorTag "Failed to get cart details")).
Proof. vm_compute. reflexivity. Qed.
(* ------------------------------------------------------------------------- *)
(** ** Runs without faults *)

Lemma is_row_set_quantity (u pid : string) (q : Z) (r : CartRow) :
  Db.is_row u pid (set_quantity u pid q r) = Db.is_row u pid r.
Proof. unfold set_quantity. destruct (Db.is_row u pid r) eqn:E; [|exact E]. exact E. Qed.

Lemma set_quantity_twice (u pid : string) (q : Z) (r : CartRow) :
  set_quantity u pid q (set_quantity u pid q r) = set_quantity u pid q r.
Proof.
  unfold set_quantity at 1. rewrite is_row_set_quantity.
  unfold set_quantity. destruct (Db.is_row u pid r); reflexivity.
Qed.

Lemma filter_set_quantity (u pid : string) (q : Z) (rows : list CartRow) :
  filter (Db.is_row u pid) (map (set_quantity u pid q) rows)
  = map (set_quantity u pid q) (filter (Db.is_row u pid) rows).
Proof.
  induction rows as [|x rows IH]; simpl; [reflexivity|].
  rewrite is_row_set_quantity. destruct (Db.is_row u pid x); simpl; now rewrite IH.
Qed.

Lemma is_row_fields (u pid : string) (r : CartRow) :
  Db.is_row u pid r = true -> cr_user_id r = u /\ cr_product_id r = pid.
Proof.
  unfold Db.is_row. intros H. apply andb_true_iff in H. destruct H as [H1 H2].
  split; now apply String.eqb_eq.
Qed.

Lemma only_row_is_row (u pid : string) (rows : list CartRow) (r : CartRow) :
  filter (Db.is_row u pid) rows = [r] -> Db.is_row u pid r = true.
Proof.
  intros H. assert (In r (filter (Db.is_row u pid) rows)) by (rewrite H; now left).
  now apply filter_In in H0.
Qed.

Lemma product_by_id_id (s : Store) (pid : string) (p : Product) :
  Db.product_by_id s pid = Some p -> id p = pid.
Proof. intros H. apply find_some in H. now apply String.eqb_eq. Qed.

(** The row of a product is found in the fetched cart through its joined
    product. *)
Lemma find_in_cart_view (s : Store) (u pid : string) (rows : list CartRow)
  (r : CartRow) (p : Product) :
  Db.product_by_id s pid = Some p ->
  filter (Db.is_row u pid) rows = [r] ->
  VoiceAssistant.find_in_cart pid
    (map (Db.join_product s) (filter (fun x => (cr_user_id x =? u)%string) rows))
  = Some (Db.join_product s r).
Proof.
  intros Hp. induction rows as [|x rows IH]; simpl; [discriminate|].
  destruct (Db.is_row u pid x) eqn:Ex.
  - intros H. inversion H; subst x. clear H.
    destruct (is_row_fields _ _ _ Ex) as [Eu Epid].
    rewrite Eu, String.eqb_refl. simpl.
    rewrite Epid, Hp. rewrite (product_by_id_id _ _ _ Hp), String.eqb_refl. reflexivity.
  - intros H. specialize (IH H).
    destruct (cr_user_id x =? u)%string eqn:Eu; [|exact IH].
    simpl. destruct (Db.product_by_id s (cr_product_id x)) as [px|] eqn:Epx; [|exact IH].
    rewrite (product_by_id_id _ _ _ Epx).
    unfold Db.is_row in Ex. rewrite Eu in Ex. simpl in Ex. rewrite Ex. exact IH.
Qed.

Lemma filter_none_of {A} (f : A -> bool) (l : list A) :
  filter f (filter (fun x => negb (f x)) l) = [].
Proof.
  induction l as [|x l IH]; simpl; [reflexivity|].
  destruct (f x) eqn:E; simpl; [exact IH | now rewrite E].
Qed.

Lemma Qfloor_inject_Z (z : Z) : Qfloor (inject_Z z) = z.
Proof. apply Qfloor_Z. Qed.

Lemma is_zero_inject_Z (z : Z) : is_zero (inject_Z z) = (z =? 0)%Z.
Proof. reflexivity. Qed.

Section QuietRuns.

Variable fuse : list Product -> string -> nat -> list FuzzySearchResult.
Variable StringToNumber : string -> JsNum.
Variable NumberToString : JsNum -> string.

Variable usr : User.
Variable ps : list Product.
Variable meta : Profile.

Hypothesis uid_given : uid usr <> "".

Lemma fetch_run (s : Store) (ci : list CartItem) (ts : list string) :
  VoiceAssistant.fetchLatestCartState (uid usr) (quiet usr ps meta s ci ts)
  = (Ret (fetched usr s), quiet usr ps meta s ci ts).
Proof.
  unfold VoiceAssistant.fetchLatestCartState.
  apply String.eqb_neq in uid_given. rewrite uid_given. reflexivity.
Qed.

Lemma refresh_run (s : Store) (ci : list CartItem) (ts : list string) :
  AppContext.refreshCart (quiet usr ps meta s ci ts)
  = (Ret tt, quiet usr ps meta s (cart_view s (uid usr)) ts).
Proof. reflexivity. Qed.

Lemma background_refresh_run (s : Store) (ci : list CartItem) (ts : list string) :
  background AppContext.refreshCart (quiet usr ps meta s ci ts)
  = (Ret tt, quiet usr ps meta s (cart_view s (uid usr)) ts).
Proof. reflexivity. Qed.

Lemma remove_run (pid : string) (s : Store) (ci : list CartItem) (ts : list string) :
  let s' := snd (Db.delete_cart (uid usr) pid s) in
  AppContext.removeFromCart pid (quiet usr ps meta s ci ts)
  = (Ret tt,
     quiet usr ps meta s' (cart_view s' (uid usr)) (ts ++ ["Item removed from cart!"])).
Proof. reflexivity. Qed.

Lemma update_run (pid : string) (q : Z) (s : Store) (ci : list CartItem) (ts : list string) :
  (0 < q)%Z ->
  let s' := snd (Db.update_cart (uid usr) pid (Fin q) s) in
  AppContext.updateCartQuantity pid (Fin q) (quiet usr ps meta s ci ts)
  = (Ret tt, quiet usr ps meta s' (cart_view s' (uid usr)) ts).
Proof.
  intros Hq. unfold AppContext.updateCartQuantity.
  rewrite bind_get. cbn [user quiet int_le0].
  assert (E : (q <=? 0)%Z = false) by (apply Z.leb_gt; lia).
  rewrite E. reflexivity.
Qed.


Lemma findProductByName_run (nm : string) (s : Store) (ci : list CartItem) (ts : list string) :
  nm <> "" ->
  VoiceAssistant.findProductByName fuse nm (quiet usr ps meta s ci ts)
  = (Ret (Some (findProduct fuse ps nm)), quiet usr ps meta s ci ts).
Proof.
  intros H. unfold VoiceAssistant.findProductByName.
  rewrite bind_get. cbn [products quiet].
  apply String.eqb_neq in H. now rewrite H.
Qed.

(** The stock check of the tools passes for a quantity within the stock of
    the catalog's product. *)
Lemma stock_allows (P : Product) (q : Z) :
  (q <= stock_quantity P)%Z -> lt_int (stock_quantity P) (Fin q) = false.
Proof. intros H. cbn [lt_int]. apply Z.ltb_ge. exact H. Qed.

End QuietRuns.

Lemma bind_ret {A B} (a : A) (k : A -> M B) (w : World) : bind (ret a) k w = k a w.
Proof. reflexivity. Qed.

Section ToolRuns.

Variable fuse : list Product -> string -> nat -> list FuzzySearchResult.
Variable StringToNumber : string -> JsNum.
Variable NumberToString : JsNum -> string.

Variable usr : User.
Variable ps : list Product.
Variable meta : Profile.

Hypothesis uid_given : uid usr <> "".

(** The query [nm] resolves to the product [P] of the catalog snapshot; the
    products table has a row [P'] for its id, and the user's cart has exactly
    one row [r] for it. *)
Variable nm : string.
Variables P P' : Product.
Variable r : CartRow.
Variable s : Store.

Hypothesis nm_given : trim nm <> "".
Hypothesis resolves : product (findProduct fuse ps (trim nm)) = Some P.
Hypothesis in_catalog : find (fun p => (id p =? id P)%string) ps = Some P.
Hypothesis in_table : Db.product_by_id s (id P) = Some P'.
Hypothesis in_cart : filter (Db.is_row (uid usr) (id P)) (tbl_cart_items s) = [r].

Let W := quiet usr ps meta.

Lemma joined_product : ci_product (Db.join_product s r) = Some P'.
Proof.
  unfold Db.join_product. cbn [ci_product].
  destruct (is_row_fields _ _ _ (only_row_is_row _ _ _ _ in_cart)) as [_ E].
  now rewrite E.
Qed.

Lemma table_id : id P' = id P.
Proof. exact (product_by_id_id _ _ _ in_table). Qed.

Lemma nm_not_empty : nm <> "".
Proof. intros E. apply nm_given. now rewrite E. Qed.

(** updateCartItemQuantity with a quantity that coerces to [q], 1 <= q <=
    stock: the row is set to [q]. *)
Lemma update_tool_sets (qv : JsVal) (q : Z) (ci : list CartItem) (ts : list string) :
  is_undefined qv = false ->
  floor (num_or (VoiceAssistant.Number StringToNumber qv) 0) = Fin q ->
  (1 <= q <= stock_quantity P)%Z ->
  let s' := snd (Db.update_cart (uid usr) (id P) (Fin q) s) in
  VoiceAssistant.updateCartItemQuantity fuse StringToNumber NumberToString (VStr nm) qv
    (W s ci ts)
  = (Ret (mkResponse true
            (Some (("Updated " +++ name P' +++ " quantity to " +++ show_Z q +++ ".")
                   +++ " " +++ VoiceAssistant.cart_line (fetched usr s')))
            (Summary (VoiceAssistant.summary_of (fetched usr s')))),
     W s' (cart_view s' (uid usr)) ts).
Proof.
  intros Hdef Hnum Hq s'.
  unfold VoiceAssistant.updateCartItemQuantity.
  rewrite bind_get. unfold W at 1. cbn [user quiet].
  cbn [truthy]. pose proof nm_not_empty as Hne. apply String.eqb_neq in Hne.
  rewrite Hne, Hdef. cbn [negb orb].
  unfold try_catch. cbv zeta. rewrite Hnum. cbn [int_neg].
  assert (E0 : (q <? 0)%Z = false) by (apply Z.ltb_ge; lia). rewrite E0.
  erewrite bind_returned by (apply fetch_run; exact uid_given).
  cbn [cs_success fetched negb cs_items].
  cbn [VoiceAssistant.trim_of]. rewrite bind_ret.
  erewrite bind_returned by (apply findProductByName_run; exact nm_given).
  cbn [VoiceAssistant.product_of]. rewrite bind_ret. rewrite resolves.
  unfold cart_view. rewrite (find_in_cart_view _ _ _ _ _ _ in_table in_cart).
  rewrite bind_get. cbn [products quiet].
  rewrite joined_product, table_id, in_catalog.
  rewrite (stock_allows P q) by lia.
  unfold VoiceAssistant.product_id_of. rewrite joined_product, bind_ret, table_id.
  cbn [int_is0].
  assert (E1 : (q =? 0)%Z = false) by (apply Z.eqb_neq; lia). rewrite E1.
  erewrite bind_returned by (apply update_run; lia).
  erewrite bind_returned by (apply background_refresh_run).
  erewrite bind_returned by (apply fetch_run; exact uid_given).
  cbn [cs_success fetched negb]. unfold VoiceAssistant.product_name_of.
  rewrite joined_product. reflexivity.
Qed.

(** The same call with a quantity that coerces to 0: the row is deleted and
    the response reports the removal. *)
Lemma update_tool_removes (qv : JsVal) (ci : list CartItem) (ts : list string) :
  is_undefined qv = false ->
  floor (num_or (VoiceAssistant.Number StringToNumber qv) 0) = Fin 0 ->
  (0 <= stock_quantity P)%Z ->
  let s' := snd (Db.delete_cart (uid usr) (id P) s) in
  VoiceAssistant.updateCartItemQuantity fuse StringToNumber NumberToString (VStr nm) qv
    (W s ci ts)
  = (Ret (mkResponse true
            (Some (("Removed " +++ name P' +++ " from the cart.")
                   +++ " " +++ VoiceAssistant.cart_line (fetched usr s')))
            (Summary (VoiceAssistant.summary_of (fetched usr s')))),
     W s' (cart_view s' (uid usr)) (ts ++ ["Item removed from cart!"])).
Proof.
  intros Hdef Hnum Hstock s'.
  unfold VoiceAssistant.updateCartItemQuantity.
  rewrite bind_get. unfold W at 1. cbn [user quiet].
  cbn [truthy]. pose proof nm_not_empty as Hne. apply String.eqb_neq in Hne.
  rewrite Hne, Hdef. cbn [negb orb].
  unfold try_catch. cbv zeta. rewrite Hnum. cbn [int_neg Z.ltb Z.compare].
  erewrite bind_returned by (apply fetch_run; exact uid_given).
  cbn [cs_success fetched negb cs_items].
  cbn [VoiceAssistant.trim_of]. rewrite bind_ret.
  erewrite bind_returned by (apply findProductByName_run; exact nm_given).
  cbn [VoiceAssistant.product_of]. rewrite bind_ret. rewrite resolves.
  unfold cart_view at 1. rewrite (find_in_cart_view _ _ _ _ _ _ in_table in_cart).
  rewrite bind_get. cbn [products quiet].
  rewrite joined_product, table_id, in_catalog.
  rewrite (stock_allows P 0) by lia.
  unfold VoiceAssistant.product_id_of. rewrite joined_product, bind_ret, table_id.
  cbn [int_is0 Z.eqb].
  erewrite bind_returned by (apply remove_run).
  erewrite bind_returned by (apply background_refresh_run).
  erewrite bind_returned by (apply fetch_run; exact uid_given).
  cbn [cs_success fetched negb]. unfold VoiceAssistant.product_name_of.
  rewrite joined_product. reflexivity.
Qed.


End ToolRuns.

(* ------------------------------------------------------------------------- *)
(** ** The cart tools *)

Lemma defined_is_not_undefined (v : JsVal) : v <> VUndefined -> is_undefined v = false.
Proof. destruct v; intros H; try reflexivity. congruence. Qed.

Lemma floor_of_integer (q : Z) : q <> 0%Z -> floor (num_or (Num (inject_Z q)) 0) = Fin q.
Proof.
  intros H. unfold num_or. rewrite is_zero_inject_Z.
  apply Z.eqb_neq in H. rewrite H. cbn [floor]. now rewrite Qfloor_inject_Z.
Qed.

(** C8.  A user is signed in and the backend has no fault; the name resolves
    to a product of the catalog that has exactly one row in the user's cart;
    the quantity argument is defined and coerces to an integer q with
    1 <= q <= stock.  Then updateCartItemQuantity called twice in a row with
    that name and quantity succeeds both times, and afterwards the cart has
    exactly one row for the product, with quantity q: the second call leaves
    the store as the first one left it. *)
Theorem updateCartItemQuantity_idempotent
  (fuse : list Product -> string -> nat -> list FuzzySearchResult)
  (StringToNumber : string -> JsNum) (NumberToString : JsNum -> string)
  (w : World) (usr : User) (P P' : Product) (r : CartRow)
  (nm : string) (qv : JsVal) (q : Z) :
  user w = Some usr -> uid usr <> "" -> faults w = [] ->
  trim nm <> "" ->
  product (findProduct fuse (products w) (trim nm)) = Some P ->
  find (fun p => (id p =? id P)%string) (products w) = Some P ->
  Db.product_by_id (db w) (id P) = Some P' ->
  filter (Db.is_row (uid usr) (id P)) (tbl_cart_items (db w)) = [r] ->
  qv <> VUndefined ->
  VoiceAssistant.Number StringToNumber qv = Num (inject_Z q) ->
  (1 <= q <= stock_quantity P)%Z ->
  let call :=
    VoiceAssistant.updateCartItemQuantity fuse StringToNumber NumberToString (VStr nm) qv in
  exists r1 w1 r2 w2,
    call w = (Ret r1, w1) /\ call w1 = (Ret r2, w2)
    /\ success r1 = true /\ success r2 = true
    /\ filter (Db.is_row (uid usr) (id P)) (tbl_cart_items (db w2))
       = [mkCartRow (cr_id r) (uid usr) (id P) q]
    /\ db w2 = db w1.
Proof.
  intros Hu Huid Hf Hnm Hres Hcat Htab Hrow Hdef Hnum Hq call.
  destruct w as [s fs u ps ci meta ts]. cbn [user faults products db] in *. subst u fs.
  apply defined_is_not_undefined in Hdef.
  assert (Hfloor : floor (num_or (VoiceAssistant.Number StringToNumber qv) 0) = Fin q)
    by (rewrite Hnum; apply floor_of_integer; lia).
  set (s1 := snd (Db.update_cart (uid usr) (id P) (Fin q) s)).
  assert (Hrow1 : filter (Db.is_row (uid usr) (id P)) (tbl_cart_items s1)
                  = [mkCartRow (cr_id r) (uid usr) (id P) q]).
  { unfold s1. cbn [Db.update_cart snd tbl_cart_items].
    change (map _ (tbl_cart_items s))
      with (map (set_quantity (uid usr) (id P) q) (tbl_cart_items s)).
    rewrite filter_set_quantity, Hrow. cbn [map]. unfold set_quantity.
    pose proof (only_row_is_row _ _ _ _ Hrow) as Er. rewrite Er.
    destruct (is_row_fields _ _ _ Er) as [-> ->]. reflexivity. }
  pose proof (update_tool_sets fuse StringToNumber NumberToString usr ps meta Huid
                nm P P' r s Hnm Hres Hcat Htab Hrow qv q ci ts Hdef Hfloor Hq) as E1.
  pose proof (update_tool_sets fuse StringToNumber NumberToString usr ps meta Huid
                nm P P' _ s1 Hnm Hres Hcat Htab Hrow1 qv q
                (cart_view s1 (uid usr)) ts Hdef Hfloor Hq) as E2.
  cbv zeta in E1, E2. fold s1 in E1.
  eexists _, _, _, _. split; [exact E1|]. split; [exact E2|].
  split; [reflexivity|]. split; [reflexivity|].
  cbn [db quiet].
  assert (Esame : snd (Db.update_cart (uid usr) (id P) (Fin q) s1) = s1).
  { unfold s1. cbn [Db.update_cart snd tbl_products tbl_cart_items tbl_orders
                     tbl_order_items next_id].
    f_equal.
    change (map (fun x => if Db.is_row (uid usr) (id P) x then _ else x) ?l)
      with (map (set_quantity (uid usr) (id P) q) l).
    rewrite map_map. apply map_ext. intros x. apply set_quantity_twice. }
  rewrite Esame. split; [exact Hrow1 | reflexivity].
Qed.

(** Ann sets Milk to 3 twice; her cart holds 2 Apples and one row of 3 Milk. *)
Lemma updateCartItemQuantity_idempotent_witness :
  exists r1 w1 r2 w2,
    VoiceAssistant.updateCartItemQuantity Sample.no_fuse Sample.decimal_to_number
      Sample.number_to_decimal (VStr "Milk") (VNum (Num 3)) Sample.world_cart = (Ret r1, w1)
    /\ VoiceAssistant.updateCartItemQuantity Sample.no_fuse Sample.decimal_to_number
         Sample.number_to_decimal (VStr "Milk") (VNum (Num 3)) w1 = (Ret r2, w2)
    /\ success r1 = true /\ success r2 = true
    /\ filter (Db.is_row "u1" "p2") (tbl_cart_items (db w2)) = [mkCartRow 2 "u1" "p2" 3]
    /\ db w2 = db w1.
Proof.
  apply (updateCartItemQuantity_idempotent Sample.no_fuse Sample.decimal_to_number
           Sample.number_to_decimal Sample.world_cart Sample.ann Sample.milk Sample.milk
           (mkCartRow 2 "u1" "p2" 1) "Milk" (VNum (Num 3)) 3).
  - reflexivity.
  - discriminate.
  - reflexivity.
  - discriminate.
  - reflexivity.
  - reflexivity.
  - reflexivity.
  - reflexivity.
  - discriminate.
  - reflexivity.
  - simpl. lia.
Defined.




(** C10.  Let the quantity argument be defined and let [Number] of it be NaN
    (the string "three", say).  Then the quantity the tool works with is 0:
    [Math.floor] of NaN is NaN, and it is the [|| 0] before it that makes the
    value 0.  And when a user is signed in, the backend has no fault, the name resolves
    to a product of the catalog (of non-negative stock) that has one row in
    the user's cart, updateCartItemQuantity deletes that row and answers with
    success true and a message that reports the removal. *)
Theorem updateCartItemQuantity_NaN_removes
  (fuse : list Product -> string -> nat -> list FuzzySearchResult)
  (StringToNumber : string -> JsNum) (NumberToString : JsNum -> string)
  (w : World) (usr : User) (P P' : Product) (r : CartRow) (nm : string) (qv : JsVal) :
  qv <> VUndefined ->
  VoiceAssistant.Number StringToNumber qv = NaN ->
  user w = Some usr -> uid usr <> "" -> faults w = [] ->
  trim nm <> "" ->
  product (findProduct fuse (products w) (trim nm)) = Some P ->
  find (fun p => (id p =? id P)%string) (products w) = Some P ->
  (0 <= stock_quantity P)%Z ->
  Db.product_by_id (db w) (id P) = Some P' ->
  filter (Db.is_row (uid usr) (id P)) (tbl_cart_items (db w)) = [r] ->
  floor (VoiceAssistant.Number StringToNumber qv) = NotNum
  /\ floor (num_or (VoiceAssistant.Number StringToNumber qv) 0) = Fin 0
  /\ exists resp w',
       VoiceAssistant.updateCartItemQuantity fuse StringToNumber NumberToString
         (VStr nm) qv w = (Ret resp, w')
       /\ success resp = true
       /\ (exists totals,
             message resp
             = Some (("Removed " +++ name P' +++ " from the cart.") +++ " " +++ totals))
       /\ filter (Db.is_row (uid usr) (id P)) (tbl_cart_items (db w')) = [].
Proof.
  intros Hdef Hnan Hu Huid Hf Hnm Hres Hcat Hstock Htab Hrow.
  assert (Hfloor : floor (num_or (VoiceAssistant.Number StringToNumber qv) 0) = Fin 0)
    by (rewrite Hnan; reflexivity).
  split; [rewrite Hnan; reflexivity|]. split; [exact Hfloor|].
  destruct w as [s fs u ps ci meta ts]. cbn [user faults products db] in *. subst u fs.
  apply defined_is_not_undefined in Hdef.
  pose proof (update_tool_removes fuse StringToNumber NumberToString usr ps meta Huid
                nm P P' r s Hnm Hres Hcat Htab Hrow qv ci ts Hdef Hfloor Hstock) as E.
  cbv zeta in E.
  eexists _, _. split; [exact E|]. split; [reflexivity|].
  split; [eexists; reflexivity|].
  cbn [db quiet Db.delete_cart snd tbl_cart_items].
  apply filter_none_of.
Qed.

(** Ann updates Milk with the quantity three, spelled out. *)
Lemma updateCartItemQuantity_NaN_removes_witness :
  floor (VoiceAssistant.Number Sample.decimal_to_number (VStr "three")) = NotNum
  /\ floor (num_or (VoiceAssistant.Number Sample.decimal_to_number (VStr "three")) 0) = Fin 0
  /\ exists resp w',
       VoiceAssistant.updateCartItemQuantity Sample.no_fuse Sample.decimal_to_number
         Sample.number_to_decimal (VStr "Milk") (VStr "three") Sample.world_cart
       = (Ret resp, w')
       /\ success resp = true
       /\ (exists totals,
             message resp = Some (("Removed " +++ "Milk" +++ " from the cart.") +++ " " +++ totals))
       /\ filter (Db.is_row "u1" "p2") (tbl_cart_items (db w')) = [].
Proof.
  apply (updateCartItemQuantity_NaN_removes Sample.no_fuse Sample.decimal_to_number
           Sample.number_to_decimal Sample.world_cart Sample.ann Sample.milk Sample.milk
           (mkCartRow 2 "u1" "p2" 1) "Milk" (VStr "three")).
  - discriminate.
  - reflexivity.
  - reflexivity.
  - discriminate.
  - reflexivity.
  - discriminate.
  - reflexivity.
  - reflexivity.
  - simpl. lia.
  - reflexivity.
  - reflexivity.
Defined.

(** What Ann hears in that case. *)
Example updateCartItemQuantity_three :
  fst (VoiceAssistant.updateCartItemQuantity Sample.no_fuse Sample.decimal_to_number
         Sample.number_to_decimal (VStr "Milk") (VStr "three") Sample.world_cart)
  = Ret (mkResponse true
           (Some "Removed Milk from the cart. Your cart now has 2 items totaling ₹240.00.")
           (Summary (mkCartSummary 2 24000))).
Proof. vm_compute. reflexivity. Qed.
(* ------------------------------------------------------------------------- *)
(** ** What a run keeps *)

Section Keeping.

Context {A : Type} (P : World -> Prop).

Lemma keeps_ret (a : A) : keeps P (ret a).
Proof. intros w H. exact H. Qed.

Lemma keeps_throw (e : Exn) : keeps P (@throw A e).
Proof. intros w H. exact H. Qed.

Lemma keeps_get (f : World -> A) : keeps P (get f).
Proof. intros w H. exact H. Qed.

Lemma keeps_bind {B} (m : M B) (k : B -> M A) :
  keeps P m -> (forall b, keeps P (k b)) -> keeps P (bind m k).
Proof.
  intros Hm Hk w Hw. unfold bind.
  specialize (Hm w Hw). destruct (m w) as [[b|e] w1]; simpl in Hm.
  - now apply Hk.
  - exact Hm.
Qed.

Lemma keeps_try_catch (m : M A) (h : Exn -> M A) :
  keeps P m -> (forall e, keeps P (h e)) -> keeps P (try_catch m h).
Proof.
  intros Hm Hh w Hw. unfold try_catch.
  specialize (Hm w Hw). destruct (m w) as [[a|e] w1]; simpl in Hm.
  - exact Hm.
  - now apply Hh.
Qed.

End Keeping.

Lemma keeps_background (P : World -> Prop) (m : M unit) :
  keeps P m -> keeps P (background m).
Proof.
  intros Hm w Hw. unfold background.
  specialize (Hm w Hw). now destruct (m w) as [r w1].
Qed.

Section Holding.

Variable U : option User.
Variable Q : Store -> Prop.

Lemma keeps_user {A} (k : option User -> M A) :
  keeps (holding U Q) (k U) -> keeps (holding U Q) (bind (get user) k).
Proof.
  intros Hk w Hw. rewrite bind_get.
  destruct Hw as [Hu Hq]. rewrite Hu. apply Hk. now split.
Qed.

Lemma keeps_toast (msg : string) : keeps (holding U Q) (toast msg).
Proof. intros w H. exact H. Qed.

Lemma keeps_setCartItems (items : list CartItem) : keeps (holding U Q) (setCartItems items).
Proof. intros w H. exact H. Qed.

Lemma keeps_supabase {A} (q : Store -> option A * Store) :
  (forall s, Q s -> Q (snd (q s))) -> keeps (holding U Q) (supabase q).
Proof.
  intros Hq w [Hu Hs]. unfold supabase.
  destruct (next_fault w) as [o rest]. destruct o.
  - specialize (Hq (db w) Hs). destruct (q (db w)) as [[a|] s']; now split.
  - now split.
  - now split.
Qed.

Lemma keeps_supabase_same {A} (q : Store -> option A * Store) :
  (forall s, snd (q s) = s) -> keeps (holding U Q) (supabase q).
Proof. intros H. apply keeps_supabase. intros s Hs. now rewrite H. Qed.

Lemma keeps_auth_getUser : keeps (holding U Q) auth_getUser.
Proof.
  intros w Hw. unfold auth_getUser.
  now apply (keeps_supabase_same (fun s => (Some (user_metadata w), s))).
Qed.

Lemma keeps_auth_updateUser (meta : Profile) : keeps (holding U Q) (auth_updateUser meta).
Proof.
  intros w [Hu Hs]. unfold auth_updateUser.
  destruct (next_fault w) as [o rest]. destruct o; now split.
Qed.

Lemma select_order_same (u : string) (oid : nat) (s : Store) :
  snd (Db.select_order u oid s) = s.
Proof.
  unfold Db.select_order. destruct (filter _ _) as [|o [|o' l]]; reflexivity.
Qed.

End Holding.

Ltac keeps_branch :=
  match goal with
  | |- keeps _ (match ?x with _ => _ end) =>
      lazymatch x with
      | context [match ?y with _ => _ end] => destruct y
      | _ => destruct x
      end
  end.

(** A select leaves the store as it is. *)
Ltac same_store :=
  intros;
  repeat match goal with
         | |- context [if ?b then _ else _] => destruct b
         | |- context [match Db.whole_number ?v with _ => _ end] =>
             destruct (Db.whole_number v)
         end;
  first [reflexivity | apply select_order_same].

Ltac keeps_steps :=
  repeat first
    [ apply keeps_ret
    | apply keeps_throw
    | apply keeps_get
    | apply keeps_toast
    | apply keeps_setCartItems
    | apply keeps_auth_getUser
    | apply keeps_auth_updateUser
    | apply keeps_supabase_same; same_store
    | apply keeps_user; cbv beta
    | apply keeps_background
    | apply keeps_bind; [|intros]
    | apply keeps_try_catch; [|intros]
    | keeps_branch
    | progress cbv zeta ].

Lemma int_le0_false_positive (q : JsInt) :
  int_le0 q = false -> positive_if_finite q.
Proof.
  destruct q as [z| | |]; simpl; intros H; [|exact I|exact I|exact I].
  apply Z.leb_gt in H. lia.
Qed.

Lemma int_max_1_positive (n : JsInt) : positive_if_finite (int_max 1 n).
Proof. destruct n as [z| | |]; simpl; [lia | exact I | lia | exact I]. Qed.

(** The functions of the provider. *)

Lemma keeps_refreshCart (U : option User) (Q : Store -> Prop) :
  keeps (holding U Q) AppContext.refreshCart.
Proof. unfold AppContext.refreshCart. keeps_steps. Qed.

Lemma keeps_fetchLatestCartState (U : option User) (Q : Store -> Prop) (userId : string) :
  keeps (holding U Q) (VoiceAssistant.fetchLatestCartState userId).
Proof. unfold VoiceAssistant.fetchLatestCartState. keeps_steps. Qed.

Lemma keeps_getUserProfile (U : option User) (Q : Store -> Prop) :
  keeps (holding U Q) VoiceAssistant.getUserProfile.
Proof. unfold VoiceAssistant.getUserProfile. keeps_steps. Qed.

Lemma keeps_removeFromCart (U : option User) (Q : Store -> Prop) (productId : string) :
  cart_ops_keep U Q ->
  keeps (holding U Q) (AppContext.removeFromCart productId).
Proof.
  intros cart_kept. unfold AppContext.removeFromCart. apply keeps_user.
  destruct U as [usr|]; [|apply keeps_ret].
  apply keeps_bind.
  - apply keeps_supabase. intros s Hs.
    now apply (proj2 (proj2 cart_kept) usr productId s).
  - intros r. destruct (error r); [apply keeps_toast|].
    apply keeps_bind; [apply keeps_toast | intros _; apply keeps_refreshCart].
Qed.

Lemma keeps_update_cart (U : option User) (Q : Store -> Prop)
  (usr : User) (productId : string) (q : JsInt) (s : Store) :
  cart_ops_keep U Q ->
  U = Some usr -> positive_if_finite q -> Q s ->
  Q (snd (Db.update_cart (uid usr) productId q s)).
Proof.
  intros cart_kept EU Hq Hs. destruct q as [z| | |]; [|exact Hs|exact Hs|exact Hs].
  now apply (proj1 (proj2 cart_kept) usr productId z s).
Qed.

Lemma keeps_insert_cart (U : option User) (Q : Store -> Prop)
  (usr : User) (productId : string) (q : JsInt) (s : Store) :
  cart_ops_keep U Q ->
  U = Some usr -> positive_if_finite q -> Q s ->
  Q (snd (Db.insert_cart (uid usr) productId q s)).
Proof.
  intros cart_kept EU Hq Hs. destruct q as [z| | |]; [|exact Hs|exact Hs|exact Hs].
  now apply (proj1 cart_kept usr productId z s).
Qed.

Lemma keeps_updateCartQuantity (U : option User) (Q : Store -> Prop)
  (productId : string) (quantity : JsInt) :
  cart_ops_keep U Q ->
  keeps (holding U Q) (AppContext.updateCartQuantity productId quantity).
Proof.
  intros cart_kept. unfold AppContext.updateCartQuantity. apply keeps_user.
  destruct U as [usr|] eqn:EU; [|apply keeps_ret].
  destruct (int_le0 quantity) eqn:Eq.
  - now apply keeps_removeFromCart.
  - apply keeps_bind.
    + apply keeps_supabase. intros s Hs.
      apply (keeps_update_cart (Some usr) Q);
        [exact cart_kept | reflexivity | now apply int_le0_false_positive | exact Hs].
    + intros r. destruct (error r); [apply keeps_toast | apply keeps_refreshCart].
Qed.

Lemma keeps_addToCart_in (U : option User) (Q : Store -> Prop)
  (items : list CartItem) (productId : string) (quantity : JsInt) :
  cart_ops_keep U Q ->
  positive_if_finite quantity ->
  keeps (holding U Q) (AppContext.addToCart_in items productId quantity).
Proof.
  intros cart_kept Hq. unfold AppContext.addToCart_in. apply keeps_user.
  destruct U as [usr|] eqn:EU; [|apply keeps_toast].
  destruct (find _ items) as [existingItem|].
  - now apply keeps_updateCartQuantity.
  - apply keeps_bind.
    + apply keeps_supabase. intros s Hs.
      now apply (keeps_insert_cart (Some usr) Q).
    + intros r. destruct (error r); [apply keeps_toast|].
      apply keeps_bind; [apply keeps_toast | intros _; apply keeps_refreshCart].
Qed.

Lemma keeps_addToCart (U : option User) (Q : Store -> Prop)
  (productId : string) (quantity : JsInt) :
  cart_ops_keep U Q ->
  positive_if_finite quantity ->
  keeps (holding U Q) (AppContext.addToCart productId quantity).
Proof.
  intros cart_kept Hq. unfold AppContext.addToCart.
  apply keeps_bind; [apply keeps_get|]. intros items.
  now apply keeps_addToCart_in.
Qed.

Lemma keeps_placeOrder (U : option User) (Q : Store -> Prop)
  (deliveryAddress customerName customerPhone : string)
  (itemsForOrder : option (list CartItem)) :
  order_ops_keep U Q ->
  keeps (holding U Q)
    (AppContext.placeOrder deliveryAddress customerName customerPhone itemsForOrder).
Proof.
  intros [Hio [Hii [Hdo Hcc]]].
  unfold AppContext.placeOrder. apply keeps_user.
  destruct U as [usr|] eqn:EU; [|destruct itemsForOrder as [[|i l]|]; apply keeps_ret].
  destruct itemsForOrder as [[|i l]|]; [apply keeps_ret | | apply keeps_ret].
  cbv zeta. apply keeps_bind.
  - apply keeps_supabase. intros s Hs. now apply Hio.
  - intros r. destruct (error r).
    + apply keeps_bind; [apply keeps_toast | intros _; apply keeps_throw].
    + destruct (data r) as [orderData|]; [|apply keeps_throw].
      destruct (AppContext.order_items_of _ _) as [orderItems|]; [|apply keeps_throw].
      apply keeps_bind.
      * apply keeps_supabase. intros s Hs. now apply Hii.
      * intros ri. destruct (error ri).
        -- apply keeps_bind; [apply keeps_supabase; intros s Hs; now apply Hdo|].
           intros _. apply keeps_bind; [apply keeps_toast | intros _; apply keeps_throw].
        -- apply keeps_bind; [apply keeps_supabase; intros s Hs; now apply Hcc|].
           intros _. apply keeps_bind; [apply keeps_refreshCart|].
           intros _. apply keeps_toast.
Qed.

Lemma keeps_placeOrder_in (U : option User) (Q : Store -> Prop)
  (items : list CartItem) (deliveryAddress customerName customerPhone : string) :
  order_ops_keep U Q ->
  keeps (holding U Q)
    (AppContext.FromState.placeOrder_in items deliveryAddress customerName customerPhone).
Proof.
  intros [Hio [Hii [Hdo Hcc]]].
  unfold AppContext.FromState.placeOrder_in. apply keeps_user.
  destruct U as [usr|] eqn:EU; [|apply keeps_toast].
  destruct items as [|i l]; [apply keeps_toast|].
  cbv zeta. apply keeps_bind.
  - apply keeps_supabase. intros s Hs. now apply Hio.
  - intros r. destruct (error r); [apply keeps_toast|].
    destruct (data r) as [order|]; [|apply keeps_throw].
    apply keeps_bind.
    + apply keeps_supabase. intros s Hs. now apply Hii.
    + intros ri. destruct (error ri); [apply keeps_toast|].
      apply keeps_bind; [apply keeps_supabase; intros s Hs; now apply Hcc|].
      intros rc. destruct (error rc); [apply keeps_toast|].
      apply keeps_bind; [apply keeps_toast | intros _; apply keeps_refreshCart].
Qed.
(* ------------------------------------------------------------------------- *)
(** ** Invariants of the tool calls *)

Section ToolKeeps.

Variable fuse : list Product -> string -> nat -> list FuzzySearchResult.
Variable StringToNumber : string -> JsNum.
Variable NumberToString : JsNum -> string.
Variable session_cart : list CartItem.

Let run := run_tool fuse StringToNumber NumberToString session_cart.

Ltac open_call :=
  unfold run, run_tool,
    StatefulTools.getCartDetails, StatefulTools.addItemToCart,
    StatefulTools.removeItemFromCart, StatefulTools.updateCartItemQuantity,
    StatefulTools.getAvailableProducts, StatefulTools.getPurchaseHistory,
    StatefulTools.placeOrder, StatefulTools.getUserStatus,
    VoiceAssistant.getCartDetails, VoiceAssistant.addItemToCart,
    VoiceAssistant.removeItemFromCart, VoiceAssistant.updateCartItemQuantity,
    VoiceAssistant.getAvailableProducts, VoiceAssistant.getPurchaseHistory,
    VoiceAssistant.placeOrder, VoiceAssistant.getUserStatus,
    StatefulTools.cart_totals, StatefulTools.findProductByName,
    StatefulTools.getUserProfile,
    VoiceAssistant.findProductByName, VoiceAssistant.product_of,
    VoiceAssistant.trim_of, VoiceAssistant.product_id_of.

Ltac provider_keeps :=
  first
    [ apply keeps_refreshCart
    | apply keeps_fetchLatestCartState
    | apply keeps_getUserProfile
    | apply keeps_removeFromCart; assumption
    | apply keeps_updateCartQuantity; assumption
    | apply keeps_addToCart_in; [assumption | apply int_max_1_positive]
    | apply keeps_placeOrder; auto
    | apply keeps_placeOrder_in; auto ].

Ltac call_keeps :=
  repeat first
    [ provider_keeps
    | apply keeps_ret
    | apply keeps_throw
    | apply keeps_get
    | apply keeps_toast
    | apply keeps_supabase_same; same_store
    | apply keeps_user; cbv beta
    | apply keeps_background
    | apply keeps_bind; [|intros]
    | apply keeps_try_catch; [|intros]
    | keeps_branch
    | progress cbv zeta ].

(** A tool that only reads keeps whatever holds of the store. *)
Lemma read_tools_keep (U : option User) (Q : Store -> Prop) (c : ToolCall) :
  reads_only c = true -> keeps (holding U Q) (run c).
Proof. destruct c; intros H; try discriminate H; open_call; call_keeps. Qed.

(** The tools that change the cart keep what the operations on the cart
    keep; the two that place an order also rely on the operations on the
    orders. *)
Lemma tools_keep (U : option User) (Q : Store -> Prop) (c : ToolCall) :
  cart_ops_keep U Q ->
  (places_order c = true -> order_ops_keep U Q) ->
  keeps (holding U Q) (run c).
Proof.
  intros Hcart Horders.
  destruct c; try specialize (Horders eq_refl); open_call; call_keeps.
Qed.

End ToolKeeps.

(** The rows of the others under the operations on the cart of [usr]. *)
Lemma others_after_map (u pid : string) (f : CartRow -> CartRow) (rows : list CartRow) :
  (forall r, cr_user_id (f r) = cr_user_id r) ->
  filter (fun r => negb (cr_user_id r =? u)%string)
         (map (fun r => if Db.is_row u pid r then f r else r) rows)
  = filter (fun r => negb (cr_user_id r =? u)%string) rows.
Proof.
  intros Hid. induction rows as [|r rows IH]; simpl; [reflexivity|].
  destruct (Db.is_row u pid r) eqn:E.
  - rewrite Hid. unfold Db.is_row in E. apply andb_true_iff in E. destruct E as [E _].
    rewrite E. simpl. exact IH.
  - destruct (cr_user_id r =? u)%string; simpl; now rewrite IH.
Qed.

Lemma others_after_filter (u : string) (keep : CartRow -> bool) (rows : list CartRow) :
  (forall r, keep r = false -> (cr_user_id r =? u)%string = true) ->
  filter (fun r => negb (cr_user_id r =? u)%string) (filter keep rows)
  = filter (fun r => negb (cr_user_id r =? u)%string) rows.
Proof.
  intros H. induction rows as [|r rows IH]; simpl; [reflexivity|].
  destruct (keep r) eqn:E; simpl.
  - now rewrite IH.
  - rewrite (H r E). simpl. exact IH.
Qed.

Lemma others_kept_by_cart_ops (usr : User) (x : list CartRow) :
  cart_ops_keep (Some usr) (fun s => rows_of_others (Some usr) s = x).
Proof.
  unfold rows_of_others. repeat split.
  - intros usr' pid z s E _ Hs. inversion E; subst usr'. simpl.
    destruct (existsb _ _); simpl; [exact Hs|].
    rewrite filter_app. simpl. rewrite String.eqb_refl. simpl.
    now rewrite app_nil_r.
  - intros usr' pid z s E _ Hs. inversion E; subst usr'. simpl.
    rewrite <- Hs.
    apply (others_after_map (uid usr) pid
             (fun r => mkCartRow (cr_id r) (cr_user_id r) (cr_product_id r) z)).
    reflexivity.
  - intros usr' pid s E Hs. inversion E; subst usr'. simpl.
    rewrite <- Hs. apply others_after_filter.
    intros r Hr. apply negb_false_iff in Hr.
    unfold Db.is_row in Hr. now apply andb_true_iff in Hr.
Qed.

Lemma others_kept_by_order_ops (usr : User) (x : list CartRow) :
  order_ops_keep (Some usr) (fun s => rows_of_others (Some usr) s = x).
Proof.
  unfold rows_of_others. repeat split; try (intros; simpl; assumption).
  intros usr' s E Hs. inversion E; subst usr'. simpl.
  rewrite <- Hs. apply others_after_filter.
  intros r Hr. now apply negb_false_iff in Hr.
Qed.

Lemma others_kept (U : option User) (x : list CartRow) :
  cart_ops_keep U (fun s => rows_of_others U s = x)
  /\ order_ops_keep U (fun s => rows_of_others U s = x).
Proof.
  destruct U as [usr|].
  - split; [apply others_kept_by_cart_ops | apply others_kept_by_order_ops].
  - split; repeat split; intros; try discriminate; simpl; assumption.
Qed.

(** X2.  A tool call touches no cart row of anybody but the signed-in user:
    the rows of the other users are the same list before and after, whatever
    the arguments, whatever cart state the session holds and whatever the
    backend does.  With nobody signed in the whole cart table stays as it
    is. *)
Theorem tools_leave_other_carts
  (fuse : list Product -> string -> nat -> list FuzzySearchResult)
  (StringToNumber : string -> JsNum) (NumberToString : JsNum -> string)
  (session_cart : list CartItem) (c : ToolCall) (w : World) :
  rows_of_others (user w) (db (snd (run_tool fuse StringToNumber NumberToString session_cart c w)))
  = rows_of_others (user w) (db w).
Proof.
  refine (proj2 (tools_keep fuse StringToNumber NumberToString session_cart (user w)
                   (fun s => rows_of_others (user w) s = rows_of_others (user w) (db w))
                   c _ _ w _)).
  - apply others_kept.
  - intros _. apply others_kept.
  - split; reflexivity.
Qed.

Lemma positive_kept_by_cart_ops (U : option User) : cart_ops_keep U quantities_positive.
Proof.
  unfold quantities_positive. repeat split.
  - intros usr pid z s _ Hz Hs. simpl.
    destruct (existsb _ _); simpl; [exact Hs|].
    apply Forall_app. split; [exact Hs|]. now repeat constructor.
  - intros usr pid z s _ Hz Hs. simpl.
    apply Forall_map. eapply Forall_impl; [|exact Hs].
    intros r Hr. destruct (Db.is_row _ _ r); [exact Hz | exact Hr].
  - intros usr pid s _ Hs. simpl.
    apply Forall_forall. intros r Hr. apply filter_In in Hr.
    rewrite Forall_forall in Hs. now apply Hs.
Qed.

Lemma positive_kept_by_order_ops (U : option User) : order_ops_keep U quantities_positive.
Proof.
  unfold quantities_positive. repeat split; try (intros; simpl; assumption).
  intros usr s _ Hs. simpl.
  apply Forall_forall. intros r Hr. apply filter_In in Hr.
  rewrite Forall_forall in Hs. now apply Hs.
Qed.

(** X3.  The tool calls keep the quantities of the cart table at 1 or more:
    if every row has a quantity of at least 1 before a call, every row has
    one after it, whatever the arguments (a quantity of 0, a negative or a
    fractional one, a text), whatever cart state the session and the
    provider hold and whatever the backend does. *)
Theorem tools_keep_quantities_positive
  (fuse : list Product -> string -> nat -> list FuzzySearchResult)
  (StringToNumber : string -> JsNum) (NumberToString : JsNum -> string)
  (session_cart : list CartItem) (c : ToolCall) (w : World) :
  quantities_positive (db w) ->
  quantities_positive (db (snd (run_tool fuse StringToNumber NumberToString session_cart c w))).
Proof.
  intros H.
  refine (proj2 (tools_keep fuse StringToNumber NumberToString session_cart (user w)
                   quantities_positive c _ _ w _)).
  - apply positive_kept_by_cart_ops.
  - intros _. apply positive_kept_by_order_ops.
  - split; [reflexivity | exact H].
Qed.

(** Ann, with 2 Apples and 1 Milk in her cart, asks for minus four Milk. *)
Lemma tools_keep_quantities_positive_witness :
  quantities_positive
    (db (snd (run_tool Sample.no_fuse Sample.decimal_to_number Sample.number_to_decimal Sample.two_items
                (addItemToCart_2 (VStr "Milk") (VNum (Num (-4 # 1)))) Sample.world_cart))).
Proof.
  apply (tools_keep_quantities_positive Sample.no_fuse Sample.decimal_to_number
           Sample.number_to_decimal Sample.two_items
           (addItemToCart_2 (VStr "Milk") (VNum (Num (-4 # 1)))) Sample.world_cart).
  unfold quantities_positive. simpl. repeat constructor; simpl; lia.
Defined.

Lemma orders_kept_by_cart_ops (U : option User) (x : list OrderRow) (y : list OrderItemRow) :
  cart_ops_keep U (fun s => tbl_orders s = x /\ tbl_order_items s = y).
Proof.
  repeat split; intros; simpl; try tauto;
    destruct (existsb _ _); simpl; tauto.
Qed.

(** X4.  Only placeOrder writes orders: every other tool call leaves the
    orders table and the order_items table as they are. *)
Theorem only_placeOrder_writes_orders
  (fuse : list Product -> string -> nat -> list FuzzySearchResult)
  (StringToNumber : string -> JsNum) (NumberToString : JsNum -> string)
  (session_cart : list CartItem) (c : ToolCall) (w : World) :
  places_order c = false ->
  let w' := snd (run_tool fuse StringToNumber NumberToString session_cart c w) in
  tbl_orders (db w') = tbl_orders (db w)
  /\ tbl_order_items (db w') = tbl_order_items (db w).
Proof.
  intros Hc.
  refine (proj2 (tools_keep fuse StringToNumber NumberToString session_cart (user w)
                   (fun s => tbl_orders s = tbl_orders (db w)
                             /\ tbl_order_items s = tbl_order_items (db w))
                   c _ _ w _)).
  - apply orders_kept_by_cart_ops.
  - intros H. rewrite Hc in H. discriminate H.
  - split; [reflexivity | split; reflexivity].
Qed.

(** Ann removes the Milk from her cart. *)
Lemma only_placeOrder_writes_orders_witness :
  let w' := snd (run_tool Sample.no_fuse Sample.decimal_to_number Sample.number_to_decimal Sample.two_items
                   (removeItemFromCart_2 (VStr "Milk")) Sample.world_cart) in
  tbl_orders (db w') = tbl_orders (db Sample.world_cart)
  /\ tbl_order_items (db w') = tbl_order_items (db Sample.world_cart).
Proof.
  apply (only_placeOrder_writes_orders Sample.no_fuse Sample.decimal_to_number
           Sample.number_to_decimal Sample.two_items (removeItemFromCart_2 (VStr "Milk")) Sample.world_cart).
  reflexivity.
Defined.

(** X5.  The tools that report (getCartDetails, getAvailableProducts,
    getPurchaseHistory and getUserStatus, in both copies of the component)
    leave the whole store as it is. *)
Theorem reading_tools_leave_the_store
  (fuse : list Product -> string -> nat -> list FuzzySearchResult)
  (StringToNumber : string -> JsNum) (NumberToString : JsNum -> string)
  (session_cart : list CartItem) (c : ToolCall) (w : World) :
  reads_only c = true ->
  db (snd (run_tool fuse StringToNumber NumberToString session_cart c w)) = db w.
Proof.
  intros Hc.
  refine (proj2 (read_tools_keep fuse StringToNumber NumberToString session_cart (user w)
                   (fun s => s = db w) c Hc w _)).
  split; reflexivity.
Qed.

(** Ann asks for her cart. *)
Lemma reading_tools_leave_the_store_witness :
  db (snd (run_tool Sample.no_fuse Sample.decimal_to_number Sample.number_to_decimal Sample.two_items
             getCartDetails_2 Sample.world_cart))
  = db Sample.world_cart.
Proof.
  apply (reading_tools_leave_the_store Sample.no_fuse Sample.decimal_to_number
           Sample.number_to_decimal Sample.two_items getCartDetails_2 Sample.world_cart).
  reflexivity.
Defined.
(* ------------------------------------------------------------------------- *)
(** ** Nobody signed in *)

(** X6.  With nobody signed in, no tool call reaches the backend or the
    provider's state: the world after the call is the world before it.  The
    calls that would change the cart or place an order answer with success
    false. *)
Theorem tools_signed_out_do_nothing
  (fuse : list Product -> string -> nat -> list FuzzySearchResult)
  (StringToNumber : string -> JsNum) (NumberToString : JsNum -> string)
  (session_cart : list CartItem) (c : ToolCall) (w : World) :
  user w = None ->
  snd (run_tool fuse StringToNumber NumberToString session_cart c w) = w
  /\ (reads_only c = false ->
      exists r, fst (run_tool fuse StringToNumber NumberToString session_cart c w) = Ret r
                /\ success r = false).
Proof.
  intros Hu. destruct w as [s fs u ps ci meta ts]. simpl in Hu. subst u.
  assert (R : forall (m : M Response) w0,
             (exists r, m w0 = (Ret r, w0) /\ success r = false) ->
             snd (m w0) = w0
             /\ (exists r, fst (m w0) = Ret r /\ success r = false)).
  { intros m w0 [r [E Hr]]. rewrite E. split; [reflexivity | now exists r]. }
  destruct c; try (split; [reflexivity | intros H; discriminate H]);
    (split; [|intros _]; apply R;
     try (eexists; split; reflexivity);
     destruct productName as [| |b|n|nm|]; try (eexists; split; reflexivity);
     unfold run_tool, StatefulTools.addItemToCart, StatefulTools.removeItemFromCart,
       StatefulTools.updateCartItemQuantity, VoiceAssistant.addItemToCart,
       VoiceAssistant.removeItemFromCart, VoiceAssistant.updateCartItemQuantity;
     unfold try_catch, bind, get, ret; cbn [user];
     destruct (nm =? "")%string; eexists; split; reflexivity).
Qed.

(** Milk is asked for before anybody has signed in. *)
Lemma tools_signed_out_do_nothing_witness :
  let w := mkWorld Sample.store0 [rejects] None Sample.catalog [] Sample.ann_profile [] in
  snd (run_tool Sample.no_fuse Sample.decimal_to_number Sample.number_to_decimal []
         (addItemToCart_2 (VStr "Milk") VUndefined) w) = w
  /\ (reads_only (addItemToCart_2 (VStr "Milk") VUndefined) = false ->
      exists r, fst (run_tool Sample.no_fuse Sample.decimal_to_number
                       Sample.number_to_decimal []
                       (addItemToCart_2 (VStr "Milk") VUndefined) w) = Ret r
                /\ success r = false).
Proof.
  apply (tools_signed_out_do_nothing Sample.no_fuse Sample.decimal_to_number
           Sample.number_to_decimal [] (addItemToCart_2 (VStr "Milk") VUndefined)).
  reflexivity.
Defined.
(* ------------------------------------------------------------------------- *)
(** ** More on the matcher *)

Section MoreStringFacts.

Lemma lower_char_twice (c : ascii) : lower_char (lower_char c) = lower_char c.
Proof.
  destruct c as [b0 b1 b2 b3 b4 b5 b6 b7].
  destruct b0, b1, b2, b3, b4, b5, b6, b7; reflexivity.
Qed.

Lemma toLowerCase_twice (s : string) : toLowerCase (toLowerCase s) = toLowerCase s.
Proof. induction s as [|c s IH]; simpl; [reflexivity | now rewrite lower_char_twice, IH]. Qed.

Lemma trimEnd_twice (s : string) : trimEnd (trimEnd s) = trimEnd s.
Proof.
  induction s as [|c s IH]; simpl; [reflexivity|].
  destruct (trimEnd s) as [|d r] eqn:E.
  - destruct (is_space c) eqn:Ec; simpl; [reflexivity | now rewrite Ec].
  - simpl in IH |- *. now rewrite IH.
Qed.

Lemma trimStart_twice (s : string) : trimStart (trimStart s) = trimStart s.
Proof.
  induction s as [|c s IH]; simpl; [reflexivity|].
  destruct (is_space c) eqn:Ec; [exact IH | simpl; now rewrite Ec].
Qed.

(** Trimming the end of a text that does not begin with white space gives
    one that does not either. *)
Lemma trimStart_trimEnd (s : string) : trimStart s = s -> trimStart (trimEnd s) = trimEnd s.
Proof.
  destruct s as [|c s]; [reflexivity|]. intros H.
  assert (Ec : is_space c = false).
  { simpl in H. destruct (is_space c); [|reflexivity]. exfalso.
    assert (L : forall u, String.length (trimStart u) <= String.length u).
    { induction u as [|d u IHu]; simpl; [lia|]. destruct (is_space d); simpl; lia. }
    specialize (L s). rewrite H in L. simpl in L. lia. }
  simpl. destruct (trimEnd s); rewrite ?Ec; simpl; rewrite ?Ec; reflexivity.
Qed.

Lemma trim_twice (s : string) : trim (trim s) = trim s.
Proof.
  unfold trim. rewrite trimStart_trimEnd by apply trimStart_twice.
  apply trimEnd_twice.
Qed.

Lemma length_trimStart (s : string) : String.length (trimStart s) <= String.length s.
Proof. induction s as [|c s IH]; simpl; [lia|]. destruct (is_space c); simpl; lia. Qed.

Lemma length_trimEnd (s : string) : String.length (trimEnd s) <= String.length s.
Proof.
  induction s as [|c s IH]; simpl; [lia|].
  destruct (trimEnd s); simpl in *; [destruct (is_space c); simpl; lia | lia].
Qed.

Lemma length_trim (s : string) : String.length (trim s) <= String.length s.
Proof.
  unfold trim. pose proof (length_trimEnd (trimStart s)). pose proof (length_trimStart s). lia.
Qed.

Lemma normalized_blank (q : string) : normalized q = "" <-> trim q = "".
Proof.
  unfold normalized. split; intros H.
  - rewrite trim_toLowerCase in H. now apply toLowerCase_empty.
  - rewrite trim_toLowerCase, H. reflexivity.
Qed.

Lemma blank_test (q : string) :
  ((q =? "") || (trim q =? ""))%string = (normalized q =? "")%string.
Proof.
  destruct (normalized q =? "")%string eqn:E.
  - apply String.eqb_eq in E. apply (proj1 (normalized_blank q)) in E.
    rewrite E. apply orb_true_r.
  - apply String.eqb_neq in E.
    assert (Ht : trim q <> "") by (intros H; apply E; now apply (proj2 (normalized_blank q))).
    assert (Hq : q <> "") by (intros ->; now apply Ht).
    apply String.eqb_neq in Ht, Hq. now rewrite Ht, Hq.
Qed.

End MoreStringFacts.

Lemma length_filter_le {A} (f : A -> bool) (l : list A) :
  List.length (filter f l) <= List.length l.
Proof. induction l as [|x l IH]; simpl; [lia|]. destruct (f x); simpl; lia. Qed.

Lemma length_slice_1_4 {A} (l : list A) : List.length (slice_1_4 l) <= 3.
Proof. unfold slice_1_4. rewrite length_firstn. lia. Qed.

(** X7.  The answer of [findProduct] depends on the query only through its
    lower-cased, trimmed form: two queries that differ in the case of their
    letters and in the white space around them get the same result, from
    every catalog and whatever Fuse.js answers. *)
Theorem findProduct_ignores_case_and_padding
  (fuse : list Product -> string -> nat -> list FuzzySearchResult)
  (catalog : list Product) (q1 q2 : string) :
  normalized q1 = normalized q2 ->
  findProduct fuse catalog q1 = findProduct fuse catalog q2.
Proof.
  intros H. unfold findProduct.
  rewrite (blank_test q1), (blank_test q2), H.
  destruct (normalized q2 =? "")%string; [reflexivity|].
  unfold normalized in H. rewrite H. reflexivity.
Qed.

(** The queries MILK, padded, and Milk. *)
Lemma findProduct_ignores_case_and_padding_witness :
  findProduct Sample.no_fuse Sample.catalog "  MILK " 
  = findProduct Sample.no_fuse Sample.catalog "Milk".
Proof.
  apply (findProduct_ignores_case_and_padding Sample.no_fuse Sample.catalog "  MILK " "Milk").
  reflexivity.
Defined.

Section MatcherShape.

Variable fuse : list Product -> string -> nat -> list FuzzySearchResult.
Variable catalog : list Product.

Ltac by_strategy :=
  unfold findProduct;
  destruct ((_ =? "")%string || (_ =? "")%string); [|cbv zeta;
  destruct (find _ catalog); [|
  destruct (find _ catalog); [|
  match goal with |- context [if ?c then find ?f catalog else None] =>
    destruct (if c then find f catalog else None) end; [|
  destruct (search fuse catalog _ 5) as [|best rest]; [
  destruct (filter _ catalog) as [|first others] eqn:Epartial |]]]]].

Lemma found_iff_confident (q : string) :
  product (findProduct fuse catalog q) = None
  <-> confidence (findProduct fuse catalog q) = none.
Proof.
  by_strategy; cbn [product confidence]; try (split; [reflexivity | reflexivity]);
    try (split; intros H; discriminate H).
  destruct (Qle_bool (fz_score best) (1 # 10));
    [|destruct (Qle_bool (fz_score best) (3 # 10))]; split; intros H; discriminate H.
Qed.

Lemma alternatives_at_most_three (q : string) :
  List.length (alternatives (findProduct fuse catalog q)) <= 3.
Proof.
  by_strategy; cbn [alternatives]; try (simpl; lia).
  - unfold getSuggestions.
    destruct (String.length _ <? 2); [simpl; lia|].
    cbv zeta. rewrite length_firstn. lia.
  - apply length_slice_1_4.
  - rewrite length_map.
    etransitivity; [apply length_filter_le | apply length_slice_1_4].
Qed.

Lemma alternatives_only_when_unsure (q : string) :
  confidence (findProduct fuse catalog q) = exact -> alternatives (findProduct fuse catalog q) = [].
Proof.
  by_strategy; cbn [alternatives confidence]; try reflexivity; try discriminate.
  destruct (Qle_bool (fz_score best) (1 # 10));
    [|destruct (Qle_bool (fz_score best) (3 # 10))]; discriminate.
Qed.

End MatcherShape.

(** X8.  [findProduct] returns a product exactly when its confidence is not
    [none]: a caller may test either. *)
Theorem findProduct_found_iff_confident
  (fuse : list Product -> string -> nat -> list FuzzySearchResult)
  (catalog : list Product) (q : string) :
  product (findProduct fuse catalog q) = None
  <-> confidence (findProduct fuse catalog q) = none.
Proof. apply found_iff_confident. Qed.

(** X9.  [findProduct] returns at most three alternatives, and none at all
    with a result of confidence [exact]. *)
Theorem findProduct_alternatives_bounded
  (fuse : list Product -> string -> nat -> list FuzzySearchResult)
  (catalog : list Product) (q : string) :
  List.length (alternatives (findProduct fuse catalog q)) <= 3
  /\ (confidence (findProduct fuse catalog q) = exact ->
      alternatives (findProduct fuse catalog q) = []).
Proof.
  split; [apply alternatives_at_most_three | apply alternatives_only_when_unsure].
Qed.

(** Lists: first occurrences. *)
Section FirstOccurrences.

Context {A : Type}.

Lemma findIndex_before (f : A -> bool) (pre suf : list A) (x : A) (j : nat) :
  In x pre -> f x = true -> findIndex f (pre ++ suf) = Some j -> j < List.length pre.
Proof.
  revert j. induction pre as [|a pre IH]; intros j Hin Hx E; [destruct Hin|].
  simpl in E. destruct (f a) eqn:Ea.
  - inversion E. simpl. lia.
  - destruct Hin as [->|Hin]; [congruence|].
    destruct (findIndex f (pre ++ suf)) as [j'|] eqn:E'; [|discriminate E].
    inversion E. simpl. specialize (IH j' Hin Hx eq_refl). lia.
Qed.

Lemma In_filter_indexed_from (p : A -> nat -> bool) (i : nat) (l : list A) (x : A) :
  In x (filter_indexed_from p i l) -> In x l.
Proof.
  revert i. induction l as [|a l IH]; intros i H; [exact H|].
  simpl in H. destruct (p a i).
  - destruct H as [->|H]; [now left | right; now apply (IH (S i))].
  - right. now apply (IH (S i)).
Qed.

Lemma In_firstn (n : nat) (l : list A) (x : A) : In x (firstn n l) -> In x l.
Proof.
  revert l. induction n as [|n IH]; intros [|a l] H; simpl in H; try contradiction.
  destruct H as [->|H]; [now left | right; now apply IH].
Qed.

Lemma In_skipn (n : nat) (l : list A) (x : A) : In x (skipn n l) -> In x l.
Proof.
  revert l. induction n as [|n IH]; intros [|a l] H; simpl in H; try contradiction;
    [exact H | right; now apply IH].
Qed.

Lemma NoDup_map_firstn {B} (g : A -> B) (n : nat) (l : list A) :
  NoDup (map g l) -> NoDup (map g (firstn n l)).
Proof.
  revert l. induction n as [|n IH]; intros [|a l] H; simpl; try constructor.
  - inversion H as [|? ? Hnot Hrest]; subst.
    intros Hin. apply Hnot. apply in_map_iff in Hin. destruct Hin as [y [Ey Hy]].
    apply in_map_iff. exists y. split; [exact Ey | now apply In_firstn in Hy].
  - inversion H; subst. now apply IH.
Qed.

Variable key : A -> string.

Lemma first_occurrences (pre suf : list A) :
  let kept :=
    filter_indexed_from (first_of_key key (pre ++ suf)) (List.length pre) suf in
  NoDup (map key kept)
  /\ forall y, In y kept -> ~ In (key y) (map key pre).
Proof.
  revert pre. induction suf as [|x suf IH]; intros pre; simpl.
  - split; [constructor | intros y []].
  - specialize (IH (pre ++ [x])).
    rewrite <- app_assoc, length_app in IH. simpl in IH.
    rewrite Nat.add_1_r in IH. destruct IH as [Hnd Hout].
    destruct (first_of_key key (pre ++ x :: suf) x (List.length pre)) eqn:E.
    + assert (Hx : ~ In (key x) (map key pre)).
      { intros Hin. apply in_map_iff in Hin. destruct Hin as [z [Ez Hz]].
        unfold first_of_key in E.
        destruct (findIndex _ (pre ++ x :: suf)) as [j|] eqn:Ej; [|discriminate E].
        apply Nat.eqb_eq in E. subst j.
        pose proof (findIndex_before _ pre (x :: suf) z _ Hz
                      (proj2 (String.eqb_eq _ _) Ez) Ej). lia. }
      split.
      * simpl. constructor; [|exact Hnd].
        intros Hin. apply in_map_iff in Hin. destruct Hin as [y [Ey Hy]].
        apply (Hout y Hy). rewrite map_app. apply in_or_app. right. left. now rewrite Ey.
      * intros y [<-|Hy]; [exact Hx|].
        intros Hin. apply (Hout y Hy). rewrite map_app. apply in_or_app. now left.
    + split; [exact Hnd|].
      intros y Hy Hin. apply (Hout y Hy). rewrite map_app. apply in_or_app. now left.
Qed.

End FirstOccurrences.

(** X10.  The suggestions for a failed search name no product twice, although
    the two sources they are drawn from (the fuzzy results for the first
    word, and the products with a word that starts with its first two
    letters) overlap; and there are at most [limit] of them. *)
Theorem getSuggestions_distinct
  (fuse : list Product -> string -> nat -> list FuzzySearchResult)
  (catalog : list Product) (searchName : string) (limit : nat) :
  NoDup (map id (getSuggestions fuse catalog searchName limit))
  /\ List.length (getSuggestions fuse catalog searchName limit) <= limit.
Proof.
  unfold getSuggestions.
  destruct (String.length _ <? 2); [split; [constructor | simpl; lia]|].
  cbv zeta. split.
  - apply NoDup_map_firstn.
    match goal with |- context [filter_indexed_from _ 0 ?l] =>
      exact (proj1 (first_occurrences id [] l)) end.
  - rewrite length_firstn. lia.
Qed.

Section MatcherSources.

Variable fuse : list Product -> string -> nat -> list FuzzySearchResult.
Variable catalog : list Product.

Hypothesis fuse_sound : answers_from_collection fuse.

Lemma search_from_catalog (q : string) (n : nat) (r : FuzzySearchResult) :
  In r (search fuse catalog q n) -> In (fz_product r) catalog.
Proof.
  unfold search. destruct (_ || _); [intros []|].
  intros H. apply in_map_iff in H. destruct H as [r0 [<- H]].
  simpl. exact (fuse_sound _ _ _ _ H).
Qed.

Lemma getSuggestions_from_catalog (q : string) (n : nat) (p : Product) :
  In p (getSuggestions fuse catalog q n) -> In p catalog.
Proof.
  unfold getSuggestions. destruct (String.length _ <? 2); [intros []|].
  cbv zeta. intros H. apply In_firstn, In_filter_indexed_from, in_app_or in H.
  destruct H as [H|H].
  - apply in_map_iff in H. destruct H as [r [<- H]]. exact (search_from_catalog _ _ _ H).
  - apply filter_In in H. exact (proj1 H).
Qed.

Lemma slice_1_4_In {A} (l : list A) (x : A) : In x (slice_1_4 l) -> In x l.
Proof. unfold slice_1_4. intros H. apply In_firstn in H. exact (In_skipn _ _ _ H). Qed.

Lemma guarded_find_In {A} (c : bool) (f : A -> bool) (l : list A) (x : A) :
  (if c then find f l else None) = Some x -> In x l.
Proof.
  destruct c; [|intros H; discriminate H].
  intros H. apply find_some in H. exact (proj1 H).
Qed.

Lemma findProduct_from_catalog (q : string) :
  (forall p, product (findProduct fuse catalog q) = Some p -> In p catalog)
  /\ (forall p, In p (alternatives (findProduct fuse catalog q)) -> In p catalog).
Proof.
  unfold findProduct.
  destruct ((_ =? "")%string || (_ =? "")%string);
    [split; [intros p H; discriminate H | intros p []]|].
  cbv zeta.
  match goal with |- context [match find ?f catalog with _ => _ end] =>
    pose proof (find_some f catalog) as S1; destruct (find f catalog) as [p1|] end.
  { cbn [product alternatives]. split; [|intros p []].
    intros p H. inversion H; subst. exact (proj1 (S1 p eq_refl)). }
  clear S1.
  match goal with |- context [match find ?f catalog with _ => _ end] =>
    pose proof (find_some f catalog) as S2; destruct (find f catalog) as [p2|] end.
  { cbn [product alternatives]. split; [|intros p []].
    intros p H. inversion H; subst. exact (proj1 (S2 p eq_refl)). }
  clear S2.
  match goal with |- context [if ?c then find ?f catalog else None] =>
    pose proof (guarded_find_In c f catalog) as S3;
    destruct (if c then find f catalog else None) as [p3|] end.
  { cbn [product alternatives]. split; [|intros p []].
    intros p H. inversion H; subst. exact (S3 p eq_refl). }
  clear S3.
  pose proof (search_from_catalog (trim (toLowerCase q)) 5) as S4.
  destruct (search fuse catalog _ 5) as [|best rest].
  - clear S4.
    assert (S5 : forall x, In x (filter (partial_word_hit (trim (toLowerCase q))) catalog) ->
                           In x catalog).
    { intros x Hx. apply filter_In in Hx. exact (proj1 Hx). }
    destruct (filter _ catalog) as [|first others].
    + cbn [product alternatives]. split; [intros p H; discriminate H|].
      intros p H. exact (getSuggestions_from_catalog _ _ _ H).
    + cbn [product alternatives]. split.
      * intros p H. inversion H; subst. apply S5. left. reflexivity.
      * intros p H. apply S5. exact (slice_1_4_In _ _ H).
  - cbn [product alternatives]. split.
    + intros p H. inversion H; subst. apply S4. left. reflexivity.
    + intros p H.
      apply in_map_iff in H. destruct H as [r [<- H]].
      apply filter_In in H. destruct H as [H _].
      apply S4. exact (slice_1_4_In _ _ H).
Qed.

End MatcherSources.

(** X11.  Fuse.js answers with items of the collection it searches.  Given
    that, whatever [findProduct] returns is a product of the catalog: the
    match, and each of the alternatives. *)
Theorem findProduct_answers_from_catalog
  (fuse : list Product -> string -> nat -> list FuzzySearchResult)
  (catalog : list Product) (q : string) :
  answers_from_collection fuse ->
  (forall p, product (findProduct fuse catalog q) = Some p -> In p catalog)
  /\ (forall p, In p (alternatives (findProduct fuse catalog q)) -> In p catalog).
Proof. intros H. exact (findProduct_from_catalog fuse catalog H q). Qed.

(** The query Milk over the sample catalog, with a Fuse.js that finds
    nothing. *)
Lemma findProduct_answers_from_catalog_witness :
  (forall p, product (findProduct Sample.no_fuse Sample.catalog "Milk") = Some p ->
             In p Sample.catalog)
  /\ (forall p, In p (alternatives (findProduct Sample.no_fuse Sample.catalog "Milk")) ->
                In p Sample.catalog).
Proof.
  apply (findProduct_answers_from_catalog Sample.no_fuse Sample.catalog "Milk").
  intros collection query limit r H. destruct H.
Defined.

(** Decoration words in front of a name. *)
Section Decoration.

Lemma trimEnd_app (a b : string) : b <> "" -> trimEnd b = b -> trimEnd (a +++ b) = a +++ b.
Proof.
  intros Hb Eb. induction a as [|c a IH]; [exact Eb|].
  simpl. rewrite IH. destruct (a +++ b) eqn:E; [|reflexivity].
  destruct a; simpl in E; [congruence | discriminate E].
Qed.

Lemma trimEnd_of_trim (s : string) : trim s = s -> trimEnd s = s.
Proof.
  intros H. pose proof (trimStart_idem_of_trim s H) as E.
  unfold trim in H. now rewrite E in H.
Qed.

Lemma prefix_words_lower (d : string) : In d prefix_words -> toLowerCase d = d.
Proof.
  intros H. simpl in H.
  repeat (destruct H as [<-|H]; [reflexivity|]). destruct H.
Qed.

Lemma prefix_words_head (d : string) :
  In d prefix_words -> d <> "" /\ trimStart d = d.
Proof.
  intros H. simpl in H.
  repeat (destruct H as [<-|H]; [split; [discriminate | reflexivity]|]). destruct H.
Qed.

Lemma replace_leading_decoration (d x : string) :
  In d prefix_words ->
  replace_leading_word prefix_words (d +++ " " +++ x) = trimStart x.
Proof.
  intros H. simpl in H.
  repeat (destruct H as [<-|H]; [reflexivity|]). destruct H.
Qed.

Lemma startsWith_app (a b : string) : startsWith (a +++ b) a = true.
Proof.
  unfold startsWith. induction a as [|c a IH]; simpl.
  - destruct b; reflexivity.
  - destruct (ascii_dec c c) as [_|N]; [exact IH | now elim N].
Qed.

Lemma length_append (a b : string) :
  String.length (a +++ b) = String.length a + String.length b.
Proof. induction a as [|c a IH]; simpl; [reflexivity | now rewrite IH]. Qed.

Lemma substring_app_keep (a b : string) (n : nat) :
  String.substring 0 (String.length a + n) (a +++ b) = a +++ String.substring 0 n b.
Proof. induction a as [|c a IH]; simpl; [reflexivity | now rewrite IH]. Qed.

Lemma drop_last_app (a b : string) : b <> "" -> drop_last (a +++ b) = a +++ drop_last b.
Proof.
  intros Hb. unfold drop_last. rewrite length_append.
  destruct b as [|c b]; [congruence|]. simpl String.length.
  replace (String.length a + S (String.length b) - 1)
    with (String.length a + (S (String.length b) - 1)) by lia.
  apply substring_app_keep.
Qed.

Lemma append_assoc (a b c : string) : (a +++ b) +++ c = a +++ b +++ c.
Proof. induction a as [|x a IH]; simpl; [reflexivity | now rewrite IH]. Qed.

End Decoration.

(** X12.  A decoration word in front of a product's name is set aside.  Let
    d be one of fresh, organic, premium, quality, best, top, local, farm and
    let P be a product whose name has at least two characters, no white
    space at either end and no decoration word (fruit, vegetable, item,
    product, food) at its end.  If no product's name begins with d and a
    space, and no other product is called like P or like its singular or
    plural form, up to case, then the query d, a space, P's name finds P,
    with confidence [high] and no alternatives, before Fuse.js is asked. *)
Theorem findProduct_sets_decoration_aside
  (fuse : list Product -> string -> nat -> list FuzzySearchResult)
  (catalog : list Product) (P : Product) (d : string) :
  let n := toLowerCase (name P) in
  In d prefix_words ->
  In P catalog ->
  2 <= String.length (name P) ->
  trim (name P) = name P ->
  replace_trailing_word suffix_words n = n ->
  (forall Q, In Q catalog -> startsWith (toLowerCase (name Q)) (d +++ " ") = false) ->
  (forall Q, In Q catalog ->
     toLowerCase (name Q) = n
     \/ toLowerCase (name Q) = (if endsWith n "s" then drop_last n else n +++ "s") ->
     Q = P) ->
  findProduct fuse catalog (d +++ " " +++ name P)
  = mkMatch (Some P) high [] cleaned_exact_match.
Proof.
  intros n Hd Hin Hlen Htrim Htail Hfree Huniq.
  assert (Hne : name P <> "") by (intros E; rewrite E in Hlen; simpl in Hlen; lia).
  assert (Hn_len : String.length n = String.length (name P)).
  { unfold n. clear. induction (name P) as [|c s IH]; simpl; [reflexivity | now rewrite IH]. }
  assert (Hn_ne : n <> "") by (intros E; rewrite E in Hn_len; simpl in Hn_len; lia).
  assert (Hn_trim : trim n = n) by (unfold n; now rewrite trim_toLowerCase, Htrim).
  destruct (prefix_words_head d Hd) as [Hd_ne Hd_head].
  set (q := d +++ " " +++ name P).
  assert (Hq_trim : trim q = q).
  { unfold trim, q. rewrite trimStart_app by assumption.
    rewrite <- append_assoc. apply trimEnd_app; [exact Hne | now apply trimEnd_of_trim]. }
  assert (Hnorm : trim (toLowerCase q) = d +++ " " +++ n).
  { rewrite trim_toLowerCase, Hq_trim. unfold q.
    rewrite !toLowerCase_app, (prefix_words_lower d Hd). reflexivity. }
  assert (Hstarts : forall x, startsWith (d +++ " " +++ x) (d +++ " ") = true).
  { intros x. rewrite <- append_assoc. apply startsWith_app. }
  assert (Hnone : forall x Q, In Q catalog -> toLowerCase (name Q) <> d +++ " " +++ x).
  { intros x Q HQ E. pose proof (Hfree Q HQ) as F. rewrite E, Hstarts in F. discriminate F. }
  unfold findProduct.
  assert (Hq_ne : q <> "") by (intros E; rewrite E in Hq_trim; unfold q in E;
                               destruct d; [congruence | discriminate E]).
  fold q. rewrite Hq_trim.
  apply String.eqb_neq in Hq_ne. rewrite Hq_ne.
  change (false || false) with false. cbv beta iota zeta.
  rewrite Hnorm.
  rewrite find_nothing.
  2:{ intros Q HQ. apply String.eqb_neq. now apply Hnone. }
  rewrite find_nothing.
  2:{ intros Q HQ. apply orb_false_iff. split; apply String.eqb_neq.
      - destruct (endsWith (d +++ " " +++ n) "s"); [|now apply Hnone].
        rewrite <- append_assoc, drop_last_app, append_assoc by exact Hn_ne.
        now apply Hnone.
      - destruct (endsWith (d +++ " " +++ n) "s"); [now apply Hnone|].
        rewrite append_assoc, append_assoc. now apply Hnone. }
  rewrite (replace_leading_decoration d n Hd).
  rewrite (trimStart_idem_of_trim n Hn_trim), Htail, Hn_trim.
  assert (Hdiff : (n =? d +++ " " +++ n)%string = false).
  { apply String.eqb_neq. intros E. apply (f_equal String.length) in E.
    rewrite !length_append in E. simpl in E. lia. }
  rewrite Hdiff. rewrite Hn_len.
  assert (Hlen' : (2 <=? String.length (name P)) = true) by now apply Nat.leb_le.
  rewrite Hlen'. cbn [negb andb].
  erewrite find_the_one; [reflexivity | exact Hin | |].
  - unfold n. rewrite String.eqb_refl. reflexivity.
  - intros Q HQ E. apply orb_true_iff in E.
    apply Huniq; [exact HQ|].
    destruct E as [E|E]; apply String.eqb_eq in E; auto.
Qed.

(** Fresh Apples, asked of the sample catalog. *)
Lemma findProduct_sets_decoration_aside_witness :
  findProduct Sample.no_fuse Sample.catalog ("fresh" +++ " " +++ "Apples")
  = mkMatch (Some Sample.apples) high [] cleaned_exact_match.
Proof.
  apply (findProduct_sets_decoration_aside Sample.no_fuse Sample.catalog Sample.apples "fresh").
  - left. reflexivity.
  - left. reflexivity.
  - simpl. lia.
  - reflexivity.
  - reflexivity.
  - intros Q [<-|[<-|[]]]; reflexivity.
  - intros Q [<-|[<-|[]]] [E|E]; try reflexivity; discriminate E.
Defined.
(* ------------------------------------------------------------------------- *)
(** ** The cart functions of the provider *)

Lemma db_after_refreshCart (w : World) : db (snd (AppContext.refreshCart w)) = db w.
Proof.
  exact (proj2 (keeps_refreshCart (user w) (fun s => s = db w) w (conj eq_refl eq_refl))).
Qed.

Lemma db_after_toast_refresh (msg : string) (w : World) :
  db (snd ((toast msg ;;; AppContext.refreshCart) w)) = db w.
Proof.
  refine (proj2 (_ : holding (user w) (fun s => s = db w) _)).
  apply keeps_bind; [apply keeps_toast | intros _; apply keeps_refreshCart |].
  split; reflexivity.
Qed.

(** X13.  [updateCartQuantity] with a quantity of 0 or less (minus infinity
    included) deletes the row of the product: when the delete is carried
    out, the cart table is left without the signed-in user's row for the
    product and with every other row, in order, whatever the refresh that
    follows does. *)
Theorem updateCartQuantity_nonpositive_removes
  (w : World) (usr : User) (productId : string) (quantity : JsInt) :
  user w = Some usr ->
  int_le0 quantity = true ->
  fst (next_fault w) = carried_out ->
  tbl_cart_items (db (snd (AppContext.updateCartQuantity productId quantity w)))
  = filter (fun r => negb (Db.is_row (uid usr) productId r)) (tbl_cart_items (db w)).
Proof.
  intros Hu Hq Ho.
  unfold AppContext.updateCartQuantity. rewrite bind_get, Hu, Hq.
  unfold AppContext.removeFromCart. rewrite bind_get, Hu.
  erewrite bind_returned by (apply supabase_carried_out; [exact Ho | reflexivity]).
  cbn [error]. rewrite db_after_toast_refresh. reflexivity.
Qed.

(** The minus button at a quantity of 1: Ann's Milk goes, her Apples stay. *)
Lemma updateCartQuantity_nonpositive_removes_witness :
  tbl_cart_items (db (snd (AppContext.updateCartQuantity "p2" (Fin (1 - 1)) Sample.world_cart)))
  = filter (fun r => negb (Db.is_row "u1" "p2" r)) (tbl_cart_items (db Sample.world_cart)).
Proof.
  apply (updateCartQuantity_nonpositive_removes Sample.world_cart Sample.ann "p2" (Fin (1 - 1)));
    reflexivity.
Defined.

(** X14.  [addToCart] decides between insert and update by the provider's
    state, not by the table.  Let the state hold no item of the product and
    let the backend carry out the insert.  (1) If the table has no row of
    the user for the product either, the row is appended with the quantity
    given and "Item added to cart!" is shown.  (2) If the table has one (the
    state is stale), the insert is refused by the unique constraint: the
    table stays as it is, the quantity is not added to the row, and "Failed
    to add item to cart" is shown. *)
Theorem addToCart_decides_by_state
  (w : World) (usr : User) (productId : string) (z : Z) :
  user w = Some usr ->
  find (fun item => (ci_product_id item =? productId)%string) (cartItems w) = None ->
  fst (next_fault w) = carried_out ->
  let w' := snd (AppContext.addToCart productId (Fin z) w) in
  (existsb (Db.is_row (uid usr) productId) (tbl_cart_items (db w)) = false ->
   tbl_cart_items (db w')
   = tbl_cart_items (db w) ++ [mkCartRow (next_id (db w)) (uid usr) productId z]
   /\ In "Item added to cart!" (toasts w'))
  /\
  (existsb (Db.is_row (uid usr) productId) (tbl_cart_items (db w)) = true ->
   db w' = db w
   /\ cartItems w' = cartItems w
   /\ toasts w' = toasts w ++ ["Failed to add item to cart"]).
Proof.
  intros Hu Hstate Ho w'. subst w'.
  unfold AppContext.addToCart, AppContext.addToCart_in.
  rewrite bind_get, bind_get, Hu, Hstate.
  split; intros Hrow.
  - erewrite bind_returned.
    2:{ apply supabase_carried_out; [exact Ho|].
        unfold Db.insert_cart. rewrite Hrow. reflexivity. }
    cbn [error]. split.
    + rewrite db_after_toast_refresh. reflexivity.
    + unfold bind at 1. cbn [toast].
      match goal with |- In _ (toasts (snd (AppContext.refreshCart ?w0))) =>
        assert (K : exists l, toasts (snd (AppContext.refreshCart w0)) = toasts w0 ++ l) end.
      { unfold AppContext.refreshCart. rewrite bind_get. cbn [user advance].
        rewrite Hu. unfold bind, supabase.
        match goal with |- context [next_fault ?x] => destruct (next_fault x) as [o rest] end.
        destruct o; cbn.
        - exists []. now rewrite app_nil_r.
        - exists ["Failed to fetch cart"]. reflexivity.
        - exists []. now rewrite app_nil_r. }
      destruct K as [l ->]. cbn [toasts advance].
      apply in_or_app. left. apply in_or_app. right. left. reflexivity.
  - erewrite bind_returned.
    2:{ apply supabase_refused; [exact Ho|].
        unfold Db.insert_cart. rewrite Hrow. reflexivity. }
    cbn [error toast snd db cartItems toasts advance]. repeat split.
Qed.

(** Ann's state is empty while the table holds her row of Milk: adding Milk
    is refused.  From her empty cart it is added. *)
Lemma addToCart_decides_by_state_witness :
  let stale := mkWorld (db Sample.world_cart) [] (Some Sample.ann) Sample.catalog []
                       Sample.ann_profile [] in
  (tbl_cart_items (db (snd (AppContext.addToCart "p2" (Fin 2) Sample.world0)))
   = [] ++ [mkCartRow 1 "u1" "p2" 2])
  /\ db (snd (AppContext.addToCart "p2" (Fin 2) stale)) = db stale
  /\ toasts (snd (AppContext.addToCart "p2" (Fin 2) stale)) = [] ++ ["Failed to add item to cart"].
Proof.
  intros stale. split; [|split].
  - refine (proj1 (proj1 (addToCart_decides_by_state Sample.world0 Sample.ann "p2" 2 _ _ _) _));
      reflexivity.
  - refine (proj1 (proj2 (addToCart_decides_by_state stale Sample.ann "p2" 2 _ _ _) _));
      reflexivity.
  - refine (proj2 (proj2 (proj2 (addToCart_decides_by_state stale Sample.ann "p2" 2 _ _ _) _)));
      reflexivity.
Defined.

Lemma order_items_of_missing (oid : nat) (items : list CartItem) :
  Exists (fun i => ci_product i = None) items ->
  AppContext.order_items_of oid items = None.
Proof.
  induction 1 as [item items H | item items _ IH]; simpl.
  - now rewrite H.
  - destruct (ci_product item); [now rewrite IH | reflexivity].
Qed.

(** X15.  [placeOrder] with the list of items (lines 241-303) and an item
    whose product is missing (the join gave none): the order is inserted
    first, with the item counted at a price of 0; building the order items
    then raises a TypeError.  Nothing undoes the insert on this path: the
    call throws and the order stays, without items; the cart is untouched
    and no toast is shown. *)
Theorem placeOrder_missing_product_leaves_order
  (w : World) (usr : User) (addr cname tel : string) (items : list CartItem) :
  user w = Some usr ->
  items <> [] ->
  Exists (fun i => ci_product i = None) items ->
  fst (next_fault w) = carried_out ->
  exists w',
    AppContext.placeOrder addr cname tel (Some items) w = (Throw TypeError, w')
    /\ tbl_orders (db w')
       = tbl_orders (db w)
         ++ [mkOrderRow (next_id (db w)) (uid usr) (total_of items) "Pending" addr cname tel]
    /\ tbl_order_items (db w') = tbl_order_items (db w)
    /\ tbl_cart_items (db w') = tbl_cart_items (db w)
    /\ toasts w' = toasts w.
Proof.
  intros Hu Hne Hmiss Ho.
  unfold AppContext.placeOrder. rewrite bind_get, Hu.
  destruct items as [|i0 rest]; [congruence|].
  change (fold_left _ (i0 :: rest) 0%Z) with (AppContext.cart_total (i0 :: rest)).
  rewrite cart_total_is_total_of.
  erewrite bind_returned by (apply supabase_carried_out; [exact Ho | reflexivity]).
  cbn [error data or_id].
  rewrite (order_items_of_missing _ _ Hmiss).
  eexists. split; [reflexivity|]. repeat split.
Qed.

(** An order of 2 Apples and of an item whose product the join did not
    give. *)
Lemma placeOrder_missing_product_leaves_order_witness :
  let items := [mkCartItem 1 "u1" "p1" 2 (Some Sample.apples); mkCartItem 2 "u1" "p9" 1 None] in
  exists w',
    AppContext.placeOrder "12 Long Street, Pune" "Ann" "9876543210" (Some items) Sample.world0
    = (Throw TypeError, w')
    /\ tbl_orders (db w')
       = [] ++ [mkOrderRow 1 "u1" (total_of items) "Pending"
                  "12 Long Street, Pune" "Ann" "9876543210"]
    /\ tbl_order_items (db w') = []
    /\ tbl_cart_items (db w') = []
    /\ toasts w' = [].
Proof.
  intros items.
  apply (placeOrder_missing_product_leaves_order Sample.world0 Sample.ann
           "12 Long Street, Pune" "Ann" "9876543210" items).
  - reflexivity.
  - discriminate.
  - right. left. reflexivity.
  - reflexivity.
Defined.

(** X16.  A successful [placeOrder] empties the user's cart in the table,
    not only of the items it was given: with a user signed in, a list of
    items with their products and no fault of the backend, the call returns
    normally, no row of the user is left in the cart table, the rows of the
    others are as they were, the cart of the provider's state is empty, and
    the last toast names the new order. *)
Theorem placeOrder_empties_cart
  (w : World) (usr : User) (addr cname tel : string) (items : list CartItem) :
  user w = Some usr ->
  items <> [] ->
  Forall (fun i => ci_product i <> None) items ->
  faults w = [] ->
  exists w',
    AppContext.placeOrder addr cname tel (Some items) w = (Ret tt, w')
    /\ filter (fun r => (cr_user_id r =? uid usr)%string) (tbl_cart_items (db w')) = []
    /\ rows_of_others (Some usr) (db w') = rows_of_others (Some usr) (db w)
    /\ cartItems w' = []
    /\ toasts w'
       = toasts w ++ ["Order #" +++ show_nat (next_id (db w)) +++ " placed successfully!"].
Proof.
  intros Hu Hne Hall Hfs.
  destruct (order_items_of_present (next_id (db w)) items Hall) as [l [El _]].
  destruct w as [s fs u ps ci meta ts]. cbn [user faults db toasts] in *. subst u fs.
  unfold AppContext.placeOrder. rewrite bind_get. cbn [user].
  destruct items as [|i0 rest]; [congruence|].
  erewrite bind_returned by (apply supabase_carried_out; reflexivity).
  cbn [error data or_id db]. rewrite El.
  erewrite bind_returned by (apply supabase_carried_out; reflexivity).
  cbn [error].
  erewrite bind_returned by (apply supabase_carried_out; reflexivity).
  erewrite bind_returned by reflexivity.
  eexists. split; [reflexivity|].
  cbn [db cartItems toasts advance snd Db.clear_cart Db.insert_order_items Db.insert_order
       tbl_cart_items rows_of_others].
  split; [apply filter_none_of|].
  split.
  { apply others_after_filter. intros r Hr. now apply negb_false_iff in Hr. }
  split; [|reflexivity].
  unfold cart_view. cbn [tbl_cart_items]. now rewrite filter_none_of.
Qed.

(** Ann orders the 2 Apples and the 1 Milk of her cart. *)
Lemma placeOrder_empties_cart_witness :
  exists w',
    AppContext.placeOrder "12 Long Street, Pune" "Ann" "9876543210"
      (Some Sample.two_items) Sample.world_cart = (Ret tt, w')
    /\ filter (fun r => (cr_user_id r =? "u1")%string) (tbl_cart_items (db w')) = []
    /\ rows_of_others (Some Sample.ann) (db w')
       = rows_of_others (Some Sample.ann) (db Sample.world_cart)
    /\ cartItems w' = []
    /\ toasts w' = [] ++ ["Order #" +++ show_nat 3 +++ " placed successfully!"].
Proof.
  apply (placeOrder_empties_cart Sample.world_cart Sample.ann
           "12 Long Street, Pune" "Ann" "9876543210" Sample.two_items).
  - reflexivity.
  - discriminate.
  - repeat constructor; discriminate.
  - reflexivity.
Defined.

(** X27.  [placeOrder] with the list of items undoes a half-written order.
    The insert of the order is carried out, the insert of its items is
    refused and the delete that follows is carried out.  Given that the ids
    of the store are fresh, the orders table, the order_items table and the
    cart table end as they began; the call throws the error of the refused
    insert after the toast "Could not save items for your order.". *)
Theorem placeOrder_undoes_a_failed_order
  (w : World) (usr : User) (addr cname tel : string) (items : list CartItem)
  (fs : list Outcome) :
  user w = Some usr ->
  items <> [] ->
  Forall (fun i => ci_product i <> None) items ->
  fresh_ids (db w) ->
  faults w = carried_out :: answers_error :: carried_out :: fs ->
  exists w',
    AppContext.placeOrder addr cname tel (Some items) w = (Throw SupabaseError, w')
    /\ tbl_orders (db w') = tbl_orders (db w)
    /\ tbl_order_items (db w') = tbl_order_items (db w)
    /\ tbl_cart_items (db w') = tbl_cart_items (db w)
    /\ toasts w' = toasts w ++ ["Could not save items for your order."].
Proof.
  intros Hu Hne Hall [Hfo Hfi] Hfs.
  destruct (order_items_of_present (next_id (db w)) items Hall) as [l [El _]].
  unfold AppContext.placeOrder. rewrite bind_get, Hu.
  destruct items as [|i0 rest]; [congruence|].
  erewrite bind_returned
    by (apply supabase_carried_out; [unfold next_fault; now rewrite Hfs | reflexivity]).
  cbn [error data or_id]. rewrite El.
  erewrite bind_returned
    by (apply supabase_answers_error; unfold advance, next_fault; simpl; now rewrite Hfs).
  cbn [error].
  erewrite bind_returned
    by (apply supabase_carried_out;
        [unfold advance, next_fault; simpl; now rewrite Hfs | reflexivity]).
  eexists. split; [reflexivity|]. simpl. repeat split.
  - rewrite filter_app. simpl. rewrite Nat.eqb_refl. simpl. rewrite app_nil_r.
    apply filter_keeps_all. eapply Forall_impl; [|exact Hfo].
    intros o Ho. simpl in Ho. apply negb_true_iff, Nat.eqb_neq. lia.
  - apply filter_keeps_all. eapply Forall_impl; [|exact Hfi].
    intros i Hi. simpl in Hi. apply negb_true_iff, Nat.eqb_neq. lia.
Qed.

(** Ann's order of 2 Apples and 1 Milk, with the insert of the items
    refused. *)
Lemma placeOrder_undoes_a_failed_order_witness :
  let w := Sample.with_faults [carried_out; answers_error; carried_out] Sample.world_cart in
  exists w',
    AppContext.placeOrder "12 Long Street, Pune" "Ann" "9876543210"
      (Some Sample.two_items) w = (Throw SupabaseError, w')
    /\ tbl_orders (db w') = tbl_orders (db w)
    /\ tbl_order_items (db w') = tbl_order_items (db w)
    /\ tbl_cart_items (db w') = tbl_cart_items (db w)
    /\ toasts w' = toasts w ++ ["Could not save items for your order."].
Proof.
  intros w.
  apply (placeOrder_undoes_a_failed_order w Sample.ann
           "12 Long Street, Pune" "Ann" "9876543210" Sample.two_items []).
  - reflexivity.
  - discriminate.
  - repeat constructor; discriminate.
  - split; constructor.
  - reflexivity.
Defined.
(* ------------------------------------------------------------------------- *)
(** ** More on the cart tools *)

Lemma resolves_not_blank
  (fuse : list Product -> string -> nat -> list FuzzySearchResult)
  (ps : list Product) (q : string) (P : Product) :
  product (findProduct fuse ps q) = Some P -> trim q <> "".
Proof.
  intros H E. unfold findProduct in H. rewrite E in H.
  rewrite orb_true_r in H. discriminate H.
Qed.

Lemma trim_not_blank (s : string) : trim s <> "" -> s <> "".
Proof. intros H E. apply H. now rewrite E. Qed.

(** A user's fetched cart has no item of a product of which the table
    holds no row for the user. *)
Lemma find_in_cart_absent (s : Store) (u pid : string) (rows : list CartRow) :
  filter (Db.is_row u pid) rows = [] ->
  VoiceAssistant.find_in_cart pid
    (map (Db.join_product s) (filter (fun x => (cr_user_id x =? u)%string) rows))
  = None.
Proof.
  induction rows as [|x rows IH]; simpl; [reflexivity|].
  destruct (Db.is_row u pid x) eqn:Ex; [discriminate|]. intros H. specialize (IH H).
  destruct (cr_user_id x =? u)%string eqn:Eu; [|exact IH].
  simpl. destruct (Db.product_by_id s (cr_product_id x)) as [px|] eqn:Epx; [|exact IH].
  rewrite (product_by_id_id _ _ _ Epx).
  unfold Db.is_row in Ex. rewrite Eu in Ex. simpl in Ex. now rewrite Ex.
Qed.

Lemma findProductByName_found
  (fuse : list Product -> string -> nat -> list FuzzySearchResult)
  (nm : string) (w : World) :
  nm <> "" ->
  VoiceAssistant.findProductByName fuse nm w
  = (Ret (Some (findProduct fuse (products w) nm)), w).
Proof.
  intros H. unfold VoiceAssistant.findProductByName. rewrite bind_get.
  apply String.eqb_neq in H. now rewrite H.
Qed.

(** [n || d] is never NaN, and so neither is its [Math.floor]. *)
Lemma floor_num_or (n : JsNum) (d : Z) : floor (num_or n d) <> NotNum.
Proof.
  destruct n as [|[|]|q]; cbn [num_or floor]; try discriminate.
  destruct (is_zero q); discriminate.
Qed.

Lemma Qfloor_of_zero (q : Q) : is_zero q = true -> Qfloor q = 0%Z.
Proof.
  unfold is_zero. intros H. apply Z.eqb_eq in H.
  destruct q as [a b]. cbn [Qnum] in H. subst a. reflexivity.
Qed.

Section CartToolRuns.

Variable fuse : list Product -> string -> nat -> list FuzzySearchResult.
Variable StringToNumber : string -> JsNum.
Variable session_cart : list CartItem.

(** X17.  addItemToCart (lines 1310-1364) compares the stock of the
    catalog's product with the request alone, before any call to the
    backend.  When the name resolves to a product whose stock is 0 or less
    (whatever the quantity argument is: a missing one, 0 and one that is no
    number count as 1), or the quantity is a number whose whole part is
    above the stock, or plus infinity, the tool answers with success false
    and the stock, and the world is as before. *)
Theorem addItemToCart_refuses_beyond_stock
  (w : World) (usr : User) (P : Product) (nm : string) (qv : JsVal) :
  user w = Some usr ->
  product (findProduct fuse (products w) (trim nm)) = Some P ->
  (stock_quantity P <= 0)%Z
  \/ (exists x, VoiceAssistant.Number StringToNumber qv = Num x
                /\ (stock_quantity P < Qfloor x)%Z)
  \/ VoiceAssistant.Number StringToNumber qv = Infinite true ->
  VoiceAssistant.addItemToCart fuse StringToNumber session_cart (VStr nm) qv w
  = (Ret (failure ("Sorry, only " +++ show_Z (stock_quantity P) +++ " "
                   +++ name P +++ " available.")), w).
Proof.
  intros Hu Hres Hstock.
  pose proof (resolves_not_blank _ _ _ _ Hres) as Hnm. rewrite trim_twice in Hnm.
  pose proof (trim_not_blank _ Hnm) as Hne.
  unfold VoiceAssistant.addItemToCart. rewrite bind_get, Hu.
  apply String.eqb_neq in Hne. rewrite Hne.
  unfold try_catch. cbv zeta.
  erewrite bind_returned by (apply findProductByName_found; exact Hnm).
  cbn [VoiceAssistant.product_of]. rewrite bind_ret, Hres.
  assert (Hlt : lt_int (stock_quantity P)
                  (int_max 1 (floor (num_or (VoiceAssistant.Number StringToNumber
                                               (default_to (VNum (Num 1)) qv)) 1))) = true).
  { destruct Hstock as [H0 | [[x [Hx Hlt]] | Hinf]].
    - pose proof (floor_num_or (VoiceAssistant.Number StringToNumber
                                  (default_to (VNum (Num 1)) qv)) 1) as Hfl.
      destruct (floor _) as [z| | |]; cbn [int_max lt_int];
        [apply Z.ltb_lt; lia | reflexivity | apply Z.ltb_lt; lia | now elim Hfl].
    - assert (Hdef : default_to (VNum (Num 1)) qv = qv)
        by (destruct qv; try reflexivity; discriminate Hx).
      rewrite Hdef, Hx. unfold num_or.
      destruct (is_zero x) eqn:E0; cbn [floor int_max lt_int]; apply Z.ltb_lt.
      + apply Qfloor_of_zero in E0. lia.
      + lia.
    - assert (Hdef : default_to (VNum (Num 1)) qv = qv)
        by (destruct qv; try reflexivity; discriminate Hinf).
      rewrite Hdef, Hinf. reflexivity. }
  rewrite Hlt. reflexivity.
Qed.

End CartToolRuns.

(** Ann asks for nine and a half Milk; there are 5. *)
Lemma addItemToCart_refuses_beyond_stock_witness :
  VoiceAssistant.addItemToCart Sample.no_fuse Sample.decimal_to_number Sample.two_items
    (VStr "Milk") (VNum (Num (19 # 2))) Sample.world_cart
  = (Ret (failure ("Sorry, only " +++ show_Z 5 +++ " " +++ "Milk" +++ " available.")),
     Sample.world_cart).
Proof.
  apply (addItemToCart_refuses_beyond_stock Sample.no_fuse Sample.decimal_to_number
           Sample.two_items Sample.world_cart Sample.ann Sample.milk "Milk"
           (VNum (Num (19 # 2)))).
  - reflexivity.
  - reflexivity.
  - right. left. exists (19 # 2)%Q. split; [reflexivity | vm_compute; reflexivity].
Defined.

Section RemoveTool.

Variable fuse : list Product -> string -> nat -> list FuzzySearchResult.

(** X18.  removeItemFromCart (lines 1367-1414), a user signed in and no
    fault of the backend.  The name resolves to a product P.  (1) If the
    user's cart has one row for P, that row is deleted and every other row
    of the table is kept; the tool answers with success true and names the
    product as the table has it.  (2) If the cart has no row for P, the
    tool answers with success false that P is not in the cart, and the
    world is as before. *)
Theorem removeItemFromCart_removes_the_row
  (w : World) (usr : User) (P : Product) (nm : string) :
  user w = Some usr -> uid usr <> "" -> faults w = [] ->
  product (findProduct fuse (products w) (trim nm)) = Some P ->
  (forall P' r,
     Db.product_by_id (db w) (id P) = Some P' ->
     filter (Db.is_row (uid usr) (id P)) (tbl_cart_items (db w)) = [r] ->
     exists resp w',
       VoiceAssistant.removeItemFromCart fuse (VStr nm) w = (Ret resp, w')
       /\ success resp = true
       /\ (exists totals,
             message resp = Some ("Removed " +++ name P' +++ " from your cart. " +++ totals))
       /\ tbl_cart_items (db w')
          = filter (fun x => negb (Db.is_row (uid usr) (id P) x)) (tbl_cart_items (db w)))
  /\
  (filter (Db.is_row (uid usr) (id P)) (tbl_cart_items (db w)) = [] ->
   VoiceAssistant.removeItemFromCart fuse (VStr nm) w
   = (Ret (failure (quoted (name P) +++ " is not in your cart.")), w)).
Proof.
  intros Hu Huid Hf Hres.
  pose proof (resolves_not_blank _ _ _ _ Hres) as Hnm. rewrite trim_twice in Hnm.
  pose proof (trim_not_blank _ Hnm) as Hne.
  destruct w as [s fs u ps ci meta ts]. cbn [user faults products db] in *. subst u fs.
  change (mkWorld s [] (Some usr) ps ci meta ts) with (quiet usr ps meta s ci ts).
  apply String.eqb_neq in Hne.
  split.
  - intros P' r Htab Hrow.
    unfold VoiceAssistant.removeItemFromCart.
    rewrite bind_get. cbn [user quiet]. rewrite Hne.
    unfold try_catch.
    erewrite bind_returned by (apply fetch_run; exact Huid).
    cbn [cs_success fetched negb cs_items].
    erewrite bind_returned by (apply findProductByName_run; exact Hnm).
    cbn [VoiceAssistant.product_of]. rewrite bind_ret, Hres.
    unfold cart_view. rewrite (find_in_cart_view _ _ _ _ _ _ Htab Hrow).
    assert (Ejoin : ci_product (Db.join_product s r) = Some P').
    { unfold Db.join_product. cbn [ci_product].
      destruct (is_row_fields _ _ _ (only_row_is_row _ _ _ _ Hrow)) as [_ E].
      now rewrite E. }
    unfold VoiceAssistant.product_id_of. rewrite Ejoin, bind_ret.
    rewrite (product_by_id_id _ _ _ Htab).
    erewrite bind_returned by (apply remove_run).
    erewrite bind_returned by (apply background_refresh_run).
    erewrite bind_returned by (apply fetch_run; exact Huid).
    cbn [cs_success fetched negb]. unfold VoiceAssistant.product_name_of.
    rewrite Ejoin.
    eexists _, _. split; [reflexivity|]. split; [reflexivity|].
    split; [eexists; reflexivity | reflexivity].
  - intros Hrow.
    unfold VoiceAssistant.removeItemFromCart.
    rewrite bind_get. cbn [user quiet]. rewrite Hne.
    unfold try_catch.
    erewrite bind_returned by (apply fetch_run; exact Huid).
    cbn [cs_success fetched negb cs_items].
    erewrite bind_returned by (apply findProductByName_run; exact Hnm).
    cbn [VoiceAssistant.product_of]. rewrite bind_ret, Hres.
    unfold cart_view. rewrite (find_in_cart_absent _ _ _ _ Hrow).
    reflexivity.
Qed.

End RemoveTool.

(** Ann removes the Milk she has, and the Milk she has not. *)
Lemma removeItemFromCart_removes_the_row_witness :
  (exists resp w',
     VoiceAssistant.removeItemFromCart Sample.no_fuse (VStr "Milk") Sample.world_cart
     = (Ret resp, w')
     /\ success resp = true
     /\ (exists totals,
           message resp = Some ("Removed " +++ "Milk" +++ " from your cart. " +++ totals))
     /\ tbl_cart_items (db w')
        = filter (fun x => negb (Db.is_row "u1" "p2" x)) (tbl_cart_items (db Sample.world_cart)))
  /\ VoiceAssistant.removeItemFromCart Sample.no_fuse (VStr "Milk") Sample.world0
     = (Ret (failure (quoted "Milk" +++ " is not in your cart.")), Sample.world0).
Proof.
  split.
  - refine (proj1 (removeItemFromCart_removes_the_row Sample.no_fuse Sample.world_cart
                     Sample.ann Sample.milk "Milk" _ _ _ _)
                  Sample.milk (mkCartRow 2 "u1" "p2" 1) _ _);
      try reflexivity; discriminate.
  - refine (proj2 (removeItemFromCart_removes_the_row Sample.no_fuse Sample.world0
                     Sample.ann Sample.milk "Milk" _ _ _ _) _);
      try reflexivity; discriminate.
Defined.
(* ------------------------------------------------------------------------- *)
(** ** Placing an order by voice *)

Lemma getUserProfile_run (usr : User) (ps : list Product) (meta : Profile)
  (s : Store) (ci : list CartItem) (ts : list string) :
  VoiceAssistant.getUserProfile (quiet usr ps meta s ci ts)
  = (Ret (Some meta), quiet usr ps meta s ci ts).
Proof. destruct meta. reflexivity. Qed.

Lemma placeOrder_quiet_run (usr : User) (ps : list Product) (meta : Profile)
  (s : Store) (ci : list CartItem) (ts : list string)
  (addr cname tel : string) (items : list CartItem) (l : list NewOrderItem) :
  items <> [] ->
  AppContext.order_items_of (next_id s) items = Some l ->
  let s1 := snd (Db.insert_order (uid usr) (total_of items) "Pending" addr cname tel s) in
  let s2 := snd (Db.insert_order_items l s1) in
  let s3 := snd (Db.clear_cart (uid usr) s2) in
  AppContext.placeOrder addr cname tel (Some items) (quiet usr ps meta s ci ts)
  = (Ret tt,
     quiet usr ps meta s3 (cart_view s3 (uid usr))
       (ts ++ ["Order #" +++ show_nat (next_id s) +++ " placed successfully!"])).
Proof.
  intros Hne El s1 s2 s3.
  unfold AppContext.placeOrder. rewrite bind_get. cbn [user quiet].
  destruct items as [|i0 rest]; [congruence|].
  change (fold_left _ (i0 :: rest) 0%Z) with (AppContext.cart_total (i0 :: rest)).
  rewrite cart_total_is_total_of.
  erewrite bind_returned by (apply supabase_carried_out; reflexivity).
  cbn [error data or_id db quiet]. rewrite El.
  erewrite bind_returned by (apply supabase_carried_out; reflexivity).
  cbn [error].
  erewrite bind_returned by (apply supabase_carried_out; reflexivity).
  erewrite bind_returned by reflexivity.
  reflexivity.
Qed.

Section VoiceOrder.

Variable usr : User.
Variable ps : list Product.
Variable meta : Profile.
Variable s : Store.

Hypothesis uid_given : uid usr <> "".
Hypothesis cart_not_empty : cart_view s (uid usr) <> [].

Lemma order_refused_run (ci : list CartItem) (ts : list string) :
  VoiceAssistant.incomplete_profile (Some meta) = true ->
  VoiceAssistant.placeOrder (quiet usr ps meta s ci ts)
  = (Ret (failure "Please complete your profile with a valid phone number and delivery address to place an order."),
     quiet usr ps meta s ci ts).
Proof.
  intros Hinc. unfold VoiceAssistant.placeOrder, try_catch.
  rewrite bind_get. cbn [user quiet].
  erewrite bind_returned by (apply fetch_run; exact uid_given).
  cbn [cs_success fetched negb cs_items orb].
  assert (Elen : (List.length (cart_view s (uid usr)) =? 0) = false).
  { pose proof cart_not_empty as Hc.
    destruct (cart_view s (uid usr)); [congruence | reflexivity]. }
  rewrite Elen.
  erewrite bind_returned by (apply getUserProfile_run).
  now rewrite Hinc.
Qed.

Lemma order_placed_run (ci : list CartItem) (ts : list string) (l : list NewOrderItem) :
  VoiceAssistant.incomplete_profile (Some meta) = false ->
  AppContext.order_items_of (next_id s) (cart_view s (uid usr)) = Some l ->
  let items := cart_view s (uid usr) in
  let customerName :=
    str_or (trim (full_name meta))
           (str_or (hd EmptyString (split_on "@" (email usr))) "Customer") in
  let s1 := snd (Db.insert_order (uid usr) (total_of items) "Pending"
                   (trim (address meta)) customerName (trim (phone meta)) s) in
  let s2 := snd (Db.insert_order_items l s1) in
  let s3 := snd (Db.clear_cart (uid usr) s2) in
  exists msg,
    VoiceAssistant.placeOrder (quiet usr ps meta s ci ts)
    = (Ret (mkResponse true (Some msg)
              (OrderPlaced (total_of items) (count_of items) customerName)),
       quiet usr ps meta s3 (cart_view s3 (uid usr))
         (ts ++ ["Order #" +++ show_nat (next_id s) +++ " placed successfully!"])).
Proof.
  intros Hinc El. cbv zeta.
  unfold VoiceAssistant.placeOrder, try_catch.
  rewrite bind_get. cbn [user quiet].
  erewrite bind_returned by (apply fetch_run; exact uid_given).
  cbn [cs_success fetched negb cs_items orb cs_totalAmount cs_itemCount].
  pose proof cart_not_empty as Hc.
  assert (Elen : (List.length (cart_view s (uid usr)) =? 0) = false).
  { destruct (cart_view s (uid usr)); [congruence | reflexivity]. }
  rewrite Elen.
  erewrite bind_returned by (apply getUserProfile_run).
  rewrite Hinc. cbv zeta.
  erewrite bind_returned by (apply placeOrder_quiet_run; [exact Hc | exact El]).
  rewrite sum_total_is_total_of, sum_count_is_count_of.
  eexists. reflexivity.
Qed.

End VoiceOrder.

(** X19.  placeOrder by voice (lines 1514-1598) asks for a complete profile
    before it orders: with a user signed in, no fault of the backend and a
    cart that is not empty, a profile whose phone or address is missing or
    has fewer than 10 characters once trimmed makes the tool answer with
    success false, and nothing is written: the world is as before. *)
Theorem placeOrder_needs_a_complete_profile
  (w : World) (usr : User) :
  user w = Some usr -> uid usr <> "" -> faults w = [] ->
  cart_view (db w) (uid usr) <> [] ->
  VoiceAssistant.incomplete_profile (Some (user_metadata w)) = true ->
  VoiceAssistant.placeOrder w
  = (Ret (failure "Please complete your profile with a valid phone number and delivery address to place an order."),
     w).
Proof.
  intros Hu Huid Hf Hcart Hinc.
  destruct w as [s fs u ps ci meta ts]. cbn [user faults db user_metadata] in *. subst u fs.
  now apply (order_refused_run usr ps meta s Huid Hcart ci ts).
Qed.

(** Ann's phone number has nine digits and a space after them. *)
Lemma placeOrder_needs_a_complete_profile_witness :
  let w := mkWorld (db Sample.world_cart) [] (Some Sample.ann) Sample.catalog
             Sample.two_items (mkProfile "Ann" "987654321 " "12 Long Street, Pune") [] in
  VoiceAssistant.placeOrder w
  = (Ret (failure "Please complete your profile with a valid phone number and delivery address to place an order."),
     w).
Proof.
  intros w.
  apply (placeOrder_needs_a_complete_profile w Sample.ann);
    try reflexivity; discriminate.
Defined.

(** X20.  placeOrder by voice, end to end.  A user is signed in, the backend
    has no fault, the cart in the table is not empty and every row of it has
    its product, and the profile is complete.  Then the tool answers with
    success true, reporting the total and the item count of the cart as
    fetched; the orders table gains one row for the user with that total,
    status Pending, the trimmed address and phone of the profile, and the
    customer name (the trimmed full name, else the part of the e-mail
    address before the at sign, else Customer); order_items gains one row
    per cart item; and no row of the user is left in the cart table. *)
Theorem placeOrder_by_voice_orders_the_cart
  (w : World) (usr : User) :
  user w = Some usr -> uid usr <> "" -> faults w = [] ->
  cart_view (db w) (uid usr) <> [] ->
  Forall (fun i => ci_product i <> None) (cart_view (db w) (uid usr)) ->
  VoiceAssistant.incomplete_profile (Some (user_metadata w)) = false ->
  let items := cart_view (db w) (uid usr) in
  let customerName :=
    str_or (trim (full_name (user_metadata w)))
           (str_or (hd EmptyString (split_on "@" (email usr))) "Customer") in
  exists msg w' new_rows,
    VoiceAssistant.placeOrder w
    = (Ret (mkResponse true (Some msg)
              (OrderPlaced (total_of items) (count_of items) customerName)), w')
    /\ tbl_orders (db w')
       = tbl_orders (db w)
         ++ [mkOrderRow (next_id (db w)) (uid usr) (total_of items) "Pending"
               (trim (address (user_metadata w))) customerName
               (trim (phone (user_metadata w)))]
    /\ tbl_order_items (db w') = tbl_order_items (db w) ++ new_rows
    /\ Forall2 (records (next_id (db w))) items new_rows
    /\ filter (fun r => (cr_user_id r =? uid usr)%string) (tbl_cart_items (db w')) = [].
Proof.
  intros Hu Huid Hf Hcart Hall Hinc items customerName.
  destruct (order_items_of_present (next_id (db w)) items Hall) as [l [El HF]].
  destruct w as [s fs u ps ci meta ts]. cbn [user faults db user_metadata] in *. subst u fs.
  destruct (order_placed_run usr ps meta s Huid Hcart ci ts l Hinc El) as [msg E].
  cbv zeta in E.
  exists msg. eexists. exists (Db.number_items (S (next_id s)) l).
  split; [exact E|].
  cbn [db quiet snd Db.clear_cart Db.insert_order_items Db.insert_order
       tbl_orders tbl_order_items tbl_cart_items next_id].
  split; [reflexivity|]. split; [reflexivity|]. split; [apply HF|].
  apply filter_none_of.
Qed.

(** Ann orders her 2 Apples and 1 Milk by voice. *)
Lemma placeOrder_by_voice_orders_the_cart_witness :
  exists msg w' new_rows,
    VoiceAssistant.placeOrder Sample.world_cart
    = (Ret (mkResponse true (Some msg)
              (OrderPlaced (total_of Sample.two_items) (count_of Sample.two_items)
                 (str_or (trim "Ann")
                    (str_or (hd EmptyString (split_on "@" "ann@example.org")) "Customer")))),
       w')
    /\ tbl_orders (db w')
       = [] ++ [mkOrderRow 3 "u1" (total_of Sample.two_items) "Pending"
                  (trim "12 Long Street, Pune")
                  (str_or (trim "Ann")
                     (str_or (hd EmptyString (split_on "@" "ann@example.org")) "Customer"))
                  (trim "9876543210")]
    /\ tbl_order_items (db w') = [] ++ new_rows
    /\ Forall2 (records 3) Sample.two_items new_rows
    /\ filter (fun r => (cr_user_id r =? "u1")%string) (tbl_cart_items (db w')) = [].
Proof.
  apply (placeOrder_by_voice_orders_the_cart Sample.world_cart Sample.ann).
  - reflexivity.
  - discriminate.
  - reflexivity.
  - discriminate.
  - repeat constructor; discriminate.
  - reflexivity.
Defined.
(* ------------------------------------------------------------------------- *)
(** ** The reporting tools of the first copy *)

Lemma length_filter_filter {A} (f g : A -> bool) (l : list A) :
  List.length (filter f (filter g l)) <= List.length (filter f l).
Proof.
  induction l as [|x l IH]; simpl; [lia|].
  destruct (g x); simpl; destruct (f x); simpl; lia.
Qed.

Lemma valid_limit_bounds (n : JsInt) :
  n <> NotNum -> exists z, int_min (int_max 1 n) 50 = Fin z /\ (1 <= z <= 50)%Z.
Proof.
  intros H. destruct n as [z| | |]; cbn [int_max int_min].
  - exists (Z.min (Z.max 1 z) 50). split; [reflexivity | lia].
  - exists 50%Z. split; [reflexivity | lia].
  - exists (Z.min 1 50). split; [reflexivity | lia].
  - now elim H.
Qed.

Lemma slice_0_fin {A} (l : list A) (z : Z) :
  (0 <= z)%Z -> slice_0 l (Fin z) = firstn (Z.to_nat z) l.
Proof.
  intros H. cbn [slice_0]. assert (E : (z <? 0)%Z = false) by (apply Z.ltb_ge; lia).
  now rewrite E.
Qed.

(** X21.  getAvailableProducts (lines 636-706) always answers with success
    true and changes nothing.  Whatever the three arguments are, it lists
    at most 50 products (at most 10 when no limit is given), every one of
    them in stock; [count] is the length of the list and is never more than
    [totalAvailableProducts], the number of products of the catalog that
    are in stock. *)
Theorem getAvailableProducts_lists_stock_within_limit
  (fuse : list Product -> string -> nat -> list FuzzySearchResult)
  (StringToNumber : string -> JsNum) (NumberToString : JsNum -> string)
  (category searchTerm limit : JsVal) (w : World) :
  exists msg prods,
    StatefulTools.getAvailableProducts fuse StringToNumber NumberToString
      category searchTerm limit w
    = (Ret (mkResponse true (Some msg)
              (ProductsFull prods (List.length prods)
                 (List.length (filter (fun p => (0 <? stock_quantity p)%Z) (products w))))),
       w)
    /\ List.length prods <= 50
    /\ (limit = VUndefined -> List.length prods <= 10)
    /\ List.length prods
       <= List.length (filter (fun p => (0 <? stock_quantity p)%Z) (products w))
    /\ Forall (fun i => info_inStock i = true /\ (0 < info_stockQuantity i)%Z) prods.
Proof.
  unfold StatefulTools.getAvailableProducts. rewrite bind_get.
  unfold try_catch, ret. cbv zeta.
  set (instock := fun p : Product => (0 <? stock_quantity p)%Z).
  match goal with
  | |- context [slice_0 (filter instock ?l) ?n] =>
      set (validLimit := n); set (by_term := l)
  end.
  assert (Hv : exists z, validLimit = Fin z /\ (1 <= z <= 50)%Z)
    by (apply valid_limit_bounds, floor_num_or).
  destruct Hv as [z [Ez Hz]].
  assert (Hten : limit = VUndefined -> z = 10%Z).
  { intros Hl. unfold validLimit in Ez. rewrite Hl in Ez. vm_compute in Ez.
    now injection Ez as <-. }
  rewrite Ez. rewrite slice_0_fin by lia.
  eexists. exists (map (fun p => mkProductInfo (name p) (price p) (unit_label p)
                                   (match category_name p with
                                    | Some n => str_or n "Uncategorized"
                                    | None => "Uncategorized"
                                    end)
                                   (match description p with
                                    | Some d => str_or d "No description available"
                                    | None => "No description available"
                                    end)
                                   (0 <? stock_quantity p)%Z
                                   (stock_quantity p))
                       (firstn (Z.to_nat z) (filter instock by_term))).
  rewrite !length_map.
  split; [reflexivity|].
  split; [rewrite length_firstn; lia|].
  split.
  { intros Hl. rewrite length_firstn, (Hten Hl).
    change (Z.to_nat 10) with 10. apply Nat.le_min_l. }
  split.
  - rewrite length_firstn.
    assert (Hsub : List.length (filter instock by_term)
                   <= List.length (filter instock (products w))).
    { subst by_term.
      destruct (default_to (VStr "") searchTerm) as [| |b|n|t|];
        destruct (default_to (VStr "") category) as [| |b'|n'|c|];
        try destruct (t =? "")%string; try destruct (c =? "")%string;
        try apply Nat.le_refl; try apply length_filter_filter;
        (etransitivity; [apply length_filter_filter | apply length_filter_filter]). }
    lia.
  - apply Forall_map. apply Forall_forall. intros p Hp.
    apply In_firstn, filter_In in Hp. destruct Hp as [_ Hp].
    cbn [info_inStock info_stockQuantity]. split; [exact Hp|].
    now apply Z.ltb_lt.
Qed.

Lemma whole_number_of_nat (n : nat) :
  Db.whole_number (VNum (Num (inject_Z (Z.of_nat n)))) = Some n.
Proof.
  cbn [Db.whole_number]. rewrite Qfloor_inject_Z.
  assert (E1 : Qeq_bool (inject_Z (Z.of_nat n)) (inject_Z (Z.of_nat n)) = true)
    by (apply Qeq_bool_iff; reflexivity).
  assert (E2 : (0 <=? Z.of_nat n)%Z = true) by (apply Z.leb_le; lia).
  rewrite E1, E2. cbn [andb]. now rewrite Nat2Z.id.
Qed.

(** X22.  getPurchaseHistory (lines 709-788) shows a user only their own
    orders.  A user is signed in and the backend carries out the query.
    (1) Without an order id the tool lists the newest orders of the user,
    newest first, at most [limit] of them (3 when no limit is given), with
    their ids and totals; the store is not changed.  (2) With the id of an
    order that is not the user's (it does not exist, or it is somebody
    else's) the tool answers with success false and shows nothing of it. *)
Theorem getPurchaseHistory_shows_own_orders
  (NumberToString : JsNum -> string)
  (w : World) (usr : User) (limit : option nat) :
  user w = Some usr ->
  fst (next_fault w) = carried_out ->
  let mine := filter (fun o => (or_user_id o =? uid usr)%string) (tbl_orders (db w)) in
  let n := match limit with Some n => n | None => 3 end in
  let limit_given :=
    match limit with
    | Some n => VNum (Num (inject_Z (Z.of_nat n)))
    | None => VUndefined
    end in
  (forall orderId,
     orderId = VUndefined \/ orderId = VNull ->
     exists orders,
       StatefulTools.getPurchaseHistory NumberToString limit_given orderId w
       = (Ret (mkResponse true
                 (Some ("Found " +++ show_nat (List.length orders) +++ " order(s)."))
                 (Orders orders (List.length orders))),
          advance (db w) w)
       /\ map fo_orderId orders = map or_id (firstn n (List.rev mine))
       /\ map fo_totalAmount orders = map or_total_amount (firstn n (List.rev mine))
       /\ List.length orders <= n)
  /\
  (forall oid,
     oid <> 0 ->
     filter (fun o => or_id o =? oid) mine = [] ->
     StatefulTools.getPurchaseHistory NumberToString limit_given
       (VNum (Num (inject_Z (Z.of_nat oid)))) w
     = (Ret (failure "There was an error trying to fetch your order history."),
        advance (db w) w)).
Proof.
  intros Hu Ho mine n limit_given. split.
  - intros orderId HorderId.
    assert (Elim : Db.whole_number (default_to (VNum (Num 3)) limit_given) = Some n).
    { subst limit_given n. destruct limit as [k|]; [|reflexivity].
      exact (whole_number_of_nat k). }
    unfold StatefulTools.getPurchaseHistory. rewrite bind_get, Hu.
    unfold try_catch. cbv zeta. rewrite Elim.
    assert (Efalsy : truthy (default_to VNull orderId) = false)
      by (destruct HorderId as [-> | ->]; reflexivity).
    rewrite Efalsy.
    erewrite bind_returned by (apply supabase_carried_out; [exact Ho | reflexivity]).
    cbn [error data]. fold mine.
    eexists. split; [reflexivity|].
    rewrite !map_map. cbn [fo_orderId fo_totalAmount owi_order Db.with_items].
    split; [reflexivity|]. split; [reflexivity|].
    rewrite !length_map, length_firstn. lia.
  - intros oid Hoid Hnone.
    unfold StatefulTools.getPurchaseHistory. rewrite bind_get, Hu.
    unfold try_catch. cbv zeta.
    cbn [default_to]. rewrite whole_number_of_nat.
    assert (Etruthy : truthy (VNum (Num (inject_Z (Z.of_nat oid)))) = true).
    { cbn [truthy]. rewrite is_zero_inject_Z.
      assert (E : (Z.of_nat oid =? 0)%Z = false) by (apply Z.eqb_neq; lia).
      now rewrite E. }
    rewrite Etruthy.
    erewrite bind_returned.
    2:{ apply supabase_refused; [exact Ho|].
        unfold Db.select_order. fold mine. rewrite Hnone. reflexivity. }
    reflexivity.
Qed.

(** Ann has placed order 1 and Bob order 2; Ann asks for her history, and
    for order 2. *)
Lemma getPurchaseHistory_shows_own_orders_witness :
  let s := mkStore Sample.catalog []
             [mkOrderRow 1 "u1" 30000 "Pending" "12 Long Street, Pune" "Ann" "9876543210";
              mkOrderRow 2 "u2" 6000 "Pending" "3 Short Lane, Pune" "Bob" "9123456780"]
             [] 3 in
  let w := mkWorld s [] (Some Sample.ann) Sample.catalog [] Sample.ann_profile [] in
  (exists orders,
     StatefulTools.getPurchaseHistory Sample.number_to_decimal VUndefined VUndefined w
     = (Ret (mkResponse true
               (Some ("Found " +++ show_nat (List.length orders) +++ " order(s)."))
               (Orders orders (List.length orders))),
        advance (db w) w)
     /\ map fo_orderId orders = [1]
     /\ map fo_totalAmount orders = [30000%Z]
     /\ List.length orders <= 3)
  /\ StatefulTools.getPurchaseHistory Sample.number_to_decimal VUndefined
       (VNum (Num (inject_Z (Z.of_nat 2)))) w
     = (Ret (failure "There was an error trying to fetch your order history."),
        advance (db w) w).
Proof.
  intros s w. split.
  - refine (proj1 (getPurchaseHistory_shows_own_orders Sample.number_to_decimal
                     w Sample.ann None _ _) VUndefined _);
      [reflexivity | reflexivity | now left].
  - refine (proj2 (getPurchaseHistory_shows_own_orders Sample.number_to_decimal
                     w Sample.ann None _ _) 2 _ _);
      [reflexivity | reflexivity | discriminate | reflexivity].
Defined.

Lemma processed_totals (items : list CartItem) :
  sumZ (map pi_total (map VoiceAssistant.processed items)) = total_of items
  /\ sumZ (map pi_quantity (map VoiceAssistant.processed items)) = count_of items.
Proof.
  unfold total_of, count_of. rewrite !map_map. split; reflexivity.
Qed.

(** X28.  getCartDetails (lines 1252-1307): the lines it lists add up to the
    totals it reports.  With a user signed in and the fetch carried out, the
    tool answers with success true and one line per row of the user's cart;
    the reported total is the sum of the totals of the lines, the reported
    item count is the sum of their quantities, and [isEmpty] tells whether
    there is no line.  Nothing is changed in the store. *)
Theorem getCartDetails_lines_add_up (w : World) (usr : User) :
  user w = Some usr -> uid usr <> "" ->
  fst (next_fault w) = carried_out ->
  exists msg lines itemCount totalAmount summary,
    VoiceAssistant.getCartDetails w
    = (Ret (mkResponse true (Some msg)
              (CartDetails lines itemCount totalAmount (List.length lines =? 0) summary)),
       advance (db w) w)
    /\ lines = map VoiceAssistant.processed (cart_view (db w) (uid usr))
    /\ totalAmount = sumZ (map pi_total lines)
    /\ itemCount = sumZ (map pi_quantity lines).
Proof.
  intros Hu Huid Ho.
  unfold VoiceAssistant.getCartDetails. rewrite bind_get, Hu.
  unfold try_catch, VoiceAssistant.fetchLatestCartState.
  apply String.eqb_neq in Huid. rewrite Huid.
  unfold try_catch.
  erewrite bind_returned.
  2:{ erewrite bind_returned by (apply supabase_carried_out; [exact Ho | reflexivity]).
      reflexivity. }
  cbn [error data cs_success negb cs_items cs_itemCount cs_totalAmount].
  fold (cart_view (db w) (uid usr)).
  rewrite sum_total_is_total_of, sum_count_is_count_of.
  destruct (processed_totals (cart_view (db w) (uid usr))) as [Et Ec].
  eexists _, (map VoiceAssistant.processed (cart_view (db w) (uid usr))), _, _, _.
  rewrite length_map.
  split; [reflexivity|]. split; [reflexivity|]. split; [now rewrite Et | now rewrite Ec].
Qed.

(** Ann asks what is in her cart. *)
Lemma getCartDetails_lines_add_up_witness :
  exists msg lines itemCount totalAmount summary,
    VoiceAssistant.getCartDetails Sample.world_cart
    = (Ret (mkResponse true (Some msg)
              (CartDetails lines itemCount totalAmount (List.length lines =? 0) summary)),
       advance (db Sample.world_cart) Sample.world_cart)
    /\ lines = map VoiceAssistant.processed (cart_view (db Sample.world_cart) "u1")
    /\ totalAmount = sumZ (map pi_total lines)
    /\ itemCount = sumZ (map pi_quantity lines).
Proof.
  apply (getCartDetails_lines_add_up Sample.world_cart Sample.ann);
    try reflexivity; discriminate.
Defined.

(** X29.  getUserStatus (lines 1601-1634) of a signed-in user, the backend
    without fault: the tool answers with success true, the user's e-mail
    address, the item count and the total of the cart in the table, and a
    profile flag that measures the phone number and the address as they are
    stored, as the cart dialog does; the world is as before.  (The voice
    tool placeOrder trims them first, so the flag can be true for a profile
    it refuses.) *)
Theorem getUserStatus_reports_cart_and_profile (w : World) (usr : User) :
  user w = Some usr -> uid usr <> "" -> faults w = [] ->
  exists msg,
    VoiceAssistant.getUserStatus w
    = (Ret (mkResponse true (Some msg)
              (SignedIn (email usr)
                 (count_of (cart_view (db w) (uid usr)))
                 (total_of (cart_view (db w) (uid usr)))
                 (Cart.isProfileComplete (Some (user_metadata w))))),
       w).
Proof.
  intros Hu Huid Hf.
  destruct w as [s fs u ps ci meta ts]. cbn [user faults db user_metadata] in *. subst u fs.
  change (mkWorld s [] (Some usr) ps ci meta ts) with (quiet usr ps meta s ci ts).
  unfold VoiceAssistant.getUserStatus, try_catch.
  rewrite bind_get. cbn [user quiet].
  erewrite bind_returned by (apply fetch_run; exact Huid).
  erewrite bind_returned by (apply getUserProfile_run).
  cbn [fetched cs_itemCount cs_totalAmount].
  rewrite sum_total_is_total_of, sum_count_is_count_of.
  eexists. reflexivity.
Qed.

(** Ann asks who she is. *)
Lemma getUserStatus_reports_cart_and_profile_witness :
  exists msg,
    VoiceAssistant.getUserStatus Sample.world_cart
    = (Ret (mkResponse true (Some msg)
              (SignedIn (email Sample.ann)
                 (count_of (cart_view (db Sample.world_cart) "u1"))
                 (total_of (cart_view (db Sample.world_cart) "u1"))
                 (Cart.isProfileComplete (Some Sample.ann_profile)))),
       Sample.world_cart).
Proof.
  apply (getUserStatus_reports_cart_and_profile Sample.world_cart Sample.ann);
    try reflexivity; discriminate.
Defined.
(* ------------------------------------------------------------------------- *)
(** ** The components *)

(** X23.  The profile checks of the two ways to check out.  The voice tool
    placeOrder measures the phone number and the address after trimming
    them, the cart dialog measures them as they are: a profile the voice
    tool accepts is complete for the dialog as well.  The badge of the
    profile dialog measures as the cart dialog does.  The converse of the
    first fails: nine digits and a space make a phone number of ten
    characters that the dialog accepts and the voice tool refuses. *)
Theorem voice_profile_check_is_the_stricter (p : Profile) :
  (VoiceAssistant.incomplete_profile (Some p) = false ->
   Cart.isProfileComplete (Some p) = true)
  /\ (forall i e,
        ProfileDialog.isProfileComplete
          (Some (ProfileDialog.mkUserProfile i e (full_name p) (phone p) (address p)))
        = Cart.isProfileComplete (Some p))
  /\ (let padded := mkProfile (full_name p) "987654321 " "12 Long Street, Pune" in
      Cart.isProfileComplete (Some padded) = true
      /\ VoiceAssistant.incomplete_profile (Some padded) = true).
Proof.
  split; [|split; [|split; reflexivity]].
  2:{ intros i e. unfold ProfileDialog.isProfileComplete, Cart.isProfileComplete.
      cbn [ProfileDialog.up_phone ProfileDialog.up_address].
      destruct (phone p =? "")%string, (address p =? "")%string,
        (10 <=? String.length (phone p)), (10 <=? String.length (address p)); reflexivity. }
  unfold VoiceAssistant.incomplete_profile, Cart.isProfileComplete.
  intros H. apply orb_false_iff in H. destruct H as [H Ha2].
  apply orb_false_iff in H. destruct H as [H Ha1].
  apply orb_false_iff in H. destruct H as [Hp1 Hp2].
  rewrite Hp1, Ha1. cbn [negb andb].
  apply Nat.ltb_ge in Hp2, Ha2.
  pose proof (length_trim (phone p)). pose proof (length_trim (address p)).
  assert (E1 : (10 <=? String.length (phone p)) = true) by (apply Nat.leb_le; lia).
  assert (E2 : (10 <=? String.length (address p)) = true) by (apply Nat.leb_le; lia).
  now rewrite E1, E2.
Qed.

(** X24.  The cart dialog calls [placeOrder] with three arguments.  On the
    provider whose [placeOrder] takes the items as a fourth argument
    (lines 241-303) the call finds no items and returns at once: with a
    complete profile, the handler of the order button writes nothing, shows
    nothing and closes the dialog as after an order, whatever the cart
    holds and whoever is signed in. *)
Theorem handlePlaceOrder_without_items_orders_nothing (w : World) (profile : Profile) :
  Cart.isProfileComplete (Some profile) = true ->
  Cart.handlePlaceOrder Cart.placeOrder_with_items (Some profile) false w = (Ret true, w).
Proof.
  intros H. unfold Cart.handlePlaceOrder. rewrite H. cbn [negb orb].
  unfold try_catch, Cart.placeOrder_with_items, AppContext.placeOrder, bind, get.
  destruct (user w); reflexivity.
Qed.

(** Ann presses the order button with 2 Apples and 1 Milk in her cart. *)
Lemma handlePlaceOrder_without_items_orders_nothing_witness :
  Cart.handlePlaceOrder Cart.placeOrder_with_items (Some Sample.ann_profile) false
    Sample.world_cart
  = (Ret true, Sample.world_cart).
Proof.
  apply (handlePlaceOrder_without_items_orders_nothing Sample.world_cart Sample.ann_profile).
  reflexivity.
Defined.

Lemma metadata_after_fetchProfile (st : ProfileDialog.State) (w : World) :
  user_metadata (snd (ProfileDialog.fetchProfile st w)) = user_metadata w.
Proof.
  unfold ProfileDialog.fetchProfile. rewrite bind_get.
  destruct (user w) as [usr|]; [|reflexivity].
  unfold try_catch, bind, auth_getUser, supabase.
  destruct (next_fault w) as [o rest]. destruct o; reflexivity.
Qed.

Lemma metadata_after_toast_fetch (msg : string) (st : ProfileDialog.State) (w : World) :
  user_metadata (snd ((toast msg ;;; ProfileDialog.fetchProfile st) w)) = user_metadata w.
Proof. unfold bind, toast. now rewrite metadata_after_fetchProfile. Qed.

Lemma metadata_after_catch {A} (m : M A) (msg : string) (a : A) (w : World) :
  user_metadata (snd (try_catch m (fun _ => toast msg ;;; ret a) w))
  = user_metadata (snd (m w)).
Proof. unfold try_catch. destruct (m w) as [[x|e] w1]; reflexivity. Qed.

(** X25.  [handleSave] of the profile dialog, with a user signed in.
    (1) A phone number or an address of fewer than 10 characters once
    trimmed is turned down with a toast before anything is sent: the world
    is otherwise as before and the dialog keeps its state.  (2) Otherwise,
    when the backend carries the update out, the stored profile is the
    trimmed form, whatever the fetch that follows does; and a profile
    stored this way passes the check of the voice tool placeOrder and the
    check of the cart dialog. *)
Theorem handleSave_stores_a_complete_profile
  (st : ProfileDialog.State) (w : World) (usr : User) :
  user w = Some usr ->
  let f := ProfileDialog.formData st in
  (String.length (trim (phone f)) < 10 \/ String.length (trim (address f)) < 10 ->
   exists msg, ProfileDialog.handleSave st w = (Ret st, toasted msg w))
  /\
  (10 <= String.length (trim (phone f)) ->
   10 <= String.length (trim (address f)) ->
   fst (next_fault w) = carried_out ->
   let stored := user_metadata (snd (ProfileDialog.handleSave st w)) in
   stored = mkProfile (trim (full_name f)) (trim (phone f)) (trim (address f))
   /\ VoiceAssistant.incomplete_profile (Some stored) = false
   /\ Cart.isProfileComplete (Some stored) = true).
Proof.
  intros Hu f. split.
  - intros Hshort. unfold ProfileDialog.handleSave. rewrite bind_get, Hu. fold f.
    destruct (String.length (trim (phone f)) <? 10) eqn:Ep.
    + rewrite orb_true_r. eexists. reflexivity.
    + apply Nat.ltb_ge in Ep.
      assert (Ep0 : (trim (phone f) =? "")%string = false).
      { apply String.eqb_neq. intros E. rewrite E in Ep. simpl in Ep. lia. }
      rewrite Ep0. cbn [orb].
      assert (Ea : (String.length (trim (address f)) <? 10) = true)
        by (apply Nat.ltb_lt; lia).
      rewrite Ea, orb_true_r. eexists. reflexivity.
  - intros Hp Ha Ho stored.
    assert (Np : forall s, 10 <= String.length s -> (s =? "")%string = false).
    { intros s H. apply String.eqb_neq. intros E. rewrite E in H. simpl in H. lia. }
    assert (Estored : stored
                      = mkProfile (trim (full_name f)) (trim (phone f)) (trim (address f))).
    { unfold stored, ProfileDialog.handleSave. rewrite bind_get, Hu. fold f.
      rewrite (Np _ Hp), (Np _ Ha).
      rewrite (proj2 (Nat.ltb_ge _ _) Hp), (proj2 (Nat.ltb_ge _ _) Ha). cbn [orb].
      rewrite metadata_after_catch.
      assert (Eup : forall meta,
                auth_updateUser meta w
                = (Ret (mkReply (Some tt) false),
                   mkWorld (db w) (snd (next_fault w)) (user w) (products w) (cartItems w)
                           meta (toasts w))).
      { intros meta. unfold auth_updateUser.
        destruct (next_fault w) as [o rest]. simpl in Ho. now subst o. }
      erewrite bind_returned by apply Eup.
      cbn [error]. now rewrite metadata_after_toast_fetch. }
    split; [exact Estored|]. rewrite Estored.
    unfold VoiceAssistant.incomplete_profile, Cart.isProfileComplete.
    cbn [phone address]. rewrite !trim_twice.
    rewrite (Np _ Hp), (Np _ Ha).
    rewrite (proj2 (Nat.ltb_ge _ _) Hp), (proj2 (Nat.ltb_ge _ _) Ha).
    rewrite (proj2 (Nat.leb_le _ _) Hp), (proj2 (Nat.leb_le _ _) Ha).
    split; reflexivity.
Qed.

(** Ann saves a phone number with spaces around it; then one of nine
    digits. *)
Lemma handleSave_stores_a_complete_profile_witness :
  let good := ProfileDialog.mkState None true
                (mkProfile " Ann " " 9876543210 " "12 Long Street, Pune ") in
  let short := ProfileDialog.mkState None true
                 (mkProfile "Ann" "987654321 " "12 Long Street, Pune") in
  (exists msg, ProfileDialog.handleSave short Sample.world0
               = (Ret short, toasted msg Sample.world0))
  /\ (let stored := user_metadata (snd (ProfileDialog.handleSave good Sample.world0)) in
      stored = mkProfile (trim " Ann ") (trim " 9876543210 ") (trim "12 Long Street, Pune ")
      /\ VoiceAssistant.incomplete_profile (Some stored) = false
      /\ Cart.isProfileComplete (Some stored) = true).
Proof.
  intros good short. split.
  - refine (proj1 (handleSave_stores_a_complete_profile short Sample.world0 Sample.ann _) _).
    + reflexivity.
    + left. simpl. lia.
  - refine (proj2 (handleSave_stores_a_complete_profile good Sample.world0 Sample.ann _) _ _ _).
    + reflexivity.
    + simpl. lia.
    + simpl. lia.
    + reflexivity.
Defined.

Lemma no_row_filter (u pid : string) (rows : list CartRow) :
  existsb (Db.is_row u pid) rows = false ->
  filter (fun r => negb (Db.is_row u pid r)) rows = rows.
Proof.
  induction rows as [|x rows IH]; simpl; [reflexivity|].
  intros H. apply orb_false_iff in H. destruct H as [Hx H].
  rewrite Hx. simpl. now rewrite IH.
Qed.

Lemma no_row_no_item (s : Store) (u pid : string) (rows : list CartRow) :
  existsb (Db.is_row u pid) rows = false ->
  find (fun item => (ci_product_id item =? pid)%string)
    (map (Db.join_product s) (filter (fun x => (cr_user_id x =? u)%string) rows))
  = None.
Proof.
  induction rows as [|x rows IH]; simpl; [reflexivity|].
  intros H. apply orb_false_iff in H. destruct H as [Hx H]. specialize (IH H).
  destruct (cr_user_id x =? u)%string eqn:Eu; [|exact IH].
  simpl. unfold Db.is_row in Hx. rewrite Eu in Hx. simpl in Hx. now rewrite Hx.
Qed.

Lemma new_row_is_found (s : Store) (u pid : string) (rows : list CartRow) (r : CartRow) :
  existsb (Db.is_row u pid) rows = false ->
  Db.is_row u pid r = true ->
  find (fun item => (ci_product_id item =? pid)%string)
    (map (Db.join_product s) (filter (fun x => (cr_user_id x =? u)%string) (rows ++ [r])))
  = Some (Db.join_product s r).
Proof.
  intros Hrows Hr. rewrite filter_app, map_app.
  destruct (is_row_fields _ _ _ Hr) as [Eu Ep].
  induction rows as [|x rows IH]; simpl.
  - rewrite Eu, String.eqb_refl. simpl. now rewrite Ep, String.eqb_refl.
  - simpl in Hrows. apply orb_false_iff in Hrows. destruct Hrows as [Hx Hrows].
    specialize (IH Hrows).
    destruct (cr_user_id x =? u)%string eqn:Ex; [|exact IH].
    simpl. unfold Db.is_row in Hx. rewrite Ex in Hx. simpl in Hx. now rewrite Hx.
Qed.

(** X26.  The buttons of a product card: add, then minus.  A user is signed
    in, the backend has no fault, the provider's cart agrees with the table
    and holds nothing of the product.  After [handleAdd] the table has one
    more row, of quantity 1, and the card shows 1; [handleDecrease] at 1
    asks for a quantity of 0, which deletes the row: the cart table is back
    to the rows it had, and the card shows 0. *)
Theorem product_card_add_then_minus
  (w : World) (usr : User) (product : Product) :
  user w = Some usr -> faults w = [] ->
  cartItems w = cart_view (db w) (uid usr) ->
  existsb (Db.is_row (uid usr) (id product)) (tbl_cart_items (db w)) = false ->
  let w1 := snd (ProductCard.handleAdd product w) in
  let w2 := snd (ProductCard.handleDecrease product w1) in
  tbl_cart_items (db w1)
  = tbl_cart_items (db w) ++ [mkCartRow (next_id (db w)) (uid usr) (id product) 1]
  /\ ProductCard.quantity product (cartItems w1) = 1%Z
  /\ tbl_cart_items (db w2) = tbl_cart_items (db w)
  /\ ProductCard.quantity product (cartItems w2) = 0%Z.
Proof.
  intros Hu Hf Hsync Hrow.
  destruct w as [s fs u ps ci meta ts]. cbn [user faults db cartItems] in *. subst u fs ci.
  set (r := mkCartRow (next_id s) (uid usr) (id product) 1).
  set (s1 := mkStore (tbl_products s) (tbl_cart_items s ++ [r]) (tbl_orders s)
                     (tbl_order_items s) (S (next_id s))).
  assert (Hr : Db.is_row (uid usr) (id product) r = true).
  { unfold Db.is_row, r. cbn. now rewrite !String.eqb_refl. }
  assert (E1 : ProductCard.handleAdd product
                 (mkWorld s [] (Some usr) ps (cart_view s (uid usr)) meta ts)
               = (Ret tt, mkWorld s1 [] (Some usr) ps (cart_view s1 (uid usr)) meta
                            (ts ++ ["Item added to cart!"]))).
  { unfold ProductCard.handleAdd, background, AppContext.addToCart, AppContext.addToCart_in.
    rewrite bind_get. cbn [cartItems]. rewrite bind_get. cbn [user].
    unfold cart_view at 1. rewrite (no_row_no_item _ _ _ _ Hrow).
    erewrite bind_returned.
    2:{ apply supabase_carried_out; [reflexivity|].
        cbn [db]. unfold Db.insert_cart. rewrite Hrow. reflexivity. }
    reflexivity. }
  assert (Q1 : ProductCard.quantity product (cart_view s1 (uid usr)) = 1%Z).
  { unfold ProductCard.quantity, cart_view, s1. cbn [tbl_cart_items].
    now rewrite (new_row_is_found _ _ _ _ _ Hrow Hr). }
  assert (Efilter : filter (fun x => negb (Db.is_row (uid usr) (id product) x))
                      (tbl_cart_items s ++ [r]) = tbl_cart_items s).
  { rewrite filter_app, (no_row_filter _ _ _ Hrow). simpl. rewrite Hr. simpl.
    apply app_nil_r. }
  cbv zeta. rewrite E1. cbn [snd db cartItems].
  split; [reflexivity|]. split; [exact Q1|].
  unfold ProductCard.handleDecrease. rewrite bind_get. cbn [cartItems].
  rewrite Q1. cbn [Z.ltb Z.compare Pos.compare Pos.compare_cont].
  unfold background, AppContext.updateCartQuantity.
  rewrite bind_get. cbn [user int_le0 Z.leb Z.compare].
  unfold AppContext.removeFromCart. rewrite bind_get. cbn [user].
  erewrite bind_returned by (apply supabase_carried_out; reflexivity).
  cbn [error]. erewrite bind_returned by reflexivity.
  unfold AppContext.refreshCart. rewrite bind_get. cbn [user advance].
  erewrite bind_returned by (apply supabase_carried_out; reflexivity).
  cbn [error data setCartItems snd db cartItems advance Db.delete_cart Db.select_cart
       tbl_cart_items s1 fst].
  rewrite Efilter. split; [reflexivity|].
  unfold ProductCard.quantity. now rewrite (no_row_no_item _ _ _ _ Hrow).
Qed.

(** Ann, with an empty cart, adds Milk from its card and takes it out
    again. *)
Lemma product_card_add_then_minus_witness :
  let w1 := snd (ProductCard.handleAdd Sample.milk Sample.world0) in
  let w2 := snd (ProductCard.handleDecrease Sample.milk w1) in
  tbl_cart_items (db w1) = [] ++ [mkCartRow 1 "u1" "p2" 1]
  /\ ProductCard.quantity Sample.milk (cartItems w1) = 1%Z
  /\ tbl_cart_items (db w2) = []
  /\ ProductCard.quantity Sample.milk (cartItems w2) = 0%Z.
Proof.
  apply (product_card_add_then_minus Sample.world0 Sample.ann Sample.milk); reflexivity.
Defined.

(** X30.  The buttons keep the quantities of the cart table at 1 or more,
    as the tools do: the plus, minus and remove buttons of the cart dialog
    (whatever quantity the dialog asks for) and the buttons of a product
    card (whatever the provider's state says the quantity is), whatever the
    backend does. *)
Theorem buttons_keep_quantities_positive
  (w : World) (product : Product) (productId : string) (newQuantity : Z) :
  quantities_positive (db w) ->
  quantities_positive (db (snd (Cart.handleQuantityChange productId newQuantity w)))
  /\ quantities_positive (db (snd (Cart.handleRemoveItem productId w)))
  /\ quantities_positive (db (snd (ProductCard.handleAdd product w)))
  /\ quantities_positive (db (snd (ProductCard.handleIncrease product w)))
  /\ quantities_positive (db (snd (ProductCard.handleDecrease product w))).
Proof.
  intros H.
  assert (Hw : holding (user w) quantities_positive w) by (split; [reflexivity | exact H]).
  pose proof (positive_kept_by_cart_ops (user w)) as K.
  assert (Hupd : forall pid q,
            keeps (holding (user w) quantities_positive)
                  (background (AppContext.updateCartQuantity pid q))).
  { intros pid q. apply keeps_background. now apply keeps_updateCartQuantity. }
  assert (Hadd : keeps (holding (user w) quantities_positive)
                       (ProductCard.handleAdd product)).
  { apply keeps_background. apply keeps_addToCart; [exact K | simpl; lia]. }
  assert (Hinc : keeps (holding (user w) quantities_positive)
                       (ProductCard.handleIncrease product)).
  { unfold ProductCard.handleIncrease.
    apply keeps_bind; [apply keeps_get | intros items; apply Hupd]. }
  assert (Hdec : keeps (holding (user w) quantities_positive)
                       (ProductCard.handleDecrease product)).
  { unfold ProductCard.handleDecrease.
    apply keeps_bind; [apply keeps_get|].
    intros items. destruct (1 <? _)%Z; apply Hupd. }
  repeat split.
  - exact (proj2 (Hupd productId (Fin newQuantity) w Hw)).
  - exact (proj2 (Hupd productId (Fin 0) w Hw)).
  - exact (proj2 (Hadd w Hw)).
  - exact (proj2 (Hinc w Hw)).
  - exact (proj2 (Hdec w Hw)).
Qed.

(** The minus button of the cart dialog at Ann's single Milk. *)
Lemma buttons_keep_quantities_positive_witness :
  quantities_positive (db (snd (Cart.handleQuantityChange "p2" (1 - 1) Sample.world_cart)))
  /\ quantities_positive (db (snd (Cart.handleRemoveItem "p2" Sample.world_cart)))
  /\ quantities_positive (db (snd (ProductCard.handleAdd Sample.milk Sample.world_cart)))
  /\ quantities_positive (db (snd (ProductCard.handleIncrease Sample.milk Sample.world_cart)))
  /\ quantities_positive (db (snd (ProductCard.handleDecrease Sample.milk Sample.world_cart))).
Proof.
  apply (buttons_keep_quantities_positive Sample.world_cart Sample.milk "p2" (1 - 1)).
  unfold quantities_positive. simpl. repeat constructor; simpl; lia.
Defined.
